(** * GameHub API proxy worker: a shallow embedding of [src/index.ts]

    The worker is one [fetch] handler: it answers CORS preflights, replaces
    the placeholder credential ["fake-token"] by a real one (re-signing the
    body), dispatches on path and method to ten handlers, and proxies every
    other path to the static repository.

    Modelling conventions.
    - JavaScript values are the inductive type [JsVal]; objects are
      association lists in insertion order (the order of [Object.keys] and of
      [JSON.stringify] for the non-index keys the worker uses).
    - Strings are lists of code units ([string]); numbers are integers ([Z]),
      exact wherever IEEE doubles are, and written as texts with all their
      digits, as the platform writes them below 10^21 ([Js.decimal], a
      hypothesis of the theorems that pin the text of a number the caller
      chooses).  Arithmetic on values that
      are not numbers, and property writes on arrays (but for the body of
      the interception, whose array case is spelled out), are outside the
      embedded fragment: the model stops there with the outcome
      [Unmodelled], about which no theorem says anything.
    - Header values are kept as they are given, as the platform keeps the
      values that have no whitespace at their ends and no NUL, line feed
      or carriage return ([Headers.stored_as_given], a hypothesis of the
      theorems that pin a header value made from the credential).
    - Exceptions are the outcome [Throw message]: every value thrown in the
      worker is an [Error] raised by the platform, so only its message is kept.
    - What the platform provides is a parameter, gathered in the record
      [Runtime]: [JSON.parse], the digest of [./md5.js], the network behind
      the global [fetch], the content of [caches.default], the clock and the
      [env] binding.  Every theorem holds for every runtime.
    - Effects are recorded in a trace of [Event]s: a computation of type
      [M A] is the list of cache look-ups, upstream fetches and scheduled
      cache writes it performed, with its outcome.  [console.log] is dropped. *)

From Stdlib Require Import String Ascii ZArith List Bool Lia.
From Stdlib Require Import DecimalString DecimalPos DecimalZ.
From Stdlib Require Import Sorting.Mergesort Sorting.Sorted Sorting.Permutation.
From Stdlib Require Import Structures.Orders Structures.OrderedTypeEx.
From ExtLib Require Import Structures.Monad.
Import ListNotations.
Import MonadNotation.

Local Open Scope string_scope.
Local Open Scope Z_scope.
Local Open Scope monad_scope.

(** ** Strings *)

Module Str.

(** The double quote, as a one-character string. *)
Definition dq : string := String (ascii_of_nat 34) EmptyString.

(** [q s] is [s] between double quotes, without escaping. *)
Definition q (s : string) : string := dq ++ s ++ dq.

(** [String.prototype.includes]. *)
Fixpoint includes (s sub : string) : bool :=
  String.prefix sub s ||
  match s with
  | EmptyString => false
  | String _ rest => includes rest sub
  end.

(** The text after the first [n] code units. *)
Fixpoint drop (n : nat) (s : string) : string :=
  match n, s with
  | O, _ => s
  | S _, EmptyString => EmptyString
  | S m, String _ rest => drop m rest
  end.

(** Splits [s] at the first occurrence of [pat]: the text before it and
    the text after it. *)
Fixpoint split_first (s pat : string) : option (string * string) :=
  if String.prefix pat s then Some (EmptyString, drop (String.length pat) s)
  else match s with
       | EmptyString => None
       | String c rest =>
           match split_first rest pat with
           | Some (before, after) => Some (String c before, after)
           | None => None
           end
       end.

(** [GetSubstitution] for a string pattern (no capture groups): in the
    replacement text [$$] is a dollar sign, [$&] the matched text, [$`] the
    text before the match and [$'] the text after it; any other [$] stands
    for itself. *)
Fixpoint substitution (matched before after repl : string) : string :=
  match repl with
  | EmptyString => EmptyString
  | String c rest =>
      if (c =? "$")%char then
        match rest with
        | String d rest' =>
            if (d =? "$")%char then String "$" (substitution matched before after rest')
            else if (d =? "&")%char then matched ++ substitution matched before after rest'
            else if (d =? "`")%char then before ++ substitution matched before after rest'
            else if (d =? "'")%char then after ++ substitution matched before after rest'
            else String c (substitution matched before after rest)
        | EmptyString => String c EmptyString
        end
      else String c (substitution matched before after rest)
  end.

(** [String.prototype.replace] with a string pattern: the first occurrence
    only. *)
Definition replace (s pat repl : string) : string :=
  match split_first s pat with
  | Some (before, after) => before ++ substitution pat before after repl ++ after
  | None => s
  end.

Definition lower_ascii (c : ascii) : ascii :=
  let n := nat_of_ascii c in
  if (Nat.leb 65 n && Nat.leb n 90)%bool then ascii_of_nat (n + 32) else c.

(** [toLowerCase] on the letters A to Z, the only ones a hexadecimal digest
    or a header name has. *)
Fixpoint toLowerCase (s : string) : string :=
  match s with
  | EmptyString => EmptyString
  | String c rest => String (lower_ascii c) (toLowerCase rest)
  end.

Definition is_upper (c : ascii) : bool :=
  let n := nat_of_ascii c in (Nat.leb 65 n && Nat.leb n 90)%bool.

Fixpoint no_upper (s : string) : bool :=
  match s with
  | EmptyString => true
  | String c rest => negb (is_upper c) && no_upper rest
  end.

(** [Array.prototype.join]. *)
Definition join (sep : string) (l : list string) : string := String.concat sep l.

(** [Number.prototype.toString] on an integer below 10^21 in absolute
    value, which is written with all its digits; from 10^21 on the platform
    writes a mantissa and an exponent, which this function does not (see
    [Js.decimal]). *)
Definition of_Z (n : Z) : string := NilZero.string_of_int (Z.to_int n).

(** [String.prototype.slice] and [Array.prototype.slice] clamp their
    bounds alike: a negative bound counts from the end. *)
Definition clamp (len i : Z) : Z :=
  if i <? 0 then Z.max (len + i) 0 else Z.min i len.

Definition slice (s : string) (from to : Z) : string :=
  let len := Z.of_nat (String.length s) in
  let a := clamp len from in
  let b := clamp len to in
  String.substring (Z.to_nat a) (Z.to_nat (Z.max (b - a) 0)) s.

End Str.

(** ** JavaScript values *)

#[warnings="-register-all"] Inductive JsVal : Type :=
| JUndefined
| JNull
| JBool (b : bool)
| JNum (n : Z)
| JStr (s : string)
| JArr (items : list JsVal)
| JObj (props : list (string * JsVal))
| JNative (src : string).
(** [JNative src] is a built-in function reached through a prototype; [src]
    is the text it converts to. *)

(** What a computation ends in. *)
Inductive Outcome (A : Type) : Type :=
| Ok (a : A)
| Throw (message : string)
| Unmodelled.
Arguments Ok {A} a.
Arguments Throw {A} message.
Arguments Unmodelled {A}.

#[export] Instance Monad_Outcome : Monad Outcome :=
  {| ret := @Ok;
     bind := fun A B (c : Outcome A) (k : A -> Outcome B) =>
               match c with
               | Ok a => k a
               | Throw m => Throw m
               | Unmodelled => Unmodelled
               end |}.

Module Js.

(** [ToBoolean]. *)
Definition truthy (v : JsVal) : bool :=
  match v with
  | JUndefined | JNull => false
  | JBool b => b
  | JNum n => negb (n =? 0)
  | JStr s => negb (s =? "")%string
  | JArr _ | JObj _ | JNative _ => true
  end.

(** [a || b]. *)
Definition or (a b : JsVal) : JsVal := if truthy a then a else b.

(** [ToString], as a template literal applies it. *)
Fixpoint ToString (v : JsVal) : string :=
  match v with
  | JUndefined => "undefined"
  | JNull => "null"
  | JBool true => "true"
  | JBool false => "false"
  | JNum n => Str.of_Z n
  | JStr s => s
  | JArr items =>
      Str.join ","
        (map (fun x => match x with
                       | JUndefined | JNull => ""
                       | _ => ToString x
                       end) items)
  | JObj _ => "[object Object]"
  | JNative src => src
  end.


Fixpoint lookup (k : string) (props : list (string * JsVal)) : option JsVal :=
  match props with
  | [] => None
  | (k', v) :: rest => if (k' =? k)%string then Some v else lookup k rest
  end.

(** [Object.keys]. *)
Definition keys (props : list (string * JsVal)) : list string := map fst props.

(** [o[k]] on the own properties of an object. *)
Definition own (props : list (string * JsVal)) (k : string) : JsVal :=
  match lookup k props with
  | Some v => v
  | None => JUndefined
  end.

(** [v.k] for the property names the worker reads, none of which a
    built-in prototype defines: reading from [null] or [undefined] throws,
    reading from any other value that is not an object gives [undefined]. *)
Definition Get (v : JsVal) (k : string) : Outcome JsVal :=
  match v with
  | JUndefined =>
      Throw ("Cannot read properties of undefined (reading '" ++ k ++ "')")
  | JNull => Throw ("Cannot read properties of null (reading '" ++ k ++ "')")
  | JObj props => Ok (own props k)
  | _ => Ok JUndefined
  end.

(** Assignment to a property keeps the position of a key that exists and
    appends a new one. *)
Fixpoint assign (k : string) (x : JsVal) (props : list (string * JsVal))
  : list (string * JsVal) :=
  match props with
  | [] => [(k, x)]
  | (k', v) :: rest =>
      if (k' =? k)%string then (k', x) :: rest else (k', v) :: assign k x rest
  end.

(** [typeof v]. *)
Definition typeof (v : JsVal) : string :=
  match v with
  | JUndefined => "undefined"
  | JBool _ => "boolean"
  | JNum _ => "number"
  | JStr _ => "string"
  | JNull | JArr _ | JObj _ => "object"
  | JNative _ => "function"
  end.

(** [v.k = x] in strict code (a module is strict): it throws on [null],
    [undefined] and on primitives, with the messages of the engine.  On an
    array or a function the assignment makes a named property, which the
    values here have no place for. *)
Definition Set_ (v : JsVal) (k : string) (x : JsVal) : Outcome JsVal :=
  match v with
  | JUndefined =>
      Throw ("Cannot set properties of undefined (setting '" ++ k ++ "')")
  | JNull => Throw ("Cannot set properties of null (setting '" ++ k ++ "')")
  | JObj props => Ok (JObj (assign k x props))
  | JBool _ | JNum _ | JStr _ =>
      Throw ("Cannot create property '" ++ k ++ "' on " ++ typeof v
               ++ " '" ++ ToString v ++ "'")
  | JArr _ | JNative _ => Unmodelled
  end.

Fixpoint remove (k : string) (props : list (string * JsVal))
  : list (string * JsVal) :=
  match props with
  | [] => []
  | (k', v) :: rest =>
      if (k' =? k)%string then remove k rest else (k', v) :: remove k rest
  end.

(** [delete v.k] for a truthy [v] and a name no prototype defines. *)
Definition Delete (v : JsVal) (k : string) : JsVal :=
  match v with
  | JObj props => JObj (remove k props)
  | _ => v
  end.

(** [v.length]. *)
Definition length (v : JsVal) : JsVal :=
  match v with
  | JArr items => JNum (Z.of_nat (List.length items))
  | JStr s => JNum (Z.of_nat (String.length s))
  | _ => JUndefined
  end.

Definition slice_list {A : Type} (l : list A) (from to : Z) : list A :=
  let len := Z.of_nat (List.length l) in
  let a := Str.clamp len from in
  let b := Str.clamp len to in
  firstn (Z.to_nat (Z.max (b - a) 0)) (skipn (Z.to_nat a) l).

(** [v.slice(from, to)]: arrays and strings have the method, on anything
    else the call throws. *)
Definition slice (v : JsVal) (from to : Z) : Outcome JsVal :=
  match v with
  | JArr items => Ok (JArr (slice_list items from to))
  | JStr s => Ok (JStr (Str.slice s from to))
  | _ => Throw "allItems.slice is not a function"
  end.

(** The operands of [-], [*] and [+] the model covers: numbers. *)
Definition number (v : JsVal) : Outcome Z :=
  match v with
  | JNum n => Ok n
  | _ => Unmodelled
  end.

End Js.

(** ** JSON.stringify *)

Module JSON.

Definition hex_digit (n : nat) : ascii :=
  ascii_of_nat (if Nat.ltb n 10 then 48 + n else 87 + n).

(** One code unit inside a JSON string ([QuoteJSONString]). *)
Definition escape (c : ascii) : string :=
  let n := nat_of_ascii c in
  if Nat.eqb n 34 then String "\" Str.dq
  else if Nat.eqb n 92 then "\\"
  else if Nat.eqb n 8 then "\b"
  else if Nat.eqb n 9 then "\t"
  else if Nat.eqb n 10 then "\n"
  else if Nat.eqb n 12 then "\f"
  else if Nat.eqb n 13 then "\r"
  else if Nat.ltb n 32 then
    "\u00" ++ String (hex_digit (Nat.div n 16))
                (String (hex_digit (Nat.modulo n 16)) EmptyString)
  else String c EmptyString.

Fixpoint escape_all (s : string) : string :=
  match s with
  | EmptyString => EmptyString
  | String c rest => escape c ++ escape_all rest
  end.

Definition quote (s : string) : string := Str.dq ++ escape_all s ++ Str.dq.

(** [SerializeJSONProperty]: [None] is the [undefined] that
    [JSON.stringify] gives for [undefined] and for functions; such a
    property of an object is left out, such an element of an array is
    written [null]. *)
Fixpoint serialize (v : JsVal) : option string :=
  match v with
  | JUndefined | JNative _ => None
  | JNull => Some "null"
  | JBool true => Some "true"
  | JBool false => Some "false"
  | JNum n => Some (Str.of_Z n)
  | JStr s => Some (quote s)
  | JArr items =>
      Some ("[" ++ Str.join ","
              (map (fun x => match serialize x with
                             | Some s => s
                             | None => "null"
                             end) items) ++ "]")
  | JObj props =>
      Some ("{" ++ Str.join ","
              (flat_map (fun kv => match serialize (snd kv) with
                                   | Some s => [quote (fst kv) ++ ":" ++ s]
                                   | None => []
                                   end) props) ++ "}")
  end.

(** [JSON.stringify]. *)
Definition stringify (v : JsVal) : option string := serialize v.


(** The properties of an object that [JSON.stringify] writes. *)
Definition written (props : list (string * JsVal)) : list (string * JsVal) :=
  filter (fun kv => match serialize (snd kv) with
                    | Some _ => true
                    | None => false
                    end) props.

End JSON.

(** ** Sorting strings

    [Array.prototype.sort] without a comparator orders strings by their code
    units; [String.leb] is that order. *)

Module StringOrder <: Orders.TotalLeBool.
Definition t := string.
Definition leb := String.leb.
Definition leb_total := String.leb_total.
End StringOrder.

Module StringSort := Sort StringOrder.

(** ** HTTP headers

    A header list in the order the headers were added.  Names compare
    without case; a name added twice has its values joined by a comma and a
    space when read ([get]); a [Headers] object built from a plain object
    appends each of its properties in turn ([of_record]), and iterating one
    gives the lower-cased names in sorted order with their joined values
    ([entries]). *)

Definition Headers := list (string * string).

Module Headers.

Definition same_name (a b : string) : bool :=
  (Str.toLowerCase a =? Str.toLowerCase b)%string.

Definition values (h : Headers) (name : string) : list string :=
  map snd (filter (fun e => same_name (fst e) name) h).

Definition get (h : Headers) (name : string) : option string :=
  match values h name with
  | [] => None
  | vs => Some (Str.join ", " vs)
  end.

Definition append (h : Headers) (name value : string) : Headers :=
  (h ++ [(name, value)])%list.

Definition delete (h : Headers) (name : string) : Headers :=
  filter (fun e => negb (same_name (fst e) name)) h.




(** [set] overwrites the first header of that name and removes the others
    (for a value that is [stored_as_given]). *)
Fixpoint set (h : Headers) (name value : string) : Headers :=
  match h with
  | [] => [(name, value)]
  | (n, v) :: rest =>
      if same_name n name then (n, value) :: delete rest name
      else (n, v) :: set rest name value
  end.

(** [new Headers(record)]. *)
Definition of_record (fields : list (string * string)) : Headers :=
  fold_left (fun h kv => append h (fst kv) (snd kv)) fields [].

Fixpoint dedup (l : list string) : list string :=
  match l with
  | [] => []
  | x :: rest =>
      if existsb (String.eqb x) rest then dedup rest else x :: dedup rest
  end.

(** The iteration of a [Headers] object; [set-cookie] values are not
    joined. *)
Definition entries (h : Headers) : list (string * string) :=
  flat_map
    (fun name =>
       if (name =? "set-cookie")%string
       then map (fun v => (name, v)) (values h name)
       else match get h name with
            | Some v => [(name, v)]
            | None => []
            end)
    (StringSort.sort (dedup (map (fun e => Str.toLowerCase (fst e)) h))).

(** Assignment to a key of a plain object of strings. *)
Fixpoint assign (k v : string) (o : list (string * string))
  : list (string * string) :=
  match o with
  | [] => [(k, v)]
  | (k', v') :: rest =>
      if (k' =? k)%string then (k', v) :: rest else (k', v') :: assign k v rest
  end.

(** [{...o, ...extra}]: the keys of [extra] are assigned in order. *)
Definition spread (o extra : list (string * string)) : list (string * string) :=
  fold_left (fun acc kv => assign (fst kv) (snd kv) acc) extra o.

(** [Object.fromEntries]. *)
Definition fromEntries (es : list (string * string)) : list (string * string) :=
  spread [] es.

(** The values a plain object or a list of entries has under a key, the
    case of the letters counting. *)
Definition at_key (o : list (string * string)) (k : string) : list string :=
  map snd (filter (fun e => (fst e =? k)%string) o).

End Headers.

(** ** Requests and responses *)

(** A body: none, a text, or the text that [JSON.stringify] gives for a
    value.  The value is kept so that statements can speak of the fields of
    a body; [Body.text] is what goes over the wire. *)
Inductive Body : Type :=
| Empty
| Text (s : string)
| Json (v : JsVal).

Module Body.
Definition text (b : Body) : string :=
  match b with
  | Empty => ""
  | Text s => s
  | Json v => match JSON.stringify v with
              | Some s => s
              | None => ""
              end
  end.

(** A body is null when there is none; [JSON.stringify] gives [undefined],
    hence no body, for [undefined] and for functions. *)
Definition is_null (b : Body) : bool :=
  match b with
  | Empty => true
  | Text _ => false
  | Json v => match JSON.stringify v with
              | Some _ => false
              | None => true
              end
  end.
End Body.

Record URL : Type := { origin : string; pathname : string; search : string }.

Definition href (u : URL) : string := origin u ++ pathname u ++ search u.

Module Request.
Record t : Type :=
  { method : string; url : URL; headers : Headers; body : Body }.

(** [request.text()]: a request without a body reads as the empty text. *)
Definition text (r : t) : string := Body.text (body r).
End Request.

Module Response.
Record t : Type := { status : Z; headers : Headers; body : Body }.

Definition ok (r : t) : bool := (200 <=? status r) && (status r <=? 299).

Definition text (r : t) : string := Body.text (body r).

Definition null_body_status (s : Z) : bool :=
  (s =? 101) || (s =? 204) || (s =? 205) || (s =? 304).

(** [new Response(body, { status, headers })] refuses a status outside
    200..599 and a body with a null-body status. *)
Definition make (b : Body) (s : Z) (h : Headers) : Outcome t :=
  if negb ((200 <=? s) && (s <=? 599)) then
    Throw "Responses may only be constructed with status codes in the range 200 to 599, inclusive."
  else if null_body_status s && negb (Body.is_null b) then
    Throw "Response with null body status (101, 204, 205, or 304) cannot have a body."
  else Ok {| status := s; headers := h; body := b |}.
End Response.

(** The [cf] options of an upstream fetch. *)
Record CfOptions : Type := { cacheTtl : Z; cacheEverything : bool }.

(** The arguments of one call of the global [fetch]. *)
Module Fetch.
Record t : Type :=
  { url : string;
    method : string;
    headers : Headers;
    body : Body;
    cf : option CfOptions }.

(** [fetch(url)]. *)
Definition simple (u : string) : t :=
  {| url := u; method := "GET"; headers := []; body := Empty; cf := None |}.
End Fetch.

(** ** The platform *)

Record Runtime : Type :=
  { (** [env.TOKEN_REFRESHER_URL], the absolute address of a deployment
        (with a text that is no address, the [new Request] of line 80
        throws, and what follows it in the model is not reached) *)
    TOKEN_REFRESHER_URL : string;
    (** [JSON.parse] *)
    parse : string -> Outcome JsVal;
    (** [md5], imported from [./md5.js]: the digest is a parameter, a
        function from texts to digests written in hexadecimal *)
    md5 : string -> string;
    (** what the network answers to a call of [fetch] *)
    network : Fetch.t -> Outcome Response.t;
    (** [caches.default.match], by the URL of the key *)
    cache : string -> option Response.t;
    (** [Date.now()] *)
    now : Z }.

(** ** Effects *)

Inductive Event : Type :=
| CacheMatch (key : string)
| Fetched (rq : Fetch.t)
| CachePut (key : string) (r : Response.t).

Record M (A : Type) : Type := Run { trace : list Event; outcome : Outcome A }.
Arguments Run {A} trace outcome.
Arguments trace {A} m.
Arguments outcome {A} m.

#[export] Instance Monad_M : Monad M :=
  {| ret := fun A (a : A) => Run [] (Ok a);
     bind := fun A B (c : M A) (k : A -> M B) =>
               match outcome c with
               | Ok a => Run (trace c ++ trace (k a))%list (outcome (k a))
               | Throw m => Run (trace c) (Throw m)
               | Unmodelled => Run (trace c) Unmodelled
               end |}.

(** A computation without effects. *)
Definition pure {A : Type} (o : Outcome A) : M A := Run [] o.

Definition emit (e : Event) : M unit := Run [e] (Ok tt).

(** ** The worker ([src/index.ts]) *)

Definition GITHUB_BASE : string :=
  "https://raw.githubusercontent.com/gamehublite/gamehub_api/main".
Definition NEWS_AGGREGATOR_URL : string :=
  "https://gamehub-news-aggregator.secureflex.workers.dev".
Definition GAMEHUB_SECRET_KEY : string := "all-egg-shell-y7ZatUDk".

(** The placeholder credential. *)
Definition fake_token : string := "fake-token".

(** Map component types to their manifest files. *)
Definition TYPE_TO_MANIFEST : list (string * JsVal) :=
  [ ("1", JStr "/components/box64_manifest");
    ("2", JStr "/components/drivers_manifest");
    ("3", JStr "/components/dxvk_manifest");
    ("4", JStr "/components/vkd3d_manifest");
    ("5", JStr "/components/games_manifest");
    ("6", JStr "/components/libraries_manifest");
    ("7", JStr "/components/steam_manifest") ].

(** What an object literal inherits from [Object.prototype]. *)
Definition Object_prototype : list (string * JsVal) :=
  map (fun name => (name, JNative ("function " ++ name ++ "() { [native code] }")))
      [ "toString"; "toLocaleString"; "valueOf"; "hasOwnProperty";
        "isPrototypeOf"; "propertyIsEnumerable"; "__defineGetter__";
        "__defineSetter__"; "__lookupGetter__"; "__lookupSetter__" ]
  ++ [ ("constructor", JNative "function Object() { [native code] }");
       ("__proto__", JObj []) ].

(** [o[key]] on an object literal: the key is converted to a string and
    looked up in the literal, then in its prototype. *)
Definition index (o : list (string * JsVal)) (key : JsVal) : JsVal :=
  match Js.lookup (Js.ToString key) o with
  | Some v => v
  | None => Js.own Object_prototype (Js.ToString key)
  end.

Definition corsHeaders : list (string * string) :=
  [ ("Access-Control-Allow-Origin", "*");
    ("Access-Control-Allow-Methods", "GET, POST, OPTIONS");
    ("Access-Control-Allow-Headers", "Content-Type") ].

(** [new Response(body, { status, headers: { 'Content-Type': type,
    ...corsHeaders } })]. *)
Definition respond (s : Z) (type : string) (b : Body) : Response.t :=
  {| Response.status := s;
     Response.headers := Headers.of_record (("Content-Type", type) :: corsHeaders);
     Response.body := b |}.

Definition json_response (s : Z) (v : JsVal) : Response.t :=
  respond s "application/json" (Json v).

Definition num (n : Z) : JsVal := JNum n.

Section Worker.

Variable rt : Runtime.

(** The global [fetch]: one event, and what the network answers. *)
Definition global_fetch (rq : Fetch.t) : M Response.t :=
  Run [Fetched rq] (network rt rq).

(** [response.json()]. *)
Definition json_of_response (r : Response.t) : M JsVal :=
  pure (parse rt (Response.text r)).

(** [request.json()]. *)
Definition json_of_request (r : Request.t) : M JsVal :=
  pure (parse rt (Request.text r)).

(** Generate signature for GameHub API requests (lines 16-21). *)
Definition generateSignature (params : list (string * JsVal)) : string :=
  let sortedKeys :=
    StringSort.sort
      (filter (fun k => negb (k =? "sign")%string) (Js.keys params)) in
  let paramString :=
    Str.join "&"
      (map (fun key => key ++ "=" ++ Js.ToString (Js.own params key)) sortedKeys) in
  let signString := paramString ++ "&" ++ GAMEHUB_SECRET_KEY in
  Str.toLowerCase (md5 rt signString).

(** *** Token interception (lines 56-170) *)

Definition in_authorization (request : Request.t) : bool :=
  match Headers.get (Request.headers request) "Authorization" with
  | Some authHeader => Str.includes authHeader fake_token
  | None => false
  end.

Definition in_token_header (request : Request.t) : bool :=
  match Headers.get (Request.headers request) "token" with
  | Some tokenHeader => (tokenHeader =? fake_token)%string
  | None => false
  end.

Definition is_json_post (request : Request.t) : bool :=
  (Request.method request =? "POST")%string &&
  match Headers.get (Request.headers request) "Content-Type" with
  | Some ct => Str.includes ct "application/json"
  | None => false
  end.

(** [bodyText]: the body is read only from a POST with a JSON content
    type. *)
Definition read_bodyText (request : Request.t) : string :=
  if is_json_post request then Request.text request else "".

Definition shouldReplaceToken (request : Request.t) : bool :=
  in_authorization request || in_token_header request ||
  (is_json_post request && Str.includes (read_bodyText request) fake_token).

Definition token_cache_key : string := TOKEN_REFRESHER_URL rt ++ "/token-cached".

(** Lines 80-118: the cached token, or a fresh one, or [undefined]. *)
Definition obtain_token : M JsVal :=
  emit (CacheMatch token_cache_key) ;;
  match cache rt token_cache_key with
  | Some cachedResponse =>
      cachedData <- json_of_response cachedResponse ;;
      pure (Js.Get cachedData "token")
  | None =>
      tokenResponse <-
        global_fetch
          {| Fetch.url := TOKEN_REFRESHER_URL rt ++ "/token";
             Fetch.method := "GET";
             Fetch.headers :=
               Headers.of_record [("X-Worker-Auth", "gamehub-internal-token-fetch-2025")];
             Fetch.body := Empty;
             Fetch.cf := None |} ;;
      if Response.ok tokenResponse then
        tokenData <- json_of_response tokenResponse ;;
        realToken <- pure (Js.Get tokenData "token") ;;
        emit (CachePut token_cache_key
                {| Response.status := 200;
                   Response.headers :=
                     Headers.of_record
                       [ ("Content-Type", "application/json");
                         ("Cache-Control", "public, max-age=14400") ];
                   Response.body := Json tokenData |}) ;;
        ret realToken
      else ret JUndefined
  end.

(** Lines 124-132: the headers with the placeholder replaced. *)
Definition replace_in_headers (request : Request.t) (realToken : JsVal) : Headers :=
  let newHeaders := Request.headers request in
  let newHeaders :=
    match Headers.get (Request.headers request) "Authorization" with
    | Some authHeader =>
        if Str.includes authHeader fake_token
        then Headers.set newHeaders "Authorization"
               (Str.replace authHeader fake_token (Js.ToString realToken))
        else newHeaders
    | None => newHeaders
    end in
  if in_token_header request
  then Headers.set newHeaders "token" (Js.ToString realToken)
  else newHeaders.

(** Lines 135-163: the request rebuilt around the new headers.  When the
    body parses to an array, [token] and [sign] are set as named properties
    of the array, which [JSON.stringify] does not write: the new body is
    the array as it was parsed. *)
Definition rebuild (request : Request.t) (realToken : JsVal) : M Request.t :=
  let newHeaders := replace_in_headers request realToken in
  let bodyText := read_bodyText request in
  if negb (bodyText =? "")%string && Str.includes bodyText fake_token then
    bodyJson <- pure (parse rt bodyText) ;;
    match bodyJson with
    | JArr items =>
        ret {| Request.method := Request.method request;
               Request.url := Request.url request;
               Request.headers := newHeaders;
               Request.body := Json (JArr items) |}
    | _ =>
        bodyJson <- pure (Js.Set_ bodyJson "token" realToken) ;;
        match bodyJson with
        | JObj params =>
            let newSignature := generateSignature params in
            bodyJson <- pure (Js.Set_ bodyJson "sign" (JStr newSignature)) ;;
            ret {| Request.method := Request.method request;
                   Request.url := Request.url request;
                   Request.headers := newHeaders;
                   Request.body := Json bodyJson |}
        | _ => pure Unmodelled
        end
    end
  else if negb (bodyText =? "")%string then
    ret {| Request.method := Request.method request;
           Request.url := Request.url request;
           Request.headers := newHeaders;
           Request.body := Text bodyText |}
  else
    ret {| Request.method := Request.method request;
           Request.url := Request.url request;
           Request.headers := newHeaders;
           Request.body := Empty |}.

(** [modifiedRequest], the request every handler works on. *)
Definition intercept (request : Request.t) : M Request.t :=
  if shouldReplaceToken request then
    realToken <- obtain_token ;;
    if Js.truthy realToken then rebuild request realToken else ret request
  else ret request.

(** *** Handlers (lines 176-448) *)

Definition landscape_api : string := "https://landscape-api.vgabc.com".

(** [/card/getGameDetail]: the body and the headers go to the metadata
    service as they are; two sections are removed from the answer. *)
Definition getGameDetail (request : Request.t) : M Response.t :=
  let bodyText := Request.text request in
  chineseResponse <-
    global_fetch
      {| Fetch.url := landscape_api ++ "/card/getGameDetail";
         Fetch.method := "POST";
         Fetch.headers := Request.headers request;
         Fetch.body := Text bodyText;
         Fetch.cf := None |} ;;
  responseData <- json_of_response chineseResponse ;;
  data <- pure (Js.Get responseData "data") ;;
  responseData <-
    (if Js.truthy data then
       pure (Js.Set_ responseData "data"
               (Js.Delete (Js.Delete data "recommend_game") "card_line_data"))
     else ret responseData) ;;
  ret (json_response 200 responseData).

Definition news_failure : JsVal :=
  JObj [ ("code", num 500); ("msg", JStr "Failed to fetch news");
         ("time", JStr ""); ("data", JArr []) ].

(** The address of line 208. *)
Definition news_list_url (page pageSize : JsVal) : string :=
  NEWS_AGGREGATOR_URL ++ "/api/news/list?page=" ++ Js.ToString page
    ++ "&page_size=" ++ Js.ToString pageSize.

(** [/card/getNewsList]. *)
Definition getNewsList (request : Request.t) : M Response.t :=
  body <- json_of_request request ;;
  page_ <- pure (Js.Get body "page") ;;
  let page := Js.or page_ (num 1) in
  page_size_ <- pure (Js.Get body "page_size") ;;
  let pageSize := Js.or page_size_ (num 4) in
  newsResponse <- global_fetch (Fetch.simple (news_list_url page pageSize)) ;;
  if negb (Response.ok newsResponse) then ret (json_response 200 news_failure)
  else
    newsData <- json_of_response newsResponse ;;
    ret (json_response 200 newsData).

Definition missing_id : JsVal :=
  JObj [ ("code", num 400); ("msg", JStr "Missing id parameter");
         ("time", JStr ""); ("data", JNull) ].

Definition news_not_found : JsVal :=
  JObj [ ("code", num 404); ("msg", JStr "News not found");
         ("time", JStr ""); ("data", JNull) ].

(** [/card/getNewsGuideDetail]. *)
Definition getNewsGuideDetail (request : Request.t) : M Response.t :=
  body <- json_of_request request ;;
  newsId <- pure (Js.Get body "id") ;;
  if negb (Js.truthy newsId) then ret (json_response 400 missing_id)
  else
    newsDetailResponse <-
      global_fetch
        (Fetch.simple
           (NEWS_AGGREGATOR_URL ++ "/api/news/detail/" ++ Js.ToString newsId)) ;;
    if negb (Response.ok newsDetailResponse)
    then ret (json_response 404 news_not_found)
    else
      newsDetailData <- json_of_response newsDetailResponse ;;
      ret (json_response 200 newsDetailData).

Definition generic_clientparams : string :=
  "5.1.0|0|en|Generic|1920*1080|app|app|generic|||||||||com.app|Generic|generic".

(** Lines 274-285: the sanitized body. *)
Definition sanitizedBody (body : JsVal) : Outcome (list (string * JsVal)) :=
  gpu_vendor <- Js.Get body "gpu_vendor" ;;
  game_type <- Js.Get body "game_type" ;;
  token <- Js.Get body "token" ;;
  sign <- Js.Get body "sign" ;;
  time <- Js.Get body "time" ;;
  ret [ ("gpu_vendor", gpu_vendor);
        ("gpu_version", num 0);
        ("gpu_device_name", JStr "Generic Device");
        ("game_type", Js.or game_type (num 2));
        ("token", token);
        ("game_id", JStr "0");
        ("sign", sign);
        ("time", time);
        ("clientparams", JStr generic_clientparams);
        ("gpu_system_driver_version", num 0) ].

(** The request that [/simulator/executeScript] sends upstream. *)
Definition executeScript_request (sanitized : list (string * JsVal)) : Fetch.t :=
  {| Fetch.url := landscape_api ++ "/simulator/executeScript";
     Fetch.method := "POST";
     Fetch.headers := Headers.of_record [("Content-Type", "application/json")];
     Fetch.body := Json (JObj sanitized);
     Fetch.cf := None |}.

(** [/simulator/executeScript]. *)
Definition executeScript (request : Request.t) : M Response.t :=
  body <- json_of_request request ;;
  sanitized <- pure (sanitizedBody body) ;;
  chineseResponse <- global_fetch (executeScript_request sanitized) ;;
  responseData <- json_of_response chineseResponse ;;
  ret (json_response 200 responseData).

Definition failure (msg : string) : JsVal :=
  JObj [ ("code", num 500); ("msg", JStr msg) ].

(** The shape shared by [/base/getBaseInfo], [/cloud/game/check_user_timer]
    and [/game/getDnsIpPool] (lines 307-359). *)
Definition static_json (path msg : string) : M Response.t :=
  response <- global_fetch (Fetch.simple (GITHUB_BASE ++ path)) ;;
  if negb (Response.ok response) then ret (json_response 500 (failure msg))
  else
    data <- json_of_response response ;;
    ret (json_response 200 data).

Definition getBaseInfo : M Response.t :=
  static_json "/base/getBaseInfo" "Failed to fetch base info".

Definition check_user_timer : M Response.t :=
  static_json "/cloud/game/check_user_timer" "Failed to check timer".

Definition getDnsIpPool : M Response.t :=
  static_json "/game/getDnsIpPool" "Failed to fetch DNS pool".

(** [/game/getSteamHost]. *)
Definition getSteamHost : M Response.t :=
  hostsResponse <- global_fetch (Fetch.simple (GITHUB_BASE ++ "/game/getSteamHost/index")) ;;
  if negb (Response.ok hostsResponse)
  then ret (json_response 500 (failure "Failed to fetch Steam hosts"))
  else ret (respond 200 "text/plain" (Text (Response.text hostsResponse))).

(** [/card/getGameIcon]. *)
Definition getGameIcon : M Response.t :=
  ret (json_response 200
         (JObj [ ("code", num 200); ("msg", JStr "");
                 ("time", JStr (Str.of_Z (now rt / 1000)));
                 ("data", JArr []) ])).

Definition invalid_type : JsVal :=
  JObj [ ("code", num 400); ("msg", JStr "Invalid type parameter") ].

(** Lines 421-424: rename [components] to [list]. *)
Definition rename_components (manifestData : JsVal) : Outcome JsVal :=
  data <- Js.Get manifestData "data" ;;
  if Js.truthy data then
    components <- Js.Get data "components" ;;
    if Js.truthy components then
      data <- Js.Set_ data "list" components ;;
      Js.Set_ manifestData "data" (Js.Delete data "components")
    else ret manifestData
  else ret manifestData.

(** Lines 427-441: pagination. *)
Definition paginate (page pageSize : JsVal) (manifestData : JsVal) : Outcome JsVal :=
  data <- Js.Get manifestData "data" ;;
  if Js.truthy data then
    allItems <- Js.Get data "list" ;;
    if Js.truthy allItems then
      total_ <- Js.Get data "total" ;;
      let total := Js.or total_ (Js.length allItems) in
      p <- Js.number page ;;
      s <- Js.number pageSize ;;
      let startIndex := (p - 1) * s in
      let endIndex := startIndex + s in
      paginatedItems <- Js.slice allItems startIndex endIndex ;;
      data <- Js.Set_ data "list" paginatedItems ;;
      data <- Js.Set_ data "page" page ;;
      data <- Js.Set_ data "pageSize" pageSize ;;
      data <- Js.Set_ data "total" total ;;
      Js.Set_ manifestData "data" data
    else ret manifestData
  else ret manifestData.

(** [/simulator/v2/getComponentList]. *)
Definition getComponentList (request : Request.t) : M Response.t :=
  body <- json_of_request request ;;
  type <- pure (Js.Get body "type") ;;
  page_ <- pure (Js.Get body "page") ;;
  let page := Js.or page_ (num 1) in
  page_size_ <- pure (Js.Get body "page_size") ;;
  let pageSize := Js.or page_size_ (num 10) in
  if negb (Js.truthy type) || negb (Js.truthy (index TYPE_TO_MANIFEST type)) then
    ret (json_response 400 invalid_type)
  else
    let manifestUrl := GITHUB_BASE ++ Js.ToString (index TYPE_TO_MANIFEST type) in
    response <- global_fetch (Fetch.simple manifestUrl) ;;
    if negb (Response.ok response)
    then ret (json_response 500 (failure "Failed to fetch manifest"))
    else
      manifestData <- json_of_response response ;;
      manifestData <- pure (rename_components manifestData) ;;
      manifestData <- pure (paginate page pageSize manifestData) ;;
      ret (json_response 200 manifestData).

(** *** Fallback proxy (lines 451-470) *)

Definition fallback_request (path : string) : Fetch.t :=
  {| Fetch.url := GITHUB_BASE ++ path;
     Fetch.method := "GET";
     Fetch.headers := [];
     Fetch.body := Empty;
     Fetch.cf := Some {| cacheTtl := 300; cacheEverything := true |} |}.

(** The object literal of lines 465-469. *)
Definition fallback_headers (upstream : Headers) : list (string * string) :=
  Headers.assign "Cache-Control" "public, max-age=300"
    (Headers.spread (Headers.fromEntries (Headers.entries upstream)) corsHeaders).

Definition fallback (path : string) : M Response.t :=
  githubResponse <- global_fetch (fallback_request path) ;;
  pure (Response.make (Response.body githubResponse)
          (Response.status githubResponse)
          (Headers.of_record (fallback_headers (Response.headers githubResponse)))).

(** *** The dispatcher *)

Inductive Route : Type :=
| RGameDetail | RNewsList | RNewsGuideDetail | RExecuteScript | RBaseInfo
| RCheckUserTimer | RDnsIpPool | RSteamHost | RGameIcon | RComponentList
| RFallback.

(** The chain of [if (url.pathname === ... && request.method === ...)]. *)
Definition route (path method : string) : Route :=
  let at_ (p m : string) := ((path =? p)%string && (method =? m)%string)%bool in
  if at_ "/card/getGameDetail" "POST" then RGameDetail
  else if at_ "/card/getNewsList" "POST" then RNewsList
  else if at_ "/card/getNewsGuideDetail" "POST" then RNewsGuideDetail
  else if at_ "/simulator/executeScript" "POST" then RExecuteScript
  else if at_ "/base/getBaseInfo" "POST" then RBaseInfo
  else if at_ "/cloud/game/check_user_timer" "POST" then RCheckUserTimer
  else if at_ "/game/getDnsIpPool" "POST" then RDnsIpPool
  else if at_ "/game/getSteamHost" "GET" then RSteamHost
  else if at_ "/card/getGameIcon" "POST" then RGameIcon
  else if at_ "/simulator/v2/getComponentList" "POST" then RComponentList
  else RFallback.

Definition dispatch (url : URL) (request : Request.t) : M Response.t :=
  match route (pathname url) (Request.method request) with
  | RGameDetail => getGameDetail request
  | RNewsList => getNewsList request
  | RNewsGuideDetail => getNewsGuideDetail request
  | RExecuteScript => executeScript request
  | RBaseInfo => getBaseInfo
  | RCheckUserTimer => check_user_timer
  | RDnsIpPool => getDnsIpPool
  | RSteamHost => getSteamHost
  | RGameIcon => getGameIcon
  | RComponentList => getComponentList request
  | RFallback => fallback (pathname url)
  end.

(** The body of the [try] block. *)
Definition pipeline (request : Request.t) : M Response.t :=
  let url := Request.url request in
  modifiedRequest <- intercept request ;;
  dispatch url modifiedRequest.

Definition preflight : Response.t :=
  {| Response.status := 200;
     Response.headers := Headers.of_record corsHeaders;
     Response.body := Empty |}.

(** The [catch] block. *)
Definition internal_error (message : string) : Response.t :=
  json_response 500 (failure ("Error: " ++ message)).

(** The exported handler. *)
Definition fetch (request : Request.t) : M Response.t :=
  if (Request.method request =? "OPTIONS")%string then ret preflight
  else
    let run := pipeline request in
    match outcome run with
    | Ok response => run
    | Throw message => Run (trace run) (Ok (internal_error message))
    | Unmodelled => run
    end.

End Worker.

(** ** The notions of the specification *)

(** The requests a computation sent upstream, in order. *)
Fixpoint fetches (t : list Event) : list Fetch.t :=
  match t with
  | [] => []
  | Fetched rq :: rest => rq :: fetches rest
  | _ :: rest => fetches rest
  end.

(** The request of the credential look-up. *)
Definition is_token_lookup (rt : Runtime) (rq : Fetch.t) : Prop :=
  Fetch.url rq = TOKEN_REFRESHER_URL rt ++ "/token".

(** The envelope codes that stand for an error (400, 404 and 500). *)
Definition error_coded (envelope : list (string * JsVal)) : bool :=
  match Js.own envelope "code" with
  | JNum n => (n =? 400) || (n =? 404) || (n =? 500)
  | _ => false
  end.

(** An answer that is a success envelope with an empty list. *)
Definition answers_empty_success (m : M Response.t) : Prop :=
  exists envelope,
    outcome m = Ok (json_response 200 (JObj envelope)) /\
    error_coded envelope = false /\
    Js.own envelope "data" = JArr [].

(** An answer that is the 400 of the manifest listing, with nothing sent
    upstream but, possibly, the credential look-up. *)
Definition rejects_type (rt : Runtime) (m : M Response.t) : Prop :=
  outcome m = Ok (json_response 400 invalid_type) /\
  Forall (is_token_lookup rt) (fetches (trace m)).





(** The list a manifest carries: [data.components] when there is one, else
    [data.list]. *)
Definition manifest_list (data : list (string * JsVal)) : JsVal :=
  if Js.truthy (Js.own data "components") then Js.own data "components"
  else Js.own data "list".

(** The number of items of page [p] when pages have [s] items and the list
    has [L]. *)
Definition page_length (L p s : Z) : Z := Z.min s (Z.max 0 (L - (p - 1) * s)).

(** An answer that is page [p] of a list of [L] items, with [total] the
    length [L]. *)
Definition answers_page (m : M Response.t) (L p s : Z) : Prop :=
  exists manifest data items,
    outcome m = Ok (json_response 200 manifest) /\
    Js.Get manifest "data" = Ok data /\
    Js.Get data "list" = Ok (JArr items) /\
    Z.of_nat (List.length items) = page_length L p s /\
    Js.Get data "total" = Ok (num L).

(** An answer of the fallback proxy as the specification words it: one
    request upstream, for the path under the static base; the status and
    the body of the upstream answer; [Cache-Control] forced. *)
Definition proxies (rt : Runtime) (request : Request.t) (m : M Response.t) : Prop :=
  exists rq upstream response,
    fetches (trace m) = [rq] /\
    Fetch.url rq = GITHUB_BASE ++ pathname (Request.url request) /\
    network rt rq = Ok upstream /\
    outcome m = Ok response /\
    Response.status response = Response.status upstream /\
    Response.body response = Response.body upstream /\
    Headers.get (Response.headers response) "Cache-Control" = Some "public, max-age=300".

(** What the fallback proxy lays over the headers of the upstream answer. *)
Definition overlay : list (string * string) :=
  corsHeaders ++ [("Cache-Control", "public, max-age=300")].

(** Key-value pairs, ordered by their keys. *)
Module PairOrder <: Orders.TotalLeBool.
Definition t := (string * JsVal)%type.
Definition leb (a b : t) := String.leb (fst a) (fst b).
Definition leb_total (a b : t) : leb a b = true \/ leb b a = true :=
  String.leb_total (fst a) (fst b).
End PairOrder.

Module PairSort := Sort PairOrder.

(** The signing text as the specification words it: the pairs other than
    [sign], sorted by key, each written [key=value], joined by [&], with the
    shared secret appended. *)
Definition spec_signString (params : list (string * JsVal)) : string :=
  Str.join "&"
    (map (fun kv => fst kv ++ "=" ++ Js.ToString (snd kv))
       (PairSort.sort (filter (fun kv => negb (fst kv =? "sign")%string) params)))
  ++ "&" ++ GAMEHUB_SECRET_KEY.

(** ** A concrete runtime

    The texts the examples below use, with the values [JSON.parse] gives for
    them, and a network that knows a few addresses. *)

Module Demo.

(** The text of an object whose fields are given with the texts of their
    values. *)
Definition object (fields : list (string * string)) : string :=
  "{" ++ Str.join "," (map (fun kv => Str.q (fst kv) ++ ":" ++ snd kv) fields) ++ "}".

Definition one_two_three : JsVal := JArr [num 1; num 2; num 3].

Definition texts : list (string * JsVal) :=
  [ (object [], JObj []);
    (object [("type", "99")], JObj [("type", num 99)]);
    (object [("type", Str.q "constructor")], JObj [("type", JStr "constructor")]);
    (object [("type", "1"); ("page", "2"); ("page_size", "2")],
     JObj [("type", num 1); ("page", num 2); ("page_size", num 2)]);
    (object [("type", "2"); ("page", "1"); ("page_size", "10")],
     JObj [("type", num 2); ("page", num 1); ("page_size", num 10)]);
    (object [("type", "3"); ("page", "1"); ("page_size", "10")],
     JObj [("type", num 3); ("page", num 1); ("page_size", num 10)]);
    (object [("id", "0")], JObj [("id", num 0)]);
    (object [("id", "7")], JObj [("id", num 7)]);
    (object [("token", Str.q "real-token")], JObj [("token", JStr "real-token")]);
    (object [("data", object [("list", "[1,2,3]")])],
     JObj [("data", JObj [("list", one_two_three)])]);
    (object [("data", object [("list", "[1,2,3]"); ("total", "100")])],
     JObj [("data", JObj [("list", one_two_three); ("total", num 100)])]);
    (object [("data", object [("components", "[1]"); ("list", "[1,2,3]")])],
     JObj [("data", JObj [("components", JArr [num 1]); ("list", one_two_three)])]);
    (object [("gpu_vendor", Str.q "Adreno"); ("token", Str.q "t"); ("sign", Str.q "s");
             ("time", "1"); ("device_model", Str.q "Pixel")],
     JObj [("gpu_vendor", JStr "Adreno"); ("token", JStr "t"); ("sign", JStr "s");
           ("time", num 1); ("device_model", JStr "Pixel")]);
    (object [("device_model", Str.q "Galaxy"); ("imei", Str.q "356938035643809");
             ("time", "1"); ("sign", Str.q "s"); ("token", Str.q "t");
             ("gpu_vendor", Str.q "Adreno")],
     JObj [("device_model", JStr "Galaxy"); ("imei", JStr "356938035643809");
           ("time", num 1); ("sign", JStr "s"); ("token", JStr "t");
           ("gpu_vendor", JStr "Adreno")]);
    (object [("gpu_vendor", Str.q "Adreno"); ("token", Str.q "fake-token");
             ("sign", Str.q "s"); ("time", "1"); ("device_model", Str.q "Pixel")],
     JObj [("gpu_vendor", JStr "Adreno"); ("token", JStr "fake-token");
           ("sign", JStr "s"); ("time", num 1); ("device_model", JStr "Pixel")]);
    (object [("gpu_vendor", Str.q "Adreno"); ("token", Str.q "fake-token");
             ("sign", Str.q "s"); ("time", "1"); ("device_model", Str.q "Galaxy")],
     JObj [("gpu_vendor", JStr "Adreno"); ("token", JStr "fake-token");
           ("sign", JStr "s"); ("time", num 1); ("device_model", JStr "Galaxy")]);
    (object [("gpu_vendor", Str.q "Adreno"); ("token", Str.q "real-token");
             ("sign", Str.q "device_model=pixel&gpu_vendor=adreno&time=1&token=real-token&all-egg-shell-y7zatudk");
             ("time", "1"); ("device_model", Str.q "Pixel")],
     JObj [("gpu_vendor", JStr "Adreno"); ("token", JStr "real-token");
           ("sign", JStr "device_model=pixel&gpu_vendor=adreno&time=1&token=real-token&all-egg-shell-y7zatudk");
           ("time", num 1); ("device_model", JStr "Pixel")]);
    (object [("gpu_vendor", Str.q "Adreno"); ("token", Str.q "real-token");
             ("sign", Str.q "device_model=galaxy&gpu_vendor=adreno&time=1&token=real-token&all-egg-shell-y7zatudk");
             ("time", "1"); ("device_model", Str.q "Galaxy")],
     JObj [("gpu_vendor", JStr "Adreno"); ("token", JStr "real-token");
           ("sign", JStr "device_model=galaxy&gpu_vendor=adreno&time=1&token=real-token&all-egg-shell-y7zatudk");
           ("time", num 1); ("device_model", JStr "Galaxy")]) ].

Definition parse_text (s : string) : Outcome JsVal :=
  match Js.lookup s texts with
  | Some v => Ok v
  | None => Throw "Unexpected token in JSON"
  end.

Definition answer (s : Z) (h : Headers) (b : string) : Outcome Response.t :=
  Ok {| Response.status := s; Response.headers := h; Response.body := Text b |}.

Definition refresher : string := "https://refresher.example".

Definition web (rq : Fetch.t) : Outcome Response.t :=
  let u := Fetch.url rq in
  if (u =? refresher ++ "/token")%string then
    answer 200 [] (object [("token", Str.q "real-token")])
  else if (u =? GITHUB_BASE ++ "/components/box64_manifest")%string then
    answer 200 [] (object [("data", object [("list", "[1,2,3]")])])
  else if (u =? GITHUB_BASE ++ "/components/drivers_manifest")%string then
    answer 200 [] (object [("data", object [("list", "[1,2,3]"); ("total", "100")])])
  else if (u =? GITHUB_BASE ++ "/components/dxvk_manifest")%string then
    answer 200 [] (object [("data", object [("components", "[1]"); ("list", "[1,2,3]")])])
  else if (u =? GITHUB_BASE ++ "/foo/bar")%string then
    answer 200 [("content-type", "text/plain"); ("cache-control", "max-age=60")] "hello"
  else if (u =? GITHUB_BASE ++ "/plain")%string then
    answer 200 [("content-type", "text/plain")] "hello"
  else if String.prefix NEWS_AGGREGATOR_URL u then answer 503 [] "unavailable"
  else answer 404 [] "Not Found".

(** The digest of this runtime is a stand-in, the text itself: like MD5 on
    the texts used here, it tells two different signing texts apart. *)
Definition rt : Runtime :=
  {| TOKEN_REFRESHER_URL := refresher;
     parse := parse_text;
     md5 := fun s => s;
     network := web;
     cache := fun _ => None;
     now := 1700000000123 |}.

Definition at_path (p : string) : URL :=
  {| origin := "https://worker.example"; pathname := p; search := "" |}.

Definition json_type : Headers := [("content-type", "application/json")].

Definition post (p : string) (h : Headers) (b : string) : Request.t :=
  {| Request.method := "POST"; Request.url := at_path p;
     Request.headers := h; Request.body := Text b |}.

Definition bare (m p : string) (h : Headers) : Request.t :=
  {| Request.method := m; Request.url := at_path p;
     Request.headers := h; Request.body := Empty |}.

End Demo.

(** ** Further notions *)

(** The path and the method of each route of the dispatcher. *)
Definition route_entry (r : Route) : option (string * string) :=
  match r with
  | RGameDetail => Some ("/card/getGameDetail", "POST")
  | RNewsList => Some ("/card/getNewsList", "POST")
  | RNewsGuideDetail => Some ("/card/getNewsGuideDetail", "POST")
  | RExecuteScript => Some ("/simulator/executeScript", "POST")
  | RBaseInfo => Some ("/base/getBaseInfo", "POST")
  | RCheckUserTimer => Some ("/cloud/game/check_user_timer", "POST")
  | RDnsIpPool => Some ("/game/getDnsIpPool", "POST")
  | RSteamHost => Some ("/game/getSteamHost", "GET")
  | RGameIcon => Some ("/card/getGameIcon", "POST")
  | RComponentList => Some ("/simulator/v2/getComponentList", "POST")
  | RFallback => None
  end.

(** The three routes that hand a file of the static repository on, with the
    message of their failure. *)
Definition static_routes : list (string * string) :=
  [ ("/base/getBaseInfo", "Failed to fetch base info");
    ("/cloud/game/check_user_timer", "Failed to check timer");
    ("/game/getDnsIpPool", "Failed to fetch DNS pool") ].

(** The request of the credential look-up (lines 95-99). *)
Definition token_request (rt : Runtime) : Fetch.t :=
  {| Fetch.url := TOKEN_REFRESHER_URL rt ++ "/token";
     Fetch.method := "GET";
     Fetch.headers := [("X-Worker-Auth", "gamehub-internal-token-fetch-2025")];
     Fetch.body := Empty;
     Fetch.cf := None |}.

(** The requests the worker can send upstream. *)
Inductive Upstream (rt : Runtime) : Fetch.t -> Prop :=
| UToken : Upstream rt (token_request rt)
| UGameDetail (h : Headers) (b : string) :
    Upstream rt {| Fetch.url := landscape_api ++ "/card/getGameDetail";
                   Fetch.method := "POST";
                   Fetch.headers := h;
                   Fetch.body := Text b;
                   Fetch.cf := None |}
| UExecuteScript (sanitized : list (string * JsVal)) :
    Upstream rt (executeScript_request sanitized)
| UNews (rest : string) : Upstream rt (Fetch.simple (NEWS_AGGREGATOR_URL ++ rest))
| UStatic (rest : string) : Upstream rt (Fetch.simple (GITHUB_BASE ++ rest))
| UFallback (path : string) : Upstream rt (fallback_request path).

(** A computation sends at most [n] requests upstream, all of them in
    [Q]. *)
Definition sends_at_most {A : Type} (n : nat) (Q : Fetch.t -> Prop) (c : M A) : Prop :=
  Forall Q (fetches (trace c)) /\ (List.length (fetches (trace c)) <= n)%nat.

(** A computation that gives a result gives one in [P]. *)
Definition answers_with {A : Type} (P : A -> Prop) (c : M A) : Prop :=
  forall r, outcome c = Ok r -> P r.

(** An answer carries the CORS headers: the value of each of them is among
    the values the answer has under its name. *)
Definition cors (response : Response.t) : Prop :=
  forall name value,
    In (name, value) corsHeaders ->
    In value (Headers.values (Response.headers response) name).

(** What [JSON.parse] gives for a body that cannot have its token
    replaced: an error, or a value that is no object ([null], a truth
    value, a number or a text). *)
Definition not_an_object (parsed : Outcome JsVal) : Prop :=
  match parsed with
  | Throw _ => True
  | Ok (JUndefined | JNull | JBool _ | JNum _ | JStr _) => True
  | _ => False
  end.

(** The answer that is written to the cache with a fresh credential (lines
    106-111). *)
Definition cached_answer (tokenData : JsVal) : Response.t :=
  {| Response.status := 200;
     Response.headers := [ ("Content-Type", "application/json");
                           ("Cache-Control", "public, max-age=14400") ];
     Response.body := Json tokenData |}.

(** What [JSON.parse] gives for a body no handler can read a field of: an
    error, or [null]. *)
Definition unreadable (parsed : Outcome JsVal) : Prop :=
  match parsed with
  | Throw _ => True
  | Ok JNull => True
  | _ => False
  end.

(** The routes whose handler reads the body as JSON. *)
Definition reads_json (r : Route) : bool :=
  match r with
  | RNewsList | RNewsGuideDetail | RExecuteScript | RComponentList => true
  | _ => false
  end.

(** The [data.list] of a manifest, when it has one that is an array. *)
Definition list_of (manifest : Outcome JsVal) : list JsVal :=
  match manifest with
  | Ok (JObj mprops) =>
      match Js.own mprops "data" with
      | JObj dprops =>
          match Js.own dprops "list" with
          | JArr items => items
          | _ => []
          end
      | _ => []
      end
  | _ => []
  end.

(** A second concrete runtime, with a cache and a network to choose. *)
Module Sample.

Definition texts : list (string * JsVal) :=
  [ (Demo.object [], JObj []);
    (Demo.object [("token", Str.q "real-token")], JObj [("token", JStr "real-token")]);
    (Demo.object [("token", Str.q "")], JObj [("token", JStr "")]);
    (Demo.object [("id", "7")], JObj [("id", num 7)]);
    (Demo.object [("page", "0")], JObj [("page", num 0)]);
    (Demo.object [("type", "1")], JObj [("type", num 1)]);
    (Demo.object [("type", "1"); ("page", "-1"); ("page_size", "2")],
     JObj [("type", num 1); ("page", num (-1)); ("page_size", num 2)]);
    (Demo.object [("code", "200"); ("data", "[]")],
     JObj [("code", num 200); ("data", JArr [])]);
    (Demo.object [("code", "200");
                  ("data", Demo.object [("name", Str.q "Game"); ("recommend_game", "[1]");
                                        ("card_line_data", "[2]")])],
     JObj [("code", num 200);
           ("data", JObj [("name", JStr "Game"); ("recommend_game", JArr [num 1]);
                          ("card_line_data", JArr [num 2])])]);
    (Demo.object [("code", "200");
                  ("data", Demo.object [("components", "[1,2,3]"); ("kind", Str.q "box64")])],
     JObj [("code", num 200);
           ("data", JObj [("components", JArr [num 1; num 2; num 3]);
                          ("kind", JStr "box64")])]);
    (Demo.object [("token", Str.q "fake-token"); ("time", "1"); ("sign", Str.q "old")],
     JObj [("token", JStr "fake-token"); ("time", num 1); ("sign", JStr "old")]);
    (Str.q "fake-token", JStr "fake-token") ].

Definition parse_text (s : string) : Outcome JsVal :=
  match Js.lookup s texts with
  | Some v => Ok v
  | None => Throw "Unexpected token in JSON"
  end.

Definition refresher : string := "https://refresher.example".

(** A network given as a table from addresses to answers; any other address
    is answered 404. *)
Definition web (table : list (string * (Z * string))) (rq : Fetch.t)
  : Outcome Response.t :=
  match find (fun e => (fst e =? Fetch.url rq)%string) table with
  | Some (_, (s, b)) =>
      Ok {| Response.status := s; Response.headers := []; Response.body := Text b |}
  | None =>
      Ok {| Response.status := 404; Response.headers := [];
            Response.body := Text "Not Found" |}
  end.

Definition runtime (cached : option string) (table : list (string * (Z * string)))
  : Runtime :=
  {| TOKEN_REFRESHER_URL := refresher;
     parse := parse_text;
     md5 := fun s => s;
     network := web table;
     cache := fun _ =>
                match cached with
                | Some b => Some {| Response.status := 200; Response.headers := [];
                                    Response.body := Text b |}
                | None => None
                end;
     now := 1700000000123 |}.

End Sample.

(** * Properties *)

(** ** The monad of effects *)

Lemma bind_Ok {A B : Type} (c : M A) (k : A -> M B) (t : list Event) (a : A) :
  c = Run t (Ok a) -> bind c k = Run (t ++ trace (k a)) (outcome (k a)).
Proof. intros ->. reflexivity. Qed.

Lemma bind_Throw {A B : Type} (c : M A) (k : A -> M B) (t : list Event) (m : string) :
  c = Run t (Throw m) -> bind c k = Run t (Throw m).
Proof. intros ->. reflexivity. Qed.

Lemma bind_ret_l {A B : Type} (a : A) (k : A -> M B) : bind (ret a) k = k a.
Proof. cbn. destruct (k a). reflexivity. Qed.

Lemma bind_pure {A B : Type} (o : Outcome A) (k : A -> M B) (a : A) :
  o = Ok a -> bind (pure o) k = k a.
Proof. intros ->. apply bind_ret_l. Qed.

Lemma bind_inv_Ok {A B : Type} (c : M A) (k : A -> M B) (t : list Event) (b : B) :
  bind c k = Run t (Ok b) ->
  exists t1 a t2, c = Run t1 (Ok a) /\ k a = Run t2 (Ok b) /\ t = (t1 ++ t2)%list.
Proof.
  destruct c as [t1 [a | m |]]; cbn; intros H; try discriminate H.
  destruct (k a) as [t2 o2] eqn:Hk. cbn in H. injection H as <- ->.
  exists t1, a, t2. auto.
Qed.

Lemma fetches_app (t1 t2 : list Event) :
  fetches (t1 ++ t2) = (fetches t1 ++ fetches t2)%list.
Proof.
  induction t1 as [| e t1 IH]; [reflexivity |].
  destruct e; cbn; rewrite IH; reflexivity.
Qed.

(** ** Reading properties *)

(** Reading a property succeeds or throws whatever the name. *)
Lemma Get_any (v : JsVal) (k k' : string) (x : JsVal) :
  Js.Get v k = Ok x -> exists y, Js.Get v k' = Ok y.
Proof. destruct v; cbn; intros H; try discriminate H; eauto. Qed.

Lemma own_assign (k k' : string) (x : JsVal) (props : list (string * JsVal)) :
  Js.own (Js.assign k x props) k' = if (k =? k')%string then x else Js.own props k'.
Proof.
  unfold Js.own. induction props as [| [k0 v0] rest IH]; cbn.
  - rewrite String.eqb_sym. destruct (k' =? k)%string; reflexivity.
  - destruct (k0 =? k)%string eqn:E0; cbn.
    + apply String.eqb_eq in E0. subst k0.
      destruct (k =? k')%string; reflexivity.
    + destruct (k0 =? k')%string eqn:E1; [| exact IH].
      apply String.eqb_eq in E1. subst k0.
      rewrite String.eqb_sym, E0. reflexivity.
Qed.

Lemma own_remove (k k' : string) (props : list (string * JsVal)) :
  Js.own (Js.remove k props) k' = if (k =? k')%string then JUndefined else Js.own props k'.
Proof.
  unfold Js.own. induction props as [| [k0 v0] rest IH]; cbn.
  - destruct (k =? k')%string; reflexivity.
  - destruct (k0 =? k)%string eqn:E0; cbn.
    + apply String.eqb_eq in E0. subst k0. rewrite IH.
      destruct (k =? k')%string; reflexivity.
    + destruct (k0 =? k')%string eqn:E1; [| exact IH].
      apply String.eqb_eq in E1. subst k0.
      rewrite String.eqb_sym, E0. reflexivity.
Qed.

(** ** Token interception *)

Lemma rebuild_preserves (rt : Runtime) (r : Request.t) (tok : JsVal)
      (t : list Event) (m : Request.t) :
  rebuild rt r tok = Run t (Ok m) ->
  Request.method m = Request.method r /\ Request.url m = Request.url r.
Proof.
  unfold rebuild. intros H.
  destruct (negb (read_bodyText r =? "")%string && Str.includes (read_bodyText r) fake_token).
  - apply bind_inv_Ok in H as (t1 & v1 & t2 & _ & H & _).
    destruct v1; try (injection H as _ <-; auto; fail);
      (apply bind_inv_Ok in H as (t3 & v2 & t4 & _ & H & _);
       destruct v2; try discriminate H;
       apply bind_inv_Ok in H as (t5 & v3 & t6 & _ & H & _);
       injection H as _ <-; auto).
  - destruct (negb (read_bodyText r =? "")%string); injection H as _ <-; auto.
Qed.

(** Interception leaves the method and the address alone. *)
Lemma intercept_preserves (rt : Runtime) (r : Request.t)
      (t : list Event) (m : Request.t) :
  intercept rt r = Run t (Ok m) ->
  Request.method m = Request.method r /\ Request.url m = Request.url r.
Proof.
  unfold intercept. intros H.
  destruct (shouldReplaceToken r).
  - apply bind_inv_Ok in H as (t1 & tok & t2 & _ & H & _).
    destruct (Js.truthy tok).
    + eapply rebuild_preserves; eauto.
    + injection H as _ <-. auto.
  - injection H as _ <-. auto.
Qed.

(** The only request the look-up of the credential sends. *)
Lemma obtain_token_fetches (rt : Runtime) :
  Forall (is_token_lookup rt) (fetches (trace (obtain_token rt))).
Proof.
  unfold obtain_token, emit, global_fetch, json_of_response, pure.
  destruct (cache rt (token_cache_key rt)) as [c |].
  - cbn. destruct (parse rt (Response.text c)); cbn; constructor.
  - cbn.
    match goal with |- context [network rt ?rq] => destruct (network rt rq) as [a | |] end;
      cbn; try (constructor; [reflexivity | constructor]).
    destruct (Response.ok a); cbn; [| constructor; [reflexivity | constructor]].
    destruct (parse rt (Response.text a)) as [d | |]; cbn;
      try (constructor; [reflexivity | constructor]).
    destruct (Js.Get d "token"); cbn; constructor; try reflexivity; constructor.
Qed.

Lemma rebuild_fetches (rt : Runtime) (r : Request.t) (tok : JsVal) :
  fetches (trace (rebuild rt r tok)) = [].
Proof.
  unfold rebuild, pure.
  destruct (negb (read_bodyText r =? "")%string && Str.includes (read_bodyText r) fake_token).
  - cbn. destruct (parse rt (read_bodyText r)) as [v | |]; cbn; try reflexivity.
    destruct v; reflexivity.
  - destruct (negb (read_bodyText r =? "")%string); reflexivity.
Qed.

(** Interception sends nothing upstream but the look-up of the credential. *)
Lemma intercept_fetches (rt : Runtime) (r : Request.t) :
  Forall (is_token_lookup rt) (fetches (trace (intercept rt r))).
Proof.
  unfold intercept.
  destruct (shouldReplaceToken r); [| constructor].
  pose proof (obtain_token_fetches rt) as Ht.
  destruct (obtain_token rt) as [t1 [tok | m |]]; cbn in *; try exact Ht.
  destruct (Js.truthy tok); cbn.
  - rewrite fetches_app, rebuild_fetches, app_nil_r. exact Ht.
  - rewrite app_nil_r. exact Ht.
Qed.

(** Without the placeholder, interception hands the request on as it
    came and sends nothing. *)
Lemma intercept_absent (rt : Runtime) (request modified : Request.t) (t0 : list Event) :
  shouldReplaceToken request = false ->
  intercept rt request = Run t0 (Ok modified) ->
  modified = request /\ t0 = [].
Proof.
  unfold intercept. intros ->. intros [= <- <-]. auto.
Qed.

(** ** The handler as a whole *)

(** Past the preflight, the handler is the pipeline with its [catch]. *)
Lemma fetch_not_options (rt : Runtime) (request : Request.t) :
  Request.method request <> "OPTIONS" ->
  fetch rt request =
    match outcome (pipeline rt request) with
    | Throw message => Run (trace (pipeline rt request)) (Ok (internal_error message))
    | _ => pipeline rt request
    end.
Proof.
  intros H. unfold fetch.
  destruct (String.eqb_spec (Request.method request) "OPTIONS") as [E | _];
    [contradiction |].
  destruct (outcome (pipeline rt request)); reflexivity.
Qed.

(** Once interception has gone through, what remains is the handler of the
    route, on the request interception made. *)
Lemma pipeline_dispatch (rt : Runtime) (request modified : Request.t) (t0 : list Event) :
  intercept rt request = Run t0 (Ok modified) ->
  pipeline rt request =
    Run (t0 ++ trace (dispatch rt (Request.url request) modified))
        (outcome (dispatch rt (Request.url request) modified)).
Proof. intros H. unfold pipeline. apply bind_Ok. exact H. Qed.

Lemma fetch_answer (rt : Runtime) (request modified : Request.t)
      (t0 t1 : list Event) (response : Response.t) :
  Request.method request <> "OPTIONS" ->
  intercept rt request = Run t0 (Ok modified) ->
  dispatch rt (Request.url request) modified = Run t1 (Ok response) ->
  fetch rt request = Run (t0 ++ t1) (Ok response).
Proof.
  intros Hm Hi Hd. rewrite (fetch_not_options _ _ Hm).
  rewrite (pipeline_dispatch _ _ _ _ Hi), Hd. reflexivity.
Qed.

Lemma POST_not_OPTIONS (m : string) : m = "POST" -> m <> "OPTIONS".
Proof. intros ->. discriminate. Qed.

(** The headers of every answer the handlers build themselves. *)
Lemma respond_headers (s : Z) (type : string) (b : Body) :
  Headers.get (Response.headers (respond s type b)) "Content-Type" = Some type /\
  Forall (fun kv => Headers.get (Response.headers (respond s type b)) (fst kv)
                    = Some (snd kv)) corsHeaders.
Proof. split; [reflexivity |]. repeat constructor. Qed.

(** ** Numbers as texts *)

Lemma of_Z_read (n : Z) : NilZero.int_of_string (Str.of_Z n) = Some (Z.to_int n).
Proof.
  unfold Str.of_Z. apply NilZero.isi; destruct n; cbn; try discriminate;
    intros [= H]; revert H; apply DecimalPos.Unsigned.to_uint_nonnil.
Qed.

Lemma of_Z_inj (n m : Z) : Str.of_Z n = Str.of_Z m -> n = m.
Proof.
  intros H. pose proof (of_Z_read n) as Hn. rewrite H, of_Z_read in Hn.
  injection Hn as Hn. rewrite <- (DecimalZ.of_to n), <- (DecimalZ.of_to m), Hn.
  reflexivity.
Qed.

(** A number indexes the manifest table only when it is one of 1 to 7. *)
Lemma index_number (n : Z) :
  n < 1 \/ 7 < n -> index TYPE_TO_MANIFEST (JNum n) = JUndefined.
Proof.
  intros Hn. unfold index, Js.own. cbn [Js.ToString].
  assert (Hk : forall k : Z, 1 <= k <= 7 -> (Str.of_Z k =? Str.of_Z n)%string = false).
  { intros k Hk. apply String.eqb_neq. intros E. apply of_Z_inj in E. lia. }
  assert (Hp : forall name : string,
             NilZero.int_of_string name = None -> (name =? Str.of_Z n)%string = false).
  { intros name Hnone. apply String.eqb_neq. intros E.
    rewrite E, of_Z_read in Hnone. discriminate Hnone. }
  unfold TYPE_TO_MANIFEST, Js.lookup.
  change "1" with (Str.of_Z 1). change "2" with (Str.of_Z 2).
  change "3" with (Str.of_Z 3). change "4" with (Str.of_Z 4).
  change "5" with (Str.of_Z 5). change "6" with (Str.of_Z 6).
  change "7" with (Str.of_Z 7).
  rewrite !Hk by lia.
  cbn [Object_prototype map app].
  repeat (rewrite Hp by reflexivity).
  reflexivity.
Qed.

(** ** Interception, validation and errors *)

(** C6: when the placeholder is not in the [Authorization] header, is not
    the [token] header and is not in the body of a JSON POST, interception
    does nothing: no cache look-up, no request upstream, and the handlers
    receive the inbound request itself, headers and body. *)
Theorem placeholder_absent_request_untouched (rt : Runtime) (request : Request.t) :
  (forall a, Headers.get (Request.headers request) "Authorization" = Some a ->
             Str.includes a fake_token = false) ->
  Headers.get (Request.headers request) "token" <> Some fake_token ->
  (is_json_post request = true ->
   Str.includes (Request.text request) fake_token = false) ->
  intercept rt request = Run [] (Ok request) /\
  pipeline rt request = dispatch rt (Request.url request) request.
Proof.
  intros Hauth Htoken Hbody.
  assert (Hno : shouldReplaceToken request = false).
  { unfold shouldReplaceToken, in_authorization, in_token_header, read_bodyText.
    destruct (Headers.get (Request.headers request) "Authorization") as [a |] eqn:Ea.
    - rewrite (Hauth a eq_refl). cbn.
      destruct (Headers.get (Request.headers request) "token") as [tk |] eqn:Et.
      + destruct (String.eqb_spec tk fake_token) as [-> | _]; [now elim Htoken |].
        cbn. destruct (is_json_post request); [rewrite Hbody |]; reflexivity.
      + cbn. destruct (is_json_post request); [rewrite Hbody |]; reflexivity.
    - cbn.
      destruct (Headers.get (Request.headers request) "token") as [tk |] eqn:Et.
      + destruct (String.eqb_spec tk fake_token) as [-> | _]; [now elim Htoken |].
        cbn. destruct (is_json_post request); [rewrite Hbody |]; reflexivity.
      + cbn. destruct (is_json_post request); [rewrite Hbody |]; reflexivity. }
  assert (Hi : intercept rt request = Run [] (Ok request)).
  { unfold intercept. rewrite Hno. reflexivity. }
  split; [exact Hi |].
  unfold pipeline. rewrite Hi. apply bind_ret_l.
Qed.

(** C6 on a JSON POST whose headers and body have no placeholder. *)
Lemma placeholder_absent_witness :
  intercept Demo.rt (Demo.post "/card/getNewsList" Demo.json_type (Demo.object []))
  = Run [] (Ok (Demo.post "/card/getNewsList" Demo.json_type (Demo.object []))) /\
  pipeline Demo.rt (Demo.post "/card/getNewsList" Demo.json_type (Demo.object []))
  = dispatch Demo.rt (Demo.at_path "/card/getNewsList")
      (Demo.post "/card/getNewsList" Demo.json_type (Demo.object [])).
Proof.
  apply (placeholder_absent_request_untouched Demo.rt
           (Demo.post "/card/getNewsList" Demo.json_type (Demo.object []))).
  - intros a H. vm_compute in H. discriminate H.
  - intros H. vm_compute in H. discriminate H.
  - intros _. vm_compute. reflexivity.
Defined.

(** C10: a POST to [/card/getNewsGuideDetail] whose body has an [id] that
    is falsy (0, the empty string, [null], [false]) is answered 400 with the
    envelope "Missing id parameter", and the handler sends nothing upstream:
    the run has the events of interception and no other. *)
Theorem falsy_id_is_missing (rt : Runtime) (request modified : Request.t)
        (t0 : list Event) (props : list (string * JsVal)) (id : JsVal) :
  Request.method request = "POST" ->
  pathname (Request.url request) = "/card/getNewsGuideDetail" ->
  intercept rt request = Run t0 (Ok modified) ->
  parse rt (Request.text modified) = Ok (JObj props) ->
  Js.lookup "id" props = Some id ->
  Js.truthy id = false ->
  fetch rt request = Run t0 (Ok (json_response 400 missing_id)) /\
  Response.status (json_response 400 missing_id) = 400 /\
  trace (fetch rt request) = trace (intercept rt request) /\
  Forall (is_token_lookup rt) (fetches (trace (fetch rt request))).
Proof.
  intros Hm Hp Hi Hparse Hid Hfalsy.
  destruct (intercept_preserves _ _ _ _ Hi) as [Hm' _].
  assert (Hd : dispatch rt (Request.url request) modified
               = Run [] (Ok (json_response 400 missing_id))).
  { unfold dispatch. rewrite Hp, Hm', Hm.
    change (route _ _) with RNewsGuideDetail. cbv iota.
    unfold getNewsGuideDetail, json_of_request.
    rewrite (bind_pure _ _ _ Hparse).
    unfold Js.Get, Js.own. rewrite Hid. rewrite (bind_pure _ _ id eq_refl).
    rewrite Hfalsy. reflexivity. }
  assert (Hf : fetch rt request = Run t0 (Ok (json_response 400 missing_id))).
  { rewrite (fetch_answer rt request modified t0 [] _ (POST_not_OPTIONS _ Hm) Hi Hd).
    rewrite app_nil_r. reflexivity. }
  repeat split; [exact Hf | | ].
  - rewrite Hf, Hi. reflexivity.
  - rewrite Hf. cbn [trace]. pose proof (intercept_fetches rt request) as H.
    rewrite Hi in H. exact H.
Qed.

(** C10 on the body [{"id":0}]. *)
Lemma falsy_id_witness :
  fetch Demo.rt
    (Demo.post "/card/getNewsGuideDetail" Demo.json_type (Demo.object [("id", "0")]))
  = Run [] (Ok (json_response 400 missing_id)).
Proof.
  refine (proj1 (falsy_id_is_missing Demo.rt
            (Demo.post "/card/getNewsGuideDetail" Demo.json_type (Demo.object [("id", "0")]))
            (Demo.post "/card/getNewsGuideDetail" Demo.json_type (Demo.object [("id", "0")]))
            [] [("id", num 0)] (num 0) _ _ _ _ _ _)); reflexivity.
Defined.

(** The validation of line 400, as far as it goes.  A POST to
    [/simulator/v2/getComponentList] is answered 400 with [{code:400,
    msg:'Invalid type parameter'}], the handler sending nothing upstream,
    when its [type] is absent, or falsy, or a number other than 1 to 7, or
    any value whose text is neither a key of the table nor the name of a
    property that the table inherits (a text such as "foo", [true], an
    object, the array [[9]]). *)
Lemma unmapped_type_rejected (rt : Runtime) (request modified : Request.t)
        (t0 : list Event) (body type : JsVal) :
  Request.method request = "POST" ->
  pathname (Request.url request) = "/simulator/v2/getComponentList" ->
  intercept rt request = Run t0 (Ok modified) ->
  parse rt (Request.text modified) = Ok body ->
  Js.Get body "type" = Ok type ->
  (type = JUndefined \/ Js.truthy type = false \/
   (exists n, type = JNum n /\ (n < 1 \/ 7 < n)) \/
   (Js.lookup (Js.ToString type) TYPE_TO_MANIFEST = None /\
    Js.lookup (Js.ToString type) Object_prototype = None)) ->
  fetch rt request
  = Run t0 (Ok (json_response 400
                  (JObj [("code", num 400); ("msg", JStr "Invalid type parameter")]))) /\
  trace (fetch rt request) = trace (intercept rt request) /\
  rejects_type rt (fetch rt request).
Proof.
  intros Hm Hp Hi Hparse Htype Hbad.
  destruct (intercept_preserves _ _ _ _ Hi) as [Hm' _].
  destruct (Get_any _ _ "page" _ Htype) as [pg Hpg].
  destruct (Get_any _ _ "page_size" _ Htype) as [ps Hps].
  assert (Hcheck : negb (Js.truthy type)
                   || negb (Js.truthy (index TYPE_TO_MANIFEST type)) = true).
  { destruct Hbad as [-> | [Hf | [(n & -> & Hn) | [Hown Hinherited]]]].
    - reflexivity.
    - rewrite Hf. reflexivity.
    - rewrite (index_number n Hn). apply orb_true_r.
    - unfold index, Js.own. rewrite Hown, Hinherited. apply orb_true_r. }
  assert (Hd : dispatch rt (Request.url request) modified
               = Run [] (Ok (json_response 400 invalid_type))).
  { unfold dispatch. rewrite Hp, Hm', Hm.
    change (route _ _) with RComponentList. cbv iota.
    unfold getComponentList, json_of_request.
    rewrite (bind_pure _ _ _ Hparse), (bind_pure _ _ _ Htype),
      (bind_pure _ _ _ Hpg), (bind_pure _ _ _ Hps), Hcheck.
    reflexivity. }
  assert (Hf : fetch rt request = Run t0 (Ok (json_response 400 invalid_type))).
  { rewrite (fetch_answer rt request modified t0 [] _ (POST_not_OPTIONS _ Hm) Hi Hd).
    rewrite app_nil_r. reflexivity. }
  split; [exact Hf |]. split.
  - rewrite Hf, Hi. reflexivity.
  - split; [rewrite Hf; reflexivity |].
    rewrite Hf. cbn [trace]. pose proof (intercept_fetches rt request) as H.
    rewrite Hi in H. exact H.
Qed.

(** So it is on the body [{"type":99}]. *)
Lemma unmapped_type_witness :
  rejects_type Demo.rt
    (fetch Demo.rt
       (Demo.post "/simulator/v2/getComponentList" Demo.json_type
          (Demo.object [("type", "99")]))).
Proof.
  refine (proj2 (proj2 (unmapped_type_rejected Demo.rt
            (Demo.post "/simulator/v2/getComponentList" Demo.json_type
               (Demo.object [("type", "99")]))
            (Demo.post "/simulator/v2/getComponentList" Demo.json_type
               (Demo.object [("type", "99")]))
            [] (JObj [("type", num 99)]) (num 99) _ _ _ _ _ _)));
    try reflexivity.
  right. right. left. exists 99. split; [reflexivity | lia].
Defined.

(** C9 fails on the body [{"type":"constructor"}].  The text
    ["constructor"] is not one of the integers 1 to 7, and the check of
    line 400 is there to reject it; but [TYPE_TO_MANIFEST[type]] also finds
    what the table inherits from [Object.prototype], so the check lets the
    text through: a request goes upstream, for the static base followed by
    the text of the inherited function, and the answer is the 500 of a
    manifest that could not be fetched, not the 400. *)
Lemma constructor_type_not_rejected :
  parse Demo.rt
    (Request.text (Demo.post "/simulator/v2/getComponentList" Demo.json_type
                     (Demo.object [("type", Str.q "constructor")])))
  = Ok (JObj [("type", JStr "constructor")]) /\
  (forall n : Z, JStr "constructor" <> JNum n) /\
  fetch Demo.rt
    (Demo.post "/simulator/v2/getComponentList" Demo.json_type
       (Demo.object [("type", Str.q "constructor")]))
  = Run [Fetched (Fetch.simple (GITHUB_BASE ++ "function Object() { [native code] }"))]
        (Ok (json_response 500 (failure "Failed to fetch manifest"))) /\
  ~ rejects_type Demo.rt
      (fetch Demo.rt
         (Demo.post "/simulator/v2/getComponentList" Demo.json_type
            (Demo.object [("type", Str.q "constructor")]))).
Proof.
  split; [reflexivity |]. split; [discriminate |].
  assert (H : fetch Demo.rt
                (Demo.post "/simulator/v2/getComponentList" Demo.json_type
                   (Demo.object [("type", Str.q "constructor")]))
              = Run [Fetched (Fetch.simple
                                (GITHUB_BASE ++ "function Object() { [native code] }"))]
                    (Ok (json_response 500 (failure "Failed to fetch manifest"))))
    by (vm_compute; reflexivity).
  split; [exact H |].
  rewrite H. intros [Hout _]. cbn in Hout. discriminate Hout.
Qed.

(** C1, as amended: when the news service answers a POST to
    [/card/getNewsList] with a status that is not a success, the handler
    answers with status 200 and the fixed envelope
    [{code:500, msg:"Failed to fetch news", time:"", data:[]}] (an empty
    list under an error code), with [Content-Type: application/json] and the
    CORS headers. *)
Theorem news_list_upstream_failure (rt : Runtime) (request modified : Request.t)
        (t0 : list Event) (body page page_size : JsVal) (newsResponse : Response.t) :
  Request.method request = "POST" ->
  pathname (Request.url request) = "/card/getNewsList" ->
  intercept rt request = Run t0 (Ok modified) ->
  parse rt (Request.text modified) = Ok body ->
  Js.Get body "page" = Ok page ->
  Js.Get body "page_size" = Ok page_size ->
  network rt (Fetch.simple (news_list_url (Js.or page (num 1)) (Js.or page_size (num 4))))
  = Ok newsResponse ->
  Response.ok newsResponse = false ->
  exists response,
    outcome (fetch rt request) = Ok response /\
    Response.status response = 200 /\
    Response.body response
    = Json (JObj [ ("code", num 500); ("msg", JStr "Failed to fetch news");
                   ("time", JStr ""); ("data", JArr []) ]) /\
    Headers.get (Response.headers response) "Content-Type" = Some "application/json" /\
    Forall (fun kv => Headers.get (Response.headers response) (fst kv) = Some (snd kv))
           corsHeaders.
Proof.
  intros Hm Hp Hi Hparse Hpage Hsize Hnet Hok.
  destruct (intercept_preserves _ _ _ _ Hi) as [Hm' _].
  assert (Hd : outcome (dispatch rt (Request.url request) modified)
               = Ok (json_response 200 news_failure)).
  { unfold dispatch. rewrite Hp, Hm', Hm.
    change (route _ _) with RNewsList. cbv iota.
    unfold getNewsList, json_of_request.
    rewrite (bind_pure _ _ _ Hparse), (bind_pure _ _ _ Hpage), (bind_pure _ _ _ Hsize).
    unfold global_fetch. rewrite Hnet. cbn. rewrite Hok. reflexivity. }
  exists (json_response 200 news_failure).
  split.
  - rewrite (fetch_not_options _ _ (POST_not_OPTIONS _ Hm)).
    rewrite (pipeline_dispatch _ _ _ _ Hi). cbn [outcome]. rewrite Hd. reflexivity.
  - split; [reflexivity |]. split; [reflexivity |].
    apply (respond_headers 200 "application/json").
Qed.

(** C1 on a news service that answers 503. *)
Lemma news_list_failure_witness :
  exists response,
    outcome (fetch Demo.rt (Demo.post "/card/getNewsList" Demo.json_type (Demo.object [])))
    = Ok response /\
    Response.status response = 200 /\
    Response.body response
    = Json (JObj [ ("code", num 500); ("msg", JStr "Failed to fetch news");
                   ("time", JStr ""); ("data", JArr []) ]) /\
    Headers.get (Response.headers response) "Content-Type" = Some "application/json" /\
    Forall (fun kv => Headers.get (Response.headers response) (fst kv) = Some (snd kv))
           corsHeaders.
Proof.
  apply (news_list_upstream_failure Demo.rt
           (Demo.post "/card/getNewsList" Demo.json_type (Demo.object []))
           (Demo.post "/card/getNewsList" Demo.json_type (Demo.object []))
           [] (JObj []) JUndefined JUndefined
           {| Response.status := 503; Response.headers := [];
              Response.body := Text "unavailable" |});
    reflexivity.
Defined.

(** C1, as stated, fails: the news service answers 503 and the envelope
    that comes back carries the error code 500; it is not a success
    envelope. *)
Lemma news_list_failure_is_error_coded :
  network Demo.rt (Fetch.simple (news_list_url (num 1) (num 4)))
  = Demo.answer 503 [] "unavailable" /\
  ~ answers_empty_success
      (fetch Demo.rt (Demo.post "/card/getNewsList" Demo.json_type (Demo.object []))).
Proof.
  split; [reflexivity |].
  intros (envelope & Hout & Hcode & _).
  vm_compute in Hout. injection Hout as <-. vm_compute in Hcode. discriminate Hcode.
Qed.

(** C7: when a step of the pipeline throws on a request that is not a
    preflight (interception, or the handler that the route selects, the
    fallback proxy among them), the answer is status 500 with the body
    [{code:500, msg:"Error: <message>"}], where [<message>] is the message
    of the error, with the CORS headers. *)
Theorem thrown_error_answered_500 (rt : Runtime) (request : Request.t)
        (t : list Event) (message : string) :
  Request.method request <> "OPTIONS" ->
  (intercept rt request = Run t (Throw message) \/
   exists t0 modified t1,
     intercept rt request = Run t0 (Ok modified) /\
     dispatch rt (Request.url request) modified = Run t1 (Throw message) /\
     t = (t0 ++ t1)%list) ->
  exists response,
    fetch rt request = Run t (Ok response) /\
    Response.status response = 500 /\
    Response.body response
    = Json (JObj [("code", num 500); ("msg", JStr ("Error: " ++ message))]) /\
    Headers.get (Response.headers response) "Content-Type" = Some "application/json" /\
    Forall (fun kv => Headers.get (Response.headers response) (fst kv) = Some (snd kv))
           corsHeaders.
Proof.
  intros Hm Hthrow.
  assert (Hp : pipeline rt request = Run t (Throw message)).
  { destruct Hthrow as [Hi | (t0 & modified & t1 & Hi & Hd & ->)].
    - unfold pipeline. apply bind_Throw. exact Hi.
    - rewrite (pipeline_dispatch _ _ _ _ Hi), Hd. reflexivity. }
  exists (internal_error message).
  split.
  - rewrite (fetch_not_options _ _ Hm), Hp. reflexivity.
  - split; [reflexivity |]. split; [reflexivity |].
    apply (respond_headers 500 "application/json").
Qed.

(** C7 on a body that is not JSON: [request.json()] throws. *)
Lemma thrown_error_witness :
  exists response,
    fetch Demo.rt (Demo.post "/card/getNewsList" Demo.json_type "not json")
    = Run [] (Ok response) /\
    Response.status response = 500 /\
    Response.body response
    = Json (JObj [("code", num 500);
                  ("msg", JStr ("Error: " ++ "Unexpected token in JSON"))]) /\
    Headers.get (Response.headers response) "Content-Type" = Some "application/json" /\
    Forall (fun kv => Headers.get (Response.headers response) (fst kv) = Some (snd kv))
           corsHeaders.
Proof.
  apply (thrown_error_answered_500 Demo.rt
           (Demo.post "/card/getNewsList" Demo.json_type "not json")).
  - discriminate.
  - right. exists [], (Demo.post "/card/getNewsList" Demo.json_type "not json"), [].
    repeat split; reflexivity.
Defined.

(** ** Pagination *)

Lemma slice_list_page {A : Type} (l : list A) (p s : Z) :
  1 <= p -> 1 <= s ->
  Js.slice_list l ((p - 1) * s) ((p - 1) * s + s)
  = firstn (Z.to_nat s) (skipn (Z.to_nat ((p - 1) * s)) l).
Proof.
  intros Hp Hs. unfold Js.slice_list, Str.clamp.
  set (start := (p - 1) * s). set (len := Z.of_nat (List.length l)).
  assert (H0 : 0 <= start) by (subst start; nia).
  destruct (Z.ltb_spec start 0) as [? | _]; [lia |].
  destruct (Z.ltb_spec (start + s) 0) as [? | _]; [lia |].
  destruct (Z_le_gt_dec len start) as [Hout | Hin].
  - rewrite (Z.min_r start len), (Z.min_r (start + s) len) by lia.
    replace (Z.max (len - len) 0) with 0 by lia. cbn [Z.to_nat firstn].
    rewrite (skipn_all2 (n := Z.to_nat start)) by (subst len; lia).
    destruct (Z.to_nat s); reflexivity.
  - rewrite (Z.min_l start len) by lia.
    destruct (Z_le_gt_dec (start + s) len) as [Hfull | Hpart].
    + rewrite (Z.min_l (start + s) len) by lia. f_equal. lia.
    + rewrite (Z.min_r (start + s) len) by lia.
      rewrite !firstn_all2; [reflexivity | |]; rewrite length_skipn; subst len; lia.
Qed.

Lemma page_length_firstn {A : Type} (l : list A) (p s : Z) :
  1 <= p -> 1 <= s ->
  Z.of_nat (List.length (firstn (Z.to_nat s) (skipn (Z.to_nat ((p - 1) * s)) l)))
  = page_length (Z.of_nat (List.length l)) p s.
Proof.
  intros Hp Hs. rewrite length_firstn, length_skipn. unfold page_length.
  set (start := (p - 1) * s).
  assert (H0 : 0 <= start) by (subst start; nia).
  lia.
Qed.

(** What the renaming step leaves: a manifest whose [data.list] is the list
    the manifest carried, with the [total] it came with. *)
Lemma rename_components_list (mprops dprops : list (string * JsVal)) :
  Js.own mprops "data" = JObj dprops ->
  exists mprops' dprops',
    rename_components (JObj mprops) = Ok (JObj mprops') /\
    Js.own mprops' "data" = JObj dprops' /\
    Js.own dprops' "list" = manifest_list dprops /\
    Js.own dprops' "total" = Js.own dprops "total".
Proof.
  intros Hdata. unfold rename_components, manifest_list.
  cbn [Js.Get bind Monad_Outcome]. rewrite Hdata. cbn [Js.truthy Js.Get].
  destruct (Js.truthy (Js.own dprops "components")) eqn:Hc.
  - cbn [Js.Set_ Js.Delete].
    eexists _, _. split; [reflexivity |]. split.
    + rewrite own_assign. reflexivity.
    + rewrite !own_remove, !own_assign. split; reflexivity.
  - exists mprops, dprops. cbn [ret Monad_Outcome]. auto.
Qed.

Lemma paginate_page (mprops dprops : list (string * JsVal)) (items : list JsVal) (p s : Z) :
  1 <= p -> 1 <= s ->
  Js.own mprops "data" = JObj dprops ->
  Js.own dprops "list" = JArr items ->
  exists mprops' dprops',
    paginate (num p) (num s) (JObj mprops) = Ok (JObj mprops') /\
    Js.own mprops' "data" = JObj dprops' /\
    Js.own dprops' "list"
    = JArr (firstn (Z.to_nat s) (skipn (Z.to_nat ((p - 1) * s)) items)) /\
    Js.own dprops' "page" = num p /\
    Js.own dprops' "pageSize" = num s /\
    Js.own dprops' "total"
    = Js.or (Js.own dprops "total") (num (Z.of_nat (List.length items))).
Proof.
  intros Hp Hs Hdata Hlist. unfold paginate.
  cbn [Js.Get bind Monad_Outcome]. rewrite Hdata. cbn [Js.truthy Js.Get].
  rewrite Hlist.
  cbn [Js.truthy Js.number num Js.slice Js.length Js.Set_ bind Monad_Outcome].
  rewrite (slice_list_page items p s Hp Hs).
  eexists _, _. split; [reflexivity |]. split; [rewrite own_assign; reflexivity |].
  rewrite !own_assign. repeat split; reflexivity.
Qed.

(** C3, as amended: for a POST to [/simulator/v2/getComponentList] with a
    mapped [type], page [p >= 1] and page size [s >= 1] (1 and 10 when the
    body has none), when the manifest
    that was fetched carries a list of [L] items ([data.components] when
    there is one, else [data.list]), the answer has in [data.list] the [s]
    items that follow the first [(p-1)*s], hence [min(s, max(0, L-(p-1)*s))]
    of them (none or fewer past the end, never an error), with [data.page]
    and [data.pageSize]; [data.total] is the [total] of the manifest when it
    has a truthy one, and [L] otherwise. *)
Theorem component_list_page (rt : Runtime) (request modified : Request.t)
        (t0 : list Event) (body type page page_size : JsVal) (p s : Z)
        (upstream : Response.t)
        (mprops dprops : list (string * JsVal)) (items : list JsVal) :
  Request.method request = "POST" ->
  pathname (Request.url request) = "/simulator/v2/getComponentList" ->
  intercept rt request = Run t0 (Ok modified) ->
  parse rt (Request.text modified) = Ok body ->
  Js.Get body "type" = Ok type ->
  Js.truthy type = true ->
  Js.truthy (index TYPE_TO_MANIFEST type) = true ->
  Js.Get body "page" = Ok page ->
  Js.or page (num 1) = num p ->
  Js.Get body "page_size" = Ok page_size ->
  Js.or page_size (num 10) = num s ->
  1 <= p ->
  1 <= s ->
  network rt (Fetch.simple (GITHUB_BASE ++ Js.ToString (index TYPE_TO_MANIFEST type)))
  = Ok upstream ->
  Response.ok upstream = true ->
  parse rt (Response.text upstream) = Ok (JObj mprops) ->
  Js.own mprops "data" = JObj dprops ->
  manifest_list dprops = JArr items ->
  exists manifest data paged,
    outcome (fetch rt request) = Ok (json_response 200 manifest) /\
    Js.Get manifest "data" = Ok data /\
    Js.Get data "list" = Ok (JArr paged) /\
    paged = firstn (Z.to_nat s) (skipn (Z.to_nat ((p - 1) * s)) items) /\
    Z.of_nat (List.length paged) = page_length (Z.of_nat (List.length items)) p s /\
    Js.Get data "page" = Ok (num p) /\
    Js.Get data "pageSize" = Ok (num s) /\
    Js.Get data "total"
    = Ok (Js.or (Js.own dprops "total") (num (Z.of_nat (List.length items)))).
Proof.
  intros Hm Hpath Hi Hparse Htype Ht1 Ht2 Hpage Hpor Hsize Hsor Hp Hs Hnet Hok Hman
    Hdata Hlist.
  destruct (intercept_preserves _ _ _ _ Hi) as [Hm' _].
  destruct (rename_components_list mprops dprops Hdata)
    as (mprops1 & dprops1 & Hren & Hdata1 & Hlist1 & Htotal1).
  rewrite Hlist in Hlist1.
  destruct (paginate_page mprops1 dprops1 items p s Hp Hs Hdata1 Hlist1)
    as (mprops2 & dprops2 & Hpag & Hdata2 & Hlist2 & Hpage2 & Hsize2 & Htotal2).
  assert (Hd : outcome (dispatch rt (Request.url request) modified)
               = Ok (json_response 200 (JObj mprops2))).
  { unfold dispatch. rewrite Hpath, Hm', Hm.
    change (route _ _) with RComponentList. cbv iota.
    unfold getComponentList, json_of_request.
    rewrite (bind_pure _ _ _ Hparse), (bind_pure _ _ _ Htype),
      (bind_pure _ _ _ Hpage), (bind_pure _ _ _ Hsize).
    rewrite Ht1, Ht2. cbn [negb orb].
    unfold global_fetch. rewrite Hnet. cbn [bind Monad_M outcome trace].
    rewrite Hok. cbn [negb]. unfold json_of_response, pure. rewrite Hman.
    cbn [bind Monad_M outcome trace]. rewrite Hren. cbn [outcome trace].
    rewrite Hpor, Hsor, Hpag. reflexivity. }
  exists (JObj mprops2), (JObj dprops2), (firstn (Z.to_nat s) (skipn (Z.to_nat ((p - 1) * s)) items)).
  split.
  { rewrite (fetch_not_options _ _ (POST_not_OPTIONS _ Hm)).
    rewrite (pipeline_dispatch _ _ _ _ Hi). cbn [outcome]. rewrite Hd. reflexivity. }
  cbn [Js.Get]. rewrite Hdata2, Hlist2, Hpage2, Hsize2, Htotal2, Htotal1.
  repeat split; try reflexivity.
  apply page_length_firstn; assumption.
Qed.

(** C3 on the second page, of two items, of a list of three. *)
Lemma component_list_page_witness :
  exists manifest data paged,
    outcome (fetch Demo.rt
               (Demo.post "/simulator/v2/getComponentList" Demo.json_type
                  (Demo.object [("type", "1"); ("page", "2"); ("page_size", "2")])))
    = Ok (json_response 200 manifest) /\
    Js.Get manifest "data" = Ok data /\
    Js.Get data "list" = Ok (JArr paged) /\
    paged = [num 3] /\
    Z.of_nat (List.length paged) = page_length 3 2 2 /\
    Js.Get data "page" = Ok (num 2) /\
    Js.Get data "pageSize" = Ok (num 2) /\
    Js.Get data "total" = Ok (num 3).
Proof.
  apply (component_list_page Demo.rt
           (Demo.post "/simulator/v2/getComponentList" Demo.json_type
              (Demo.object [("type", "1"); ("page", "2"); ("page_size", "2")]))
           (Demo.post "/simulator/v2/getComponentList" Demo.json_type
              (Demo.object [("type", "1"); ("page", "2"); ("page_size", "2")]))
           [] (JObj [("type", num 1); ("page", num 2); ("page_size", num 2)]) (num 1)
           (num 2) (num 2) 2 2
           {| Response.status := 200; Response.headers := [];
              Response.body := Text (Demo.object [("data", Demo.object [("list", "[1,2,3]")])]) |}
           [("data", JObj [("list", Demo.one_two_three)])]
           [("list", Demo.one_two_three)]
           [num 1; num 2; num 3]);
    try reflexivity; lia.
Defined.

(** C3, as stated, fails on [total]: the manifest of type 2 has three items
    and says [total: 100]; the answer repeats 100, not 3.  It fails on the
    list too when a manifest has both [components] and [list]: the manifest
    of type 3 has a [list] of three items, and the answer is cut from its
    [components], which has one. *)
Lemma component_list_total_not_length :
  parse Demo.rt (Demo.object [("data", Demo.object [("list", "[1,2,3]"); ("total", "100")])])
  = Ok (JObj [("data", JObj [("list", JArr [num 1; num 2; num 3]); ("total", num 100)])]) /\
  ~ answers_page
      (fetch Demo.rt
         (Demo.post "/simulator/v2/getComponentList" Demo.json_type
            (Demo.object [("type", "2"); ("page", "1"); ("page_size", "10")])))
      3 1 10 /\
  parse Demo.rt (Demo.object [("data", Demo.object [("components", "[1]"); ("list", "[1,2,3]")])])
  = Ok (JObj [("data", JObj [("components", JArr [num 1]);
                             ("list", JArr [num 1; num 2; num 3])])]) /\
  ~ answers_page
      (fetch Demo.rt
         (Demo.post "/simulator/v2/getComponentList" Demo.json_type
            (Demo.object [("type", "3"); ("page", "1"); ("page_size", "10")])))
      3 1 10.
Proof.
  split; [reflexivity |]. split.
  - intros (manifest & data & items & Hout & Hdata & Hlist & Hlen & Htotal).
    vm_compute in Hout. injection Hout as <-.
    vm_compute in Hdata. injection Hdata as <-.
    vm_compute in Htotal. discriminate Htotal.
  - split; [reflexivity |].
    intros (manifest & data & items & Hout & Hdata & Hlist & Hlen & Htotal).
    vm_compute in Hout. injection Hout as <-.
    vm_compute in Hdata. injection Hdata as <-.
    vm_compute in Hlist. injection Hlist as <-.
    vm_compute in Hlen. discriminate Hlen.
Qed.

(** ** Header-only matches *)

(** When the body was read and has no placeholder, the rebuilt request
    carries the text that was read. *)
Lemma header_match_keeps_read_body (rt : Runtime) (request : Request.t) (realToken : JsVal) :
  is_json_post request = true ->
  Request.text request <> "" ->
  Str.includes (Request.text request) fake_token = false ->
  rebuild rt request realToken
  = Run [] (Ok {| Request.method := Request.method request;
                  Request.url := Request.url request;
                  Request.headers := replace_in_headers request realToken;
                  Request.body := Text (Request.text request) |}).
Proof.
  intros Hjson Htext Hno. unfold rebuild, read_bodyText. rewrite Hjson, Hno.
  rewrite andb_false_r.
  destruct (String.eqb_spec (Request.text request) "") as [E | _]; [contradiction |].
  reflexivity.
Qed.

(** C2 fails on a body that interception did not read: a POST whose
    content type is not JSON has the placeholder in its [token] header and
    a body without it; a real credential is obtained; the request handed to
    the handlers has the new header and no body, and what the handler
    forwards upstream is the empty text. *)
Lemma header_match_drops_unread_body :
  let request :=
    Demo.post "/card/getGameDetail"
      [("token", "fake-token"); ("content-type", "text/plain")]
      (Demo.object [("id", "7")]) in
  shouldReplaceToken request = true /\
  Str.includes (Request.text request) fake_token = false /\
  outcome (obtain_token Demo.rt) = Ok (JStr "real-token") /\
  outcome (intercept Demo.rt request)
  = Ok {| Request.method := "POST";
          Request.url := Demo.at_path "/card/getGameDetail";
          Request.headers := [("token", "real-token"); ("content-type", "text/plain")];
          Request.body := Empty |} /\
  Request.body request = Text (Demo.object [("id", "7")]) /\
  In (Fetched {| Fetch.url := landscape_api ++ "/card/getGameDetail";
                 Fetch.method := "POST";
                 Fetch.headers := [("token", "real-token"); ("content-type", "text/plain")];
                 Fetch.body := Text "";
                 Fetch.cf := None |})
     (trace (fetch Demo.rt request)).
Proof.
  cbv zeta. repeat split; try reflexivity.
  vm_compute. right. right. right. left. reflexivity.
Qed.

(** ** Sorting *)

Lemma leb_iff (a b : string) : String.leb a b = true <-> a = b \/ String_as_OT.lt a b.
Proof.
  unfold String.leb. rewrite <- String_as_OT.cmp_lt, <- String_as_OT.cmp_eq.
  unfold String_as_OT.cmp. destruct (String.compare a b); split; intros H; auto;
    try discriminate H; destruct H as [H | H]; discriminate H.
Qed.

Lemma leb_trans : Relations_1.Transitive (fun x y : string => is_true (String.leb x y)).
Proof.
  intros a b c Hab Hbc. apply leb_iff in Hab, Hbc. apply leb_iff.
  destruct Hab as [-> | Hab]; [exact Hbc |].
  destruct Hbc as [<- | Hbc]; [right; exact Hab |].
  right. eapply String_as_OT.lt_trans; eassumption.
Qed.

(** A list of strings has one sorted arrangement. *)
Lemma sorted_unique (l1 l2 : list string) :
  StronglySorted (fun x y => is_true (String.leb x y)) l1 ->
  StronglySorted (fun x y => is_true (String.leb x y)) l2 ->
  Permutation l1 l2 ->
  l1 = l2.
Proof.
  intros S1. revert l2. induction S1 as [| x l1 S1 IH Hx]; intros l2 S2 HP.
  - apply Permutation_nil in HP. congruence.
  - destruct S2 as [| y l2 S2 Hy].
    + apply Permutation_sym, Permutation_nil in HP. discriminate HP.
    + assert (Hxy : x = y).
      { assert (In y (x :: l1)) as [E | Iy]
          by (eapply Permutation_in; [apply Permutation_sym; exact HP | left; reflexivity]);
          [exact E |].
        assert (In x (y :: l2)) as [E | Ix]
          by (eapply Permutation_in; [exact HP | left; reflexivity]);
          [symmetry; exact E |].
        rewrite Forall_forall in Hx, Hy.
        apply String.leb_antisym; [apply Hx | apply Hy]; assumption. }
      subst y. f_equal. apply IH; [exact S2 |].
      eapply Permutation_cons_inv. exact HP.
Qed.

Lemma sort_permutation (l1 l2 : list string) :
  Permutation l1 l2 -> StringSort.sort l1 = StringSort.sort l2.
Proof.
  intros HP. apply sorted_unique.
  - apply StringSort.StronglySorted_sort, leb_trans.
  - apply StringSort.StronglySorted_sort, leb_trans.
  - eapply Permutation_trans; [apply Permutation_sym, StringSort.Permuted_sort |].
    eapply Permutation_trans; [exact HP | apply StringSort.Permuted_sort].
Qed.

Lemma filter_permutation {A : Type} (f : A -> bool) (l1 l2 : list A) :
  Permutation l1 l2 -> Permutation (filter f l1) (filter f l2).
Proof.
  induction 1 as [| x l1 l2 _ IH | x y l | l1 l2 l3 _ IH1 _ IH2]; cbn.
  - constructor.
  - destruct (f x); [constructor |]; exact IH.
  - destruct (f x), (f y); try apply Permutation_refl. constructor.
  - eapply Permutation_trans; eassumption.
Qed.

(** ** Objects as lists of distinct keys *)

Lemma lookup_In (k : string) (v : JsVal) (props : list (string * JsVal)) :
  NoDup (Js.keys props) -> In (k, v) props -> Js.lookup k props = Some v.
Proof.
  induction props as [| [k0 v0] rest IH]; cbn; intros Hnd Hin; [contradiction |].
  inversion Hnd as [| ? ? Hnotin Hnd']; subst.
  destruct Hin as [E | Hin].
  - injection E as -> ->. rewrite String.eqb_refl. reflexivity.
  - destruct (String.eqb_spec k0 k) as [-> | _].
    + elim Hnotin. apply (in_map fst) in Hin. exact Hin.
    + apply IH; assumption.
Qed.

Lemma lookup_None (k : string) (props : list (string * JsVal)) :
  ~ In k (Js.keys props) -> Js.lookup k props = None.
Proof.
  induction props as [| [k0 v0] rest IH]; cbn; intros Hnot; [reflexivity |].
  destruct (String.eqb_spec k0 k) as [-> | _]; [elim Hnot; left; reflexivity |].
  apply IH. intros H. apply Hnot. right. exact H.
Qed.

Lemma lookup_Some_In (k : string) (v : JsVal) (props : list (string * JsVal)) :
  Js.lookup k props = Some v -> In (k, v) props.
Proof.
  induction props as [| [k0 v0] rest IH]; cbn; intros H; [discriminate H |].
  destruct (String.eqb_spec k0 k) as [-> | _].
  - injection H as ->. left. reflexivity.
  - right. apply IH. exact H.
Qed.

(** Reading a property does not depend on the order of insertion. *)
Lemma own_permutation (params permuted : list (string * JsVal)) (k : string) :
  NoDup (Js.keys params) -> Permutation params permuted ->
  Js.own permuted k = Js.own params k.
Proof.
  intros Hnd HP. unfold Js.own.
  assert (Hnd' : NoDup (Js.keys permuted)).
  { eapply Permutation_NoDup; [apply Permutation_map; exact HP | exact Hnd]. }
  destruct (Js.lookup k params) as [v |] eqn:E.
  - apply lookup_Some_In in E.
    rewrite (lookup_In k v permuted Hnd'); [reflexivity |].
    eapply Permutation_in; eassumption.
  - destruct (Js.lookup k permuted) as [v |] eqn:E'; [| reflexivity].
    apply lookup_Some_In in E'.
    rewrite (lookup_In k v params Hnd) in E; [discriminate E |].
    eapply Permutation_in; [apply Permutation_sym |]; eassumption.
Qed.

Lemma StronglySorted_keys (l : list (string * JsVal)) :
  StronglySorted (fun a b => is_true (PairOrder.leb a b)) l ->
  StronglySorted (fun x y => is_true (String.leb x y)) (map fst l).
Proof.
  induction 1 as [| a l _ IH Ha]; cbn; constructor; [exact IH |].
  rewrite Forall_forall in *. intros k Hk.
  apply in_map_iff in Hk as (b & <- & Hb). apply Ha. exact Hb.
Qed.

Lemma filter_keys (f : string -> bool) (l : list (string * JsVal)) :
  map fst (filter (fun kv => f (fst kv)) l) = filter f (map fst l).
Proof.
  induction l as [| [k v] l IH]; cbn; [reflexivity |].
  destruct (f k); cbn; rewrite IH; reflexivity.
Qed.

(** Sorting the pairs by key and sorting the keys give the keys in the same
    order. *)
Lemma sorted_pairs_keys (l : list (string * JsVal)) :
  map fst (PairSort.sort l) = StringSort.sort (map fst l).
Proof.
  apply sorted_unique.
  - apply StronglySorted_keys, PairSort.StronglySorted_sort.
    intros a b c. apply leb_trans.
  - apply StringSort.StronglySorted_sort, leb_trans.
  - eapply Permutation_trans; [| apply StringSort.Permuted_sort].
    apply Permutation_map, Permutation_sym, PairSort.Permuted_sort.
Qed.

(** ** Lower case *)

Lemma lower_ascii_not_upper (c : ascii) : Str.is_upper (Str.lower_ascii c) = false.
Proof. destruct c as [[] [] [] [] [] [] [] []]; reflexivity. Qed.

Lemma no_upper_toLowerCase (s : string) : Str.no_upper (Str.toLowerCase s) = true.
Proof.
  induction s as [| c s IH]; cbn; [reflexivity |].
  rewrite lower_ascii_not_upper, IH. reflexivity.
Qed.

Lemma toLowerCase_fixed (s : string) : Str.no_upper s = true -> Str.toLowerCase s = s.
Proof.
  induction s as [| c s IH]; cbn; [reflexivity |].
  intros H. apply andb_true_iff in H as [Hc Hs]. rewrite (IH Hs). f_equal.
  unfold Str.lower_ascii. unfold Str.is_upper in Hc.
  destruct (Nat.leb 65 (nat_of_ascii c) && Nat.leb (nat_of_ascii c) 90)%bool;
    [discriminate Hc | reflexivity].
Qed.

Lemma toLowerCase_idempotent (s : string) :
  Str.toLowerCase (Str.toLowerCase s) = Str.toLowerCase s.
Proof. apply toLowerCase_fixed, no_upper_toLowerCase. Qed.

(** C4: the signature does not depend on the order in which the fields of
    the object were inserted, and it is the digest, in lower case, of the
    pairs other than [sign], sorted by key, written [key=value], joined by
    [&], with [&] and the shared secret appended. *)
Theorem signature_order_independent (rt : Runtime)
        (params permuted : list (string * JsVal)) :
  NoDup (Js.keys params) ->
  Permutation params permuted ->
  generateSignature rt permuted = generateSignature rt params /\
  generateSignature rt params = Str.toLowerCase (md5 rt (spec_signString params)) /\
  Str.no_upper (generateSignature rt params) = true.
Proof.
  intros Hnd HP. split; [| split].
  - unfold generateSignature.
    rewrite (sort_permutation
               (filter (fun k => negb (k =? "sign")%string) (Js.keys permuted))
               (filter (fun k => negb (k =? "sign")%string) (Js.keys params)))
      by (apply filter_permutation, Permutation_map, Permutation_sym, HP).
    erewrite map_ext; [reflexivity |].
    intros key. cbv beta. rewrite (own_permutation params permuted key Hnd HP).
    reflexivity.
  - unfold generateSignature, spec_signString, Js.keys.
    rewrite <- (filter_keys (fun k => negb (k =? "sign")%string) params).
    rewrite <- sorted_pairs_keys, map_map.
    erewrite map_ext_in; [reflexivity |].
    intros [k v] Hin. cbn [fst snd].
    assert (Hin' : In (k, v) params).
    { eapply Permutation_in in Hin; [| apply Permutation_sym, PairSort.Permuted_sort].
      apply filter_In in Hin. apply Hin. }
    unfold Js.own. rewrite (lookup_In k v params Hnd Hin'). reflexivity.
  - unfold generateSignature. apply no_upper_toLowerCase.
Qed.

(** C4 on an object of four fields and one of its rearrangements. *)
Lemma signature_order_witness :
  generateSignature Demo.rt
    [("sign", JStr "old"); ("time", num 1); ("token", JStr "t"); ("gpu_vendor", JStr "Adreno")]
  = generateSignature Demo.rt
      [("token", JStr "t"); ("gpu_vendor", JStr "Adreno"); ("time", num 1); ("sign", JStr "old")].
Proof.
  refine (proj1 (signature_order_independent Demo.rt
            [("token", JStr "t"); ("gpu_vendor", JStr "Adreno"); ("time", num 1); ("sign", JStr "old")]
            [("sign", JStr "old"); ("time", num 1); ("token", JStr "t"); ("gpu_vendor", JStr "Adreno")]
            _ _)).
  - repeat constructor; cbn; intuition discriminate.
  - apply Permutation_sym.
    apply (perm_trans (l' := [("time", num 1); ("sign", JStr "old"); ("token", JStr "t");
                              ("gpu_vendor", JStr "Adreno")])); [apply perm_swap |].
    apply (perm_trans (l' := [("time", num 1); ("token", JStr "t"); ("sign", JStr "old");
                              ("gpu_vendor", JStr "Adreno")])); [apply perm_skip, perm_swap |].
    apply (perm_trans (l' := [("token", JStr "t"); ("time", num 1); ("sign", JStr "old");
                              ("gpu_vendor", JStr "Adreno")])); [apply perm_swap |].
    apply perm_skip.
    apply (perm_trans (l' := [("time", num 1); ("gpu_vendor", JStr "Adreno"); ("sign", JStr "old")]));
      [apply perm_skip, perm_swap |].
    apply perm_swap.
Defined.

(** ** The sanitized body *)







(** [JSON.stringify] writes an object as it writes the object without the
    properties that have no text. *)
Lemma serialize_written (props : list (string * JsVal)) :
  JSON.serialize (JObj (JSON.written props)) = JSON.serialize (JObj props).
Proof.
  assert (H : forall f : string * JsVal -> list string,
             (forall kv, JSON.serialize (snd kv) = None -> f kv = []) ->
             flat_map f (JSON.written props) = flat_map f props).
  { intros f Hf. induction props as [| [k v] rest IH]; [reflexivity |].
    cbn [JSON.written filter snd fst flat_map].
    destruct (JSON.serialize v) as [s |] eqn:E.
    - cbn [flat_map]. f_equal. exact IH.
    - rewrite (Hf (k, v) E). exact IH. }
  cbn [JSON.serialize]. rewrite H; [reflexivity |].
  intros kv E. rewrite E. reflexivity.
Qed.





(** ** Headers of the fallback proxy *)

Lemma of_record_id (fields : list (string * string)) : Headers.of_record fields = fields.
Proof.
  unfold Headers.of_record.
  assert (H : forall acc : Headers,
             fold_left (fun h kv => Headers.append h (fst kv) (snd kv)) fields acc
             = (acc ++ fields)%list).
  { induction fields as [| [k v] rest IH]; intros acc; cbn.
    - rewrite app_nil_r. reflexivity.
    - rewrite IH. unfold Headers.append. rewrite <- app_assoc. reflexivity. }
  apply H.
Qed.

Lemma same_name_lower (a n : string) :
  Headers.same_name a (Str.toLowerCase n) = Headers.same_name a n.
Proof. unfold Headers.same_name. rewrite toLowerCase_idempotent. reflexivity. Qed.

Lemma get_lower (h : Headers) (n : string) :
  Headers.get h (Str.toLowerCase n) = Headers.get h n.
Proof.
  unfold Headers.get, Headers.values.
  rewrite (filter_ext _ (fun e => Headers.same_name (fst e) n)
             (fun e => same_name_lower (fst e) n)).
  reflexivity.
Qed.

Lemma dedup_In (x : string) (l : list string) : In x (Headers.dedup l) <-> In x l.
Proof.
  induction l as [| y l IH]; cbn; [tauto |].
  destruct (existsb (String.eqb y) l) eqn:E.
  - rewrite IH. split; [tauto |]. intros [-> | H]; [| exact H].
    apply existsb_exists in E as (z & Hz & Ez). apply String.eqb_eq in Ez.
    subst z. exact Hz.
  - cbn. rewrite IH. tauto.
Qed.

Lemma dedup_NoDup (l : list string) : NoDup (Headers.dedup l).
Proof.
  induction l as [| y l IH]; cbn; [constructor |].
  destruct (existsb (String.eqb y) l) eqn:E; [exact IH |].
  constructor; [| exact IH].
  rewrite dedup_In. intros Hin.
  assert (existsb (String.eqb y) l = true) as E'
      by (apply existsb_exists; exists y; split; [exact Hin | apply String.eqb_refl]).
  congruence.
Qed.

(** The names a [Headers] object iterates over. *)
Lemma names_NoDup (h : Headers) :
  NoDup (StringSort.sort (Headers.dedup (map (fun e => Str.toLowerCase (fst e)) h))).
Proof.
  eapply Permutation_NoDup; [apply StringSort.Permuted_sort | apply dedup_NoDup].
Qed.

Lemma names_In (h : Headers) (k : string) :
  In k (StringSort.sort (Headers.dedup (map (fun e => Str.toLowerCase (fst e)) h)))
  <-> exists e, In e h /\ Str.toLowerCase (fst e) = k.
Proof.
  split.
  - intros H. eapply Permutation_in in H;
      [| apply Permutation_sym, StringSort.Permuted_sort].
    apply dedup_In, in_map_iff in H as (e & He & Hin). eauto.
  - intros (e & Hin & He).
    eapply Permutation_in; [apply StringSort.Permuted_sort |].
    apply dedup_In, in_map_iff. eauto.
Qed.

Lemma at_key_app (a b : list (string * string)) (k : string) :
  Headers.at_key (a ++ b) k = (Headers.at_key a k ++ Headers.at_key b k)%list.
Proof. unfold Headers.at_key. rewrite filter_app, map_app. reflexivity. Qed.

Lemma at_key_nil_iff (o : list (string * string)) (k : string) :
  Headers.at_key o k = [] <-> ~ In k (map fst o).
Proof.
  unfold Headers.at_key. induction o as [| [k0 v0] o IH]; cbn; [tauto |].
  destruct (String.eqb_spec k0 k) as [-> | Hne]; cbn.
  - split; [discriminate | intros H; elim H; left; reflexivity].
  - rewrite IH. tauto.
Qed.

Lemma assign_fresh (k v : string) (o : list (string * string)) :
  ~ In k (map fst o) -> Headers.assign k v o = (o ++ [(k, v)])%list.
Proof.
  induction o as [| [k0 v0] o IH]; cbn; intros H; [reflexivity |].
  destruct (String.eqb_spec k0 k) as [-> | _]; [elim H; left; reflexivity |].
  rewrite IH; [reflexivity |]. intros Hin. apply H. right. exact Hin.
Qed.

Lemma at_key_assign_other (k k' v : string) (o : list (string * string)) :
  k' <> k -> Headers.at_key (Headers.assign k' v o) k = Headers.at_key o k.
Proof.
  intros Hne. unfold Headers.at_key.
  induction o as [| [k0 v0] o IH]; cbn.
  - destruct (String.eqb_spec k' k); [contradiction | reflexivity].
  - destruct (String.eqb_spec k0 k') as [-> | _]; cbn.
    + destruct (String.eqb_spec k' k); [contradiction | reflexivity].
    + destruct (k0 =? k)%string; cbn; rewrite IH; reflexivity.
Qed.

Lemma keys_assign (k v k' : string) (o : list (string * string)) :
  In k' (map fst (Headers.assign k v o)) -> k' = k \/ In k' (map fst o).
Proof.
  induction o as [| [k0 v0] o IH]; cbn.
  - intros [<- | []]. left. reflexivity.
  - destruct (String.eqb_spec k0 k) as [-> | _]; cbn.
    + tauto.
    + intros [<- | H]; [tauto |]. destruct (IH H); tauto.
Qed.

Lemma spread_cons (e : string * string) (extra o : list (string * string)) :
  Headers.spread o (e :: extra) = Headers.spread (Headers.assign (fst e) (snd e) o) extra.
Proof. reflexivity. Qed.

Lemma at_key_cons (k0 v0 k : string) (o : list (string * string)) :
  Headers.at_key ((k0, v0) :: o) k
  = if (k0 =? k)%string then v0 :: Headers.at_key o k else Headers.at_key o k.
Proof. unfold Headers.at_key. cbn. destruct (k0 =? k)%string; reflexivity. Qed.

Lemma keys_spread (k' : string) (extra o : list (string * string)) :
  In k' (map fst (Headers.spread o extra)) -> In k' (map fst o) \/ In k' (map fst extra).
Proof.
  revert o. induction extra as [| [k v] extra IH]; intros o; [cbn; tauto |].
  rewrite spread_cons. intros H. destruct (IH _ H) as [H1 | H1]; [| cbn; tauto].
  destruct (keys_assign _ _ _ _ H1); [subst; cbn; tauto | tauto].
Qed.

(** Keys that are new are added at the end, in order. *)
Lemma spread_fresh (extra o : list (string * string)) :
  NoDup (map fst extra) ->
  (forall k, In k (map fst extra) -> ~ In k (map fst o)) ->
  Headers.spread o extra = (o ++ extra)%list.
Proof.
  revert o. induction extra as [| [k v] extra IH]; intros o Hnd Hfresh.
  - cbn. rewrite app_nil_r. reflexivity.
  - inversion Hnd as [| ? ? Hk Hnd']; subst.
    rewrite spread_cons. cbn [fst snd].
    rewrite assign_fresh by (apply Hfresh; left; reflexivity).
    rewrite IH; [rewrite <- app_assoc; reflexivity | exact Hnd' |].
    intros k' Hk' Hin. rewrite map_app in Hin. apply in_app_or in Hin as [Hin | Hin].
    + apply (Hfresh k'); [right; exact Hk' | exact Hin].
    + cbn in Hin. destruct Hin as [<- | []]. contradiction.
Qed.

(** A key that the entries assign no more is left as it is. *)
Lemma at_key_spread_none (extra o : list (string * string)) (k : string) :
  Headers.at_key extra k = [] ->
  Headers.at_key (Headers.spread o extra) k = Headers.at_key o k.
Proof.
  revert o. induction extra as [| [k0 v0] extra IH]; intros o H; [reflexivity |].
  rewrite at_key_cons in H. rewrite spread_cons. cbn [fst snd].
  destruct (String.eqb_spec k0 k) as [-> | Hne]; [discriminate H |].
  rewrite IH by exact H. apply at_key_assign_other. exact Hne.
Qed.

(** A key that the entries assign once, and that is new, gets that value. *)
Lemma at_key_spread_one (extra o : list (string * string)) (k : string) :
  (List.length (Headers.at_key extra k) <= 1)%nat ->
  Headers.at_key o k = [] ->
  Headers.at_key (Headers.spread o extra) k = Headers.at_key extra k.
Proof.
  revert o. induction extra as [| [k0 v0] extra IH]; intros o Hlen Ho; [exact Ho |].
  rewrite at_key_cons in Hlen |- *. rewrite spread_cons. cbn [fst snd].
  destruct (String.eqb_spec k0 k) as [-> | Hne].
  - assert (Hnone : Headers.at_key extra k = [])
      by (destruct (Headers.at_key extra k); [reflexivity | cbn in Hlen; lia]).
    rewrite Hnone, (at_key_spread_none extra _ k Hnone).
    rewrite assign_fresh by (apply at_key_nil_iff; exact Ho).
    rewrite at_key_app, Ho. cbn [app]. rewrite at_key_cons, String.eqb_refl.
    reflexivity.
  - apply IH; [exact Hlen |].
    rewrite at_key_assign_other by exact Hne. exact Ho.
Qed.

Lemma at_key_flat_map_notin (g : string -> list (string * string))
      (names : list string) (k : string) :
  (forall name e, In e (g name) -> fst e = name) ->
  ~ In k names ->
  Headers.at_key (flat_map g names) k = [].
Proof.
  intros Hg Hnot. apply at_key_nil_iff. intros Hin.
  apply in_map_iff in Hin as (e & He & Hin).
  apply in_flat_map in Hin as (name & Hname & Hin).
  apply Hg in Hin. subst. contradiction.
Qed.

Lemma at_key_flat_map_in (g : string -> list (string * string))
      (names : list string) (k : string) :
  (forall name e, In e (g name) -> fst e = name) ->
  NoDup names ->
  In k names ->
  Headers.at_key (flat_map g names) k = Headers.at_key (g k) k.
Proof.
  intros Hg Hnd. induction Hnd as [| name names Hnotin Hnd IH]; [intros [] |].
  intros Hin. cbn [flat_map]. rewrite at_key_app.
  destruct Hin as [-> | Hin].
  - rewrite (at_key_flat_map_notin g names k Hg Hnotin), app_nil_r. reflexivity.
  - rewrite (IH Hin).
    replace (Headers.at_key (g name) k) with (@nil string); [reflexivity |].
    symmetry. apply at_key_nil_iff. intros Hk.
    apply in_map_iff in Hk as (e & He & Hk). apply Hg in Hk. subst.
    contradiction.
Qed.

Lemma get_Some_header (h : Headers) (n v : string) :
  Headers.get h n = Some v -> exists e, In e h /\ Headers.same_name (fst e) n = true.
Proof.
  unfold Headers.get, Headers.values.
  destruct (filter (fun e => Headers.same_name (fst e) n) h) as [| e rest] eqn:E;
    [discriminate |].
  intros _. exists e.
  assert (Hin : In e (filter (fun e => Headers.same_name (fst e) n) h))
    by (rewrite E; left; reflexivity).
  apply filter_In in Hin. exact Hin.
Qed.

(** The entries of an iteration: lower-case names, each once (the cookies
    aside) with the joined value that [get] gives. *)
Lemma entries_lower (h : Headers) (e : string * string) :
  In e (Headers.entries h) -> Str.no_upper (fst e) = true.
Proof.
  unfold Headers.entries. intros Hin.
  apply in_flat_map in Hin as (name & Hname & Hin).
  apply names_In in Hname as (e0 & _ & <-).
  assert (fst e = Str.toLowerCase (fst e0)) as ->.
  { destruct (_ =? "set-cookie")%string.
    - apply in_map_iff in Hin as (v & <- & _). reflexivity.
    - destruct (Headers.get h _); [| contradiction].
      destruct Hin as [<- | []]. reflexivity. }
  apply no_upper_toLowerCase.
Qed.

Lemma at_key_entries (h : Headers) (k : string) :
  Str.no_upper k = true ->
  k <> "set-cookie" ->
  Headers.at_key (Headers.entries h) k
  = match Headers.get h k with
    | Some v => [v]
    | None => []
    end.
Proof.
  intros Hlow Hcookie. unfold Headers.entries.
  set (names := StringSort.sort _).
  set (g := fun name : string => _).
  assert (Hg : forall name e, In e (g name) -> fst e = name).
  { intros name e. unfold g. destruct (name =? "set-cookie")%string.
    - intros Hin. apply in_map_iff in Hin as (v & <- & _). reflexivity.
    - destruct (Headers.get h name); [| contradiction].
      intros [<- | []]. reflexivity. }
  destruct (in_dec string_dec k names) as [Hin | Hnot].
  - rewrite (at_key_flat_map_in g names k Hg (names_NoDup h) Hin).
    unfold g. destruct (String.eqb_spec k "set-cookie") as [E | _]; [contradiction |].
    destruct (Headers.get h k); [| reflexivity].
    rewrite at_key_cons, String.eqb_refl. reflexivity.
  - rewrite (at_key_flat_map_notin g names k Hg Hnot).
    destruct (Headers.get h k) as [v |] eqn:E; [| reflexivity].
    elim Hnot. apply names_In.
    apply get_Some_header in E as (e & Hin & Hsame). exists e. split; [exact Hin |].
    unfold Headers.same_name in Hsame. apply String.eqb_eq in Hsame.
    rewrite Hsame. apply toLowerCase_fixed. exact Hlow.
Qed.

(** On lower-case keys, a name matches the key that is its lower case. *)
Lemma values_at_key (o : list (string * string)) (n : string) :
  (forall e, In e o -> Str.no_upper (fst e) = true) ->
  Headers.values o n = Headers.at_key o (Str.toLowerCase n).
Proof.
  intros Hlow. unfold Headers.values, Headers.at_key. f_equal.
  apply filter_ext_in. intros e Hin. unfold Headers.same_name.
  rewrite (toLowerCase_fixed _ (Hlow e Hin)). reflexivity.
Qed.

Lemma fromEntries_lower (h : Headers) (k : string) :
  In k (map fst (Headers.fromEntries (Headers.entries h))) -> Str.no_upper k = true.
Proof.
  intros H. apply keys_spread in H as [[] | H].
  apply in_map_iff in H as (e & <- & Hin). apply (entries_lower h e Hin).
Qed.

(** The object literal of the fallback proxy: the entries of the upstream
    headers, then the overlay, whose capitalised keys are all new. *)
Lemma fallback_headers_split (upstream : Headers) :
  fallback_headers upstream
  = (Headers.fromEntries (Headers.entries upstream) ++ overlay)%list.
Proof.
  unfold fallback_headers.
  assert (E : forall o, Headers.assign "Cache-Control" "public, max-age=300"
                          (Headers.spread o corsHeaders)
                        = Headers.spread o overlay) by reflexivity.
  rewrite E. apply spread_fresh.
  - repeat constructor; cbn; intuition discriminate.
  - intros k Hk Hin. apply fromEntries_lower in Hin.
    cbn in Hk. destruct Hk as [<- | [<- | [<- | [<- | []]]]]; discriminate Hin.
Qed.

Lemma values_fallback (upstream : Headers) (n : string) :
  Str.toLowerCase n <> "set-cookie" ->
  Headers.values (Headers.of_record (fallback_headers upstream)) n
  = (match Headers.get upstream n with
     | Some v => [v]
     | None => []
     end ++ Headers.values overlay n)%list.
Proof.
  intros Hcookie. rewrite of_record_id, fallback_headers_split.
  unfold Headers.values at 1. rewrite filter_app, map_app.
  fold (Headers.values (Headers.fromEntries (Headers.entries upstream)) n).
  fold (Headers.values overlay n). f_equal.
  rewrite values_at_key
    by (intros e He; apply (fromEntries_lower upstream), in_map, He).
  unfold Headers.fromEntries.
  assert (Hone : Headers.at_key (Headers.entries upstream) (Str.toLowerCase n)
                 = match Headers.get upstream n with
                   | Some v => [v]
                   | None => []
                   end).
  { rewrite at_key_entries by (try apply no_upper_toLowerCase; exact Hcookie).
    rewrite get_lower. reflexivity. }
  rewrite at_key_spread_one; [exact Hone | | reflexivity].
  rewrite Hone. destruct (Headers.get upstream n); cbn; lia.
Qed.

(** What the fallback proxy does do.  For a request that is not a preflight
    and that no route matches, once interception has gone through, the
    proxy sends one request, for the static base joined with the path, and
    answers with the status and the body of the upstream answer.  Every
    upstream header whose name is not one of the overlay (the cookies
    aside) is kept, and each header of the overlay, the CORS headers and
    [Cache-Control: public, max-age=300], has exactly its overlay value
    when the upstream answer does not carry a header of that name. *)
Lemma fallback_proxies (rt : Runtime) (request modified : Request.t)
        (t0 : list Event) (upstream : Response.t) :
  Request.method request <> "OPTIONS" ->
  route (pathname (Request.url request)) (Request.method request) = RFallback ->
  intercept rt request = Run t0 (Ok modified) ->
  network rt (fallback_request (pathname (Request.url request))) = Ok upstream ->
  200 <= Response.status upstream <= 599 ->
  (Response.null_body_status (Response.status upstream) = true ->
   Body.is_null (Response.body upstream) = true) ->
  exists response,
    fetch rt request
    = Run (t0 ++ [Fetched (fallback_request (pathname (Request.url request)))])
          (Ok response) /\
    Fetch.url (fallback_request (pathname (Request.url request)))
    = GITHUB_BASE ++ pathname (Request.url request) /\
    Forall (is_token_lookup rt) (fetches t0) /\
    Response.status response = Response.status upstream /\
    Response.body response = Response.body upstream /\
    (forall name,
        (forall kv, In kv overlay -> Headers.same_name (fst kv) name = false) ->
        Str.toLowerCase name <> "set-cookie" ->
        Headers.get (Response.headers response) name
        = Headers.get (Response.headers upstream) name) /\
    (forall name value,
        In (name, value) overlay ->
        Headers.get (Response.headers upstream) name = None ->
        Headers.get (Response.headers response) name = Some value).
Proof.
  intros Hm Hroute Hi Hnet Hstatus Hnull.
  destruct (intercept_preserves _ _ _ _ Hi) as [Hm' _].
  set (path := pathname (Request.url request)) in *.
  set (response := {| Response.status := Response.status upstream;
                      Response.headers :=
                        Headers.of_record (fallback_headers (Response.headers upstream));
                      Response.body := Response.body upstream |}).
  assert (Hmake : Response.make (Response.body upstream) (Response.status upstream)
                    (Headers.of_record (fallback_headers (Response.headers upstream)))
                  = Ok response).
  { unfold Response.make.
    destruct (Z.leb_spec 200 (Response.status upstream)); [| lia].
    destruct (Z.leb_spec (Response.status upstream) 599); [| lia].
    cbn [andb negb].
    destruct (Response.null_body_status (Response.status upstream)); [| reflexivity].
    rewrite (Hnull eq_refl). reflexivity. }
  assert (Hd : dispatch rt (Request.url request) modified
               = Run [Fetched (fallback_request path)] (Ok response)).
  { unfold dispatch. fold path. rewrite Hm', Hroute.
    unfold fallback, global_fetch. rewrite Hnet.
    cbn [bind Monad_M trace outcome]. unfold pure. cbn [trace outcome].
    rewrite Hmake. reflexivity. }
  exists response.
  split; [exact (fetch_answer rt request modified t0 _ response Hm Hi Hd) |].
  split; [reflexivity |].
  split; [pose proof (intercept_fetches rt request) as H; rewrite Hi in H; exact H |].
  split; [reflexivity |]. split; [reflexivity |]. split.
  - intros name Hother Hcookie. cbn [response Response.headers].
    unfold Headers.get at 1. rewrite (values_fallback _ name Hcookie).
    assert (Hnone : Headers.values overlay name = []).
    { unfold Headers.values. revert Hother.
      induction overlay as [| kv o IH]; intros Hother; [reflexivity |].
      cbn [filter]. rewrite (Hother kv) by (left; reflexivity).
      apply IH. intros kv' Hin. apply Hother. right. exact Hin. }
    rewrite Hnone, app_nil_r.
    destruct (Headers.get (Response.headers upstream) name); reflexivity.
  - intros name value Hin Hnone. cbn [response Response.headers].
    assert (Hcookie : Str.toLowerCase name <> "set-cookie").
    { cbn in Hin.
      destruct Hin as [[= <- _] | [[= <- _] | [[= <- _] | [[= <- _] | []]]]];
        discriminate. }
    unfold Headers.get at 1. rewrite (values_fallback _ name Hcookie), Hnone.
    cbn in Hin.
    destruct Hin as [[= <- <-] | [[= <- <-] | [[= <- <-] | [[= <- <-] | []]]]];
      reflexivity.
Qed.

(** So it is on a GET of [/plain], which the static repository answers 200
    without a [Cache-Control] of its own. *)
Lemma fallback_witness :
  exists response,
    fetch Demo.rt (Demo.bare "GET" "/plain" [])
    = Run ([] ++ [Fetched (fallback_request "/plain")]) (Ok response) /\
    Fetch.url (fallback_request "/plain") = GITHUB_BASE ++ "/plain" /\
    Forall (is_token_lookup Demo.rt) (fetches []) /\
    Response.status response = 200 /\
    Response.body response = Text "hello" /\
    (forall name,
        (forall kv, In kv overlay -> Headers.same_name (fst kv) name = false) ->
        Str.toLowerCase name <> "set-cookie" ->
        Headers.get (Response.headers response) name
        = Headers.get [("content-type", "text/plain")] name) /\
    (forall name value,
        In (name, value) overlay ->
        Headers.get [("content-type", "text/plain")] name = None ->
        Headers.get (Response.headers response) name = Some value).
Proof.
  apply (fallback_proxies Demo.rt (Demo.bare "GET" "/plain" [])
           (Demo.bare "GET" "/plain" []) []
           {| Response.status := 200;
              Response.headers := [("content-type", "text/plain")];
              Response.body := Text "hello" |}).
  - discriminate.
  - reflexivity.
  - reflexivity.
  - reflexivity.
  - cbn. lia.
  - intros H. discriminate H.
Defined.

(** A header that the upstream answer carries under a name of the overlay
    is not replaced.  [Object.fromEntries] gives the upstream name in lower
    case, the overlay writes its name capitalised: the object literal has
    two keys, and the [Headers] of the answer, which compares names without
    case, joins the two values. *)
Lemma fallback_overlay_joined (upstream : Headers) (name value v : string) :
  In (name, value) overlay ->
  Headers.get upstream name = Some v ->
  Headers.get (Headers.of_record (fallback_headers upstream)) name
  = Some (v ++ ", " ++ value).
Proof.
  intros Hin Hup.
  assert (Hcookie : Str.toLowerCase name <> "set-cookie").
  { cbn in Hin.
    destruct Hin as [[= <- _] | [[= <- _] | [[= <- _] | [[= <- _] | []]]]];
      discriminate. }
  unfold Headers.get at 1. rewrite (values_fallback _ name Hcookie), Hup.
  cbn in Hin.
  destruct Hin as [[= <- <-] | [[= <- <-] | [[= <- <-] | [[= <- <-] | []]]]];
    reflexivity.
Qed.

(** C8 fails on a GET of [/foo/bar] that the static repository answers with
    a [Cache-Control] of its own, here [max-age=60].  No route matches, one
    request goes upstream, the status and the body are the upstream's; but
    the object literal of lines 465-469, written to force [Cache-Control],
    has the upstream value under [cache-control] and the forced one under
    [Cache-Control], and the answer reads [max-age=60, public,
    max-age=300]: the upstream directive is not overridden. *)
Lemma fallback_cache_control_not_forced :
  route "/foo/bar" "GET" = RFallback /\
  fetches (trace (fetch Demo.rt (Demo.bare "GET" "/foo/bar" [])))
  = [fallback_request "/foo/bar"] /\
  network Demo.rt (fallback_request "/foo/bar")
  = Demo.answer 200 [("content-type", "text/plain"); ("cache-control", "max-age=60")] "hello" /\
  fallback_headers [("content-type", "text/plain"); ("cache-control", "max-age=60")]
  = [ ("cache-control", "max-age=60"); ("content-type", "text/plain");
      ("Access-Control-Allow-Origin", "*");
      ("Access-Control-Allow-Methods", "GET, POST, OPTIONS");
      ("Access-Control-Allow-Headers", "Content-Type");
      ("Cache-Control", "public, max-age=300") ] /\
  (exists response,
      outcome (fetch Demo.rt (Demo.bare "GET" "/foo/bar" [])) = Ok response /\
      Response.status response = 200 /\
      Response.body response = Text "hello" /\
      Headers.get (Response.headers response) "Cache-Control"
      = Some "max-age=60, public, max-age=300") /\
  ~ proxies Demo.rt (Demo.bare "GET" "/foo/bar" [])
      (fetch Demo.rt (Demo.bare "GET" "/foo/bar" [])).
Proof.
  split; [reflexivity |]. split; [reflexivity |].
  split; [reflexivity |]. split; [reflexivity |]. split.
  - eexists. split; [reflexivity |]. split; [reflexivity |]. split; [reflexivity |].
    apply (fallback_overlay_joined
             [("content-type", "text/plain"); ("cache-control", "max-age=60")]
             "Cache-Control" "public, max-age=300" "max-age=60");
      [cbn; tauto | reflexivity].
  - intros (rq & upstream & response & _ & _ & _ & Hout & _ & _ & Hcache).
    vm_compute in Hout. injection Hout as <-.
    vm_compute in Hcache. discriminate Hcache.
Qed.

(** * Further properties *)

(** ** Traces *)

Lemma fetch_trace (rt : Runtime) (request : Request.t) :
  Request.method request <> "OPTIONS" ->
  trace (fetch rt request) = trace (pipeline rt request).
Proof.
  intros H. rewrite (fetch_not_options _ _ H).
  destruct (outcome (pipeline rt request)); reflexivity.
Qed.

Lemma fetch_trace_dispatch (rt : Runtime) (request modified : Request.t) (t0 : list Event) :
  Request.method request <> "OPTIONS" ->
  intercept rt request = Run t0 (Ok modified) ->
  trace (fetch rt request)
  = (t0 ++ trace (dispatch rt (Request.url request) modified))%list.
Proof.
  intros Hm Hi. rewrite (fetch_trace _ _ Hm), (pipeline_dispatch _ _ _ _ Hi).
  reflexivity.
Qed.

Lemma fetch_outcome_dispatch (rt : Runtime) (request modified : Request.t)
      (t0 : list Event) (response : Response.t) :
  Request.method request <> "OPTIONS" ->
  intercept rt request = Run t0 (Ok modified) ->
  outcome (dispatch rt (Request.url request) modified) = Ok response ->
  outcome (fetch rt request) = Ok response.
Proof.
  intros Hm Hi Hd. rewrite (fetch_not_options _ _ Hm), (pipeline_dispatch _ _ _ _ Hi).
  cbn [outcome]. rewrite Hd. reflexivity.
Qed.

Lemma GET_not_OPTIONS (m : string) : m = "GET" -> m <> "OPTIONS".
Proof. intros ->. discriminate. Qed.

(** The handlers that fetch one file and hand it on. *)
Lemma static_json_run (rt : Runtime) (path msg : string) (upstream : Response.t) :
  network rt (Fetch.simple (GITHUB_BASE ++ path)) = Ok upstream ->
  trace (static_json rt path msg) = [Fetched (Fetch.simple (GITHUB_BASE ++ path))] /\
  (Response.ok upstream = false ->
   outcome (static_json rt path msg) = Ok (json_response 500 (failure msg))) /\
  (Response.ok upstream = true ->
   forall data, parse rt (Response.text upstream) = Ok data ->
                outcome (static_json rt path msg) = Ok (json_response 200 data)).
Proof.
  intros Hnet. unfold static_json, global_fetch, json_of_response, pure.
  rewrite Hnet. cbn [bind Monad_M trace outcome].
  destruct (Response.ok upstream); cbn [negb].
  - split; [destruct (parse rt (Response.text upstream)); reflexivity |].
    split; [discriminate |]. intros _ data ->. reflexivity.
  - split; [reflexivity |]. split; [reflexivity | discriminate].
Qed.

(** ** Static files *)

(** X1: a POST to [/base/getBaseInfo], [/cloud/game/check_user_timer] or
    [/game/getDnsIpPool] sends one request, a GET without headers or body
    for the same path under the static base, whatever the body of the POST
    (it is never read); the answer is 500 with the message of the route
    when the repository does not answer with a success, and the JSON of the
    repository otherwise. *)
Theorem static_route_answer (rt : Runtime) (request modified : Request.t)
        (t0 : list Event) (path msg : string) (upstream : Response.t) :
  Request.method request = "POST" ->
  In (path, msg) static_routes ->
  pathname (Request.url request) = path ->
  intercept rt request = Run t0 (Ok modified) ->
  network rt (Fetch.simple (GITHUB_BASE ++ path)) = Ok upstream ->
  trace (fetch rt request) = (t0 ++ [Fetched (Fetch.simple (GITHUB_BASE ++ path))])%list /\
  (Response.ok upstream = false ->
   outcome (fetch rt request)
   = Ok (json_response 500 (JObj [("code", num 500); ("msg", JStr msg)]))) /\
  (Response.ok upstream = true ->
   forall data, parse rt (Response.text upstream) = Ok data ->
                outcome (fetch rt request) = Ok (json_response 200 data)).
Proof.
  intros Hm Hin Hp Hi Hnet.
  destruct (intercept_preserves _ _ _ _ Hi) as [Hm' _].
  assert (Hd : dispatch rt (Request.url request) modified = static_json rt path msg).
  { unfold dispatch. rewrite Hp, Hm', Hm.
    cbn in Hin. destruct Hin as [[= <- <-] | [[= <- <-] | [[= <- <-] | []]]];
      reflexivity. }
  destruct (static_json_run rt path msg upstream Hnet) as (Ht & Hfail & Hpass).
  split; [| split].
  - rewrite (fetch_trace_dispatch _ _ _ _ (POST_not_OPTIONS _ Hm) Hi), Hd, Ht.
    reflexivity.
  - intros Hok. apply (fetch_outcome_dispatch _ _ _ _ _ (POST_not_OPTIONS _ Hm) Hi).
    rewrite Hd. apply Hfail, Hok.
  - intros Hok data Hdata.
    apply (fetch_outcome_dispatch _ _ _ _ _ (POST_not_OPTIONS _ Hm) Hi).
    rewrite Hd. apply Hpass; assumption.
Qed.

(** X1 on the timer route, the repository being away. *)
Lemma static_route_witness :
  trace (fetch (Sample.runtime None []) (Demo.post "/cloud/game/check_user_timer" [] "anything"))
  = ([] ++ [Fetched (Fetch.simple (GITHUB_BASE ++ "/cloud/game/check_user_timer"))])%list /\
  outcome (fetch (Sample.runtime None [])
             (Demo.post "/cloud/game/check_user_timer" [] "anything"))
  = Ok (json_response 500 (JObj [("code", num 500); ("msg", JStr "Failed to check timer")])).
Proof.
  destruct (static_route_answer (Sample.runtime None [])
              (Demo.post "/cloud/game/check_user_timer" [] "anything")
              (Demo.post "/cloud/game/check_user_timer" [] "anything") []
              "/cloud/game/check_user_timer" "Failed to check timer"
              {| Response.status := 404; Response.headers := [];
                 Response.body := Text "Not Found" |}
              eq_refl (or_intror (or_introl eq_refl)) eq_refl eq_refl eq_refl)
    as (Ht & Hfail & _).
  split; [exact Ht | exact (Hfail eq_refl)].
Defined.

(** X2: a GET of [/game/getSteamHost] sends one request, for
    [/game/getSteamHost/index] under the static base; the text of the
    answer is handed on as it is, never parsed, with status 200 and
    [Content-Type: text/plain]; when the repository does not answer with a
    success, the answer is the JSON envelope of a 500. *)
Theorem steam_host_answer (rt : Runtime) (request modified : Request.t)
        (t0 : list Event) (upstream : Response.t) :
  Request.method request = "GET" ->
  pathname (Request.url request) = "/game/getSteamHost" ->
  intercept rt request = Run t0 (Ok modified) ->
  network rt (Fetch.simple (GITHUB_BASE ++ "/game/getSteamHost/index")) = Ok upstream ->
  trace (fetch rt request)
  = (t0 ++ [Fetched (Fetch.simple (GITHUB_BASE ++ "/game/getSteamHost/index"))])%list /\
  (Response.ok upstream = true ->
   outcome (fetch rt request)
   = Ok (respond 200 "text/plain" (Text (Response.text upstream)))) /\
  (Response.ok upstream = false ->
   outcome (fetch rt request)
   = Ok (json_response 500
           (JObj [("code", num 500); ("msg", JStr "Failed to fetch Steam hosts")]))).
Proof.
  intros Hm Hp Hi Hnet.
  destruct (intercept_preserves _ _ _ _ Hi) as [Hm' _].
  assert (Hd : dispatch rt (Request.url request) modified = getSteamHost rt).
  { unfold dispatch. rewrite Hp, Hm', Hm. reflexivity. }
  assert (Hrun : getSteamHost rt
                 = Run [Fetched (Fetch.simple (GITHUB_BASE ++ "/game/getSteamHost/index"))]
                       (Ok (if Response.ok upstream
                            then respond 200 "text/plain" (Text (Response.text upstream))
                            else json_response 500 (failure "Failed to fetch Steam hosts")))).
  { unfold getSteamHost, global_fetch. rewrite Hnet. cbn [bind Monad_M trace outcome].
    destruct (Response.ok upstream); reflexivity. }
  split; [| split].
  - rewrite (fetch_trace_dispatch _ _ _ _ (GET_not_OPTIONS _ Hm) Hi), Hd, Hrun.
    reflexivity.
  - intros Hok. apply (fetch_outcome_dispatch _ _ _ _ _ (GET_not_OPTIONS _ Hm) Hi).
    rewrite Hd, Hrun, Hok. reflexivity.
  - intros Hok. apply (fetch_outcome_dispatch _ _ _ _ _ (GET_not_OPTIONS _ Hm) Hi).
    rewrite Hd, Hrun, Hok. reflexivity.
Qed.

(** X2 on a hosts file that is not JSON. *)
Lemma steam_host_witness :
  outcome (fetch (Sample.runtime None
                    [(GITHUB_BASE ++ "/game/getSteamHost/index", (200, "1.2.3.4 steam"))])
             (Demo.bare "GET" "/game/getSteamHost" []))
  = Ok (respond 200 "text/plain" (Text "1.2.3.4 steam")).
Proof.
  destruct (steam_host_answer
              (Sample.runtime None
                 [(GITHUB_BASE ++ "/game/getSteamHost/index", (200, "1.2.3.4 steam"))])
              (Demo.bare "GET" "/game/getSteamHost" [])
              (Demo.bare "GET" "/game/getSteamHost" []) []
              {| Response.status := 200; Response.headers := [];
                 Response.body := Text "1.2.3.4 steam" |}
              eq_refl eq_refl eq_refl eq_refl)
    as (_ & Hok & _).
  exact (Hok eq_refl).
Defined.

(** ** News *)





(** ** Game details *)

(** X5: a POST to [/card/getGameDetail] sends one request, a POST to the
    metadata service with the headers and the text of the body of the
    request the handler works on; they are those of the inbound request
    when it has no placeholder. *)
Theorem game_detail_forwards (rt : Runtime) (request modified : Request.t)
        (t0 : list Event) :
  Request.method request = "POST" ->
  pathname (Request.url request) = "/card/getGameDetail" ->
  intercept rt request = Run t0 (Ok modified) ->
  exists forwarded,
    trace (fetch rt request) = (t0 ++ [Fetched forwarded])%list /\
    Fetch.url forwarded = "https://landscape-api.vgabc.com/card/getGameDetail" /\
    Fetch.method forwarded = "POST" /\
    Fetch.headers forwarded = Request.headers modified /\
    Fetch.body forwarded = Text (Request.text modified) /\
    (shouldReplaceToken request = false ->
     Fetch.headers forwarded = Request.headers request /\
     Fetch.body forwarded = Text (Request.text request)).
Proof.
  intros Hm Hp Hi.
  destruct (intercept_preserves _ _ _ _ Hi) as [Hm' _].
  exists {| Fetch.url := landscape_api ++ "/card/getGameDetail";
            Fetch.method := "POST";
            Fetch.headers := Request.headers modified;
            Fetch.body := Text (Request.text modified);
            Fetch.cf := None |}.
  split; [| split; [reflexivity |]; split; [reflexivity |]; split; [reflexivity |];
            split; [reflexivity |]; intros Hno; split].
  - rewrite (fetch_trace_dispatch _ _ _ _ (POST_not_OPTIONS _ Hm) Hi). f_equal.
    unfold dispatch. rewrite Hp, Hm', Hm.
    change (route _ _) with RGameDetail. cbv iota.
    unfold getGameDetail, global_fetch, json_of_response, pure.
    cbn [bind Monad_M trace outcome].
    match goal with |- context [network rt ?rq] => destruct (network rt rq) as [r | |] end;
      cbn [trace outcome]; try reflexivity.
    destruct (parse rt (Response.text r)) as [v | |]; cbn [trace outcome]; try reflexivity.
    destruct (Js.Get v "data") as [d | |]; cbn [trace outcome]; try reflexivity.
    destruct (Js.truthy d); cbn [trace outcome ret Monad_M]; try reflexivity.
    destruct (Js.Set_ v "data" _); reflexivity.
  - destruct (intercept_absent _ _ _ _ Hno Hi) as [-> _]. reflexivity.
  - destruct (intercept_absent _ _ _ _ Hno Hi) as [-> _]. reflexivity.
Qed.

(** X5 on a request with a cookie and a body. *)
Lemma game_detail_forwards_witness :
  exists forwarded,
    trace (fetch (Sample.runtime None [])
             (Demo.post "/card/getGameDetail" [("cookie", "a=1")] "any text"))
    = ([] ++ [Fetched forwarded])%list /\
    Fetch.headers forwarded = [("cookie", "a=1")] /\
    Fetch.body forwarded = Text "any text".
Proof.
  destruct (game_detail_forwards (Sample.runtime None [])
              (Demo.post "/card/getGameDetail" [("cookie", "a=1")] "any text")
              (Demo.post "/card/getGameDetail" [("cookie", "a=1")] "any text")
              [] eq_refl eq_refl eq_refl)
    as (forwarded & Ht & _ & _ & Hh & Hb & _).
  exists forwarded. auto.
Defined.

(** X6: the answer of [/card/getGameDetail] is the JSON of the metadata
    service, with status 200 whatever the status of the service, less the
    sections [recommend_game] and [card_line_data] of its [data]: every
    other field of [data] and every field beside [data] is kept, and a
    [data] that is not an object is left as it is. *)
Theorem game_detail_strips (rt : Runtime) (request modified : Request.t)
        (t0 : list Event) (upstream : Response.t) (props : list (string * JsVal)) :
  Request.method request = "POST" ->
  pathname (Request.url request) = "/card/getGameDetail" ->
  intercept rt request = Run t0 (Ok modified) ->
  network rt {| Fetch.url := landscape_api ++ "/card/getGameDetail";
                Fetch.method := "POST";
                Fetch.headers := Request.headers modified;
                Fetch.body := Text (Request.text modified);
                Fetch.cf := None |} = Ok upstream ->
  parse rt (Response.text upstream) = Ok (JObj props) ->
  exists props',
    outcome (fetch rt request) = Ok (json_response 200 (JObj props')) /\
    (forall k, k <> "data" -> Js.own props' k = Js.own props k) /\
    match Js.own props "data" with
    | JObj dprops =>
        exists dprops',
          Js.own props' "data" = JObj dprops' /\
          Js.own dprops' "recommend_game" = JUndefined /\
          Js.own dprops' "card_line_data" = JUndefined /\
          (forall k, k <> "recommend_game" -> k <> "card_line_data" ->
                     Js.own dprops' k = Js.own dprops k)
    | data => Js.own props' "data" = data
    end.
Proof.
  intros Hm Hp Hi Hnet Hparse.
  destruct (intercept_preserves _ _ _ _ Hi) as [Hm' _].
  set (data := Js.own props "data").
  set (stripped := Js.Delete (Js.Delete data "recommend_game") "card_line_data").
  set (props' := if Js.truthy data then Js.assign "data" stripped props else props).
  assert (Hd : outcome (dispatch rt (Request.url request) modified)
               = Ok (json_response 200 (JObj props'))).
  { unfold dispatch. rewrite Hp, Hm', Hm.
    change (route _ _) with RGameDetail. cbv iota.
    unfold getGameDetail, global_fetch. rewrite Hnet.
    cbn [bind Monad_M trace outcome]. unfold json_of_response, pure. rewrite Hparse.
    cbn [bind Monad_M trace outcome Js.Get]. fold data. subst props'.
    destruct (Js.truthy data); reflexivity. }
  exists props'. split.
  { apply (fetch_outcome_dispatch _ _ _ _ _ (POST_not_OPTIONS _ Hm) Hi). exact Hd. }
  assert (Hother : forall k, k <> "data" -> Js.own props' k = Js.own props k).
  { intros k Hk. subst props'. destruct (Js.truthy data); [| reflexivity].
    rewrite own_assign. destruct (String.eqb_spec "data" k); [congruence | reflexivity]. }
  assert (Hdata : Js.own props' "data" = if Js.truthy data then stripped else data).
  { subst props'. destruct (Js.truthy data); [| reflexivity].
    rewrite own_assign. reflexivity. }
  split; [exact Hother |].
  rewrite Hdata. subst stripped.
  destruct data as [| | b | n | s | items | dprops | src]; cbn [Js.truthy Js.Delete];
    try reflexivity;
    try (match goal with |- (if ?c then _ else _) = _ => destruct c; reflexivity end).
  eexists. split; [reflexivity |].
  split; [rewrite own_remove, own_remove; reflexivity |].
  split; [rewrite own_remove; reflexivity |].
  intros k H1 H2. rewrite !own_remove.
  destruct (String.eqb_spec "card_line_data" k); [congruence |].
  destruct (String.eqb_spec "recommend_game" k); [congruence | reflexivity].
Qed.

(** X6 on an answer with both sections. *)
Lemma game_detail_strips_witness :
  exists props',
    outcome (fetch (Sample.runtime None
                      [(landscape_api ++ "/card/getGameDetail",
                        (200, Demo.object
                                [("code", "200");
                                 ("data", Demo.object [("name", Str.q "Game");
                                                       ("recommend_game", "[1]");
                                                       ("card_line_data", "[2]")])]))])
               (Demo.post "/card/getGameDetail" [] "any text"))
    = Ok (json_response 200 (JObj props')) /\
    (forall k, k <> "data" ->
               Js.own props' k
               = Js.own [("code", num 200);
                         ("data", JObj [("name", JStr "Game");
                                        ("recommend_game", JArr [num 1]);
                                        ("card_line_data", JArr [num 2])])] k) /\
    exists dprops',
      Js.own props' "data" = JObj dprops' /\
      Js.own dprops' "recommend_game" = JUndefined /\
      Js.own dprops' "card_line_data" = JUndefined /\
      (forall k, k <> "recommend_game" -> k <> "card_line_data" ->
                 Js.own dprops' k
                 = Js.own [("name", JStr "Game"); ("recommend_game", JArr [num 1]);
                           ("card_line_data", JArr [num 2])] k).
Proof.
  exact (game_detail_strips
           (Sample.runtime None
              [(landscape_api ++ "/card/getGameDetail",
                (200, Demo.object
                        [("code", "200");
                         ("data", Demo.object [("name", Str.q "Game");
                                               ("recommend_game", "[1]");
                                               ("card_line_data", "[2]")])]))])
           (Demo.post "/card/getGameDetail" [] "any text")
           (Demo.post "/card/getGameDetail" [] "any text") []
           {| Response.status := 200; Response.headers := [];
              Response.body :=
                Text (Demo.object
                        [("code", "200");
                         ("data", Demo.object [("name", Str.q "Game");
                                               ("recommend_game", "[1]");
                                               ("card_line_data", "[2]")])]) |}
           [("code", num 200);
            ("data", JObj [("name", JStr "Game"); ("recommend_game", JArr [num 1]);
                           ("card_line_data", JArr [num 2])])]
           eq_refl eq_refl eq_refl eq_refl eq_refl).
Defined.

(** ** Game icons *)

(** X7: a POST to [/card/getGameIcon] is answered by the worker itself:
    the handler sends nothing upstream and reads no body; the envelope has
    code 200, an empty list, and for [time] the whole seconds of the
    clock. *)
Theorem game_icon_answer (rt : Runtime) (request modified : Request.t)
        (t0 : list Event) :
  Request.method request = "POST" ->
  pathname (Request.url request) = "/card/getGameIcon" ->
  intercept rt request = Run t0 (Ok modified) ->
  exists seconds,
    fetch rt request
    = Run t0 (Ok (json_response 200
                    (JObj [ ("code", num 200); ("msg", JStr "");
                            ("time", JStr (Str.of_Z seconds)); ("data", JArr []) ]))) /\
    1000 * seconds <= now rt < 1000 * seconds + 1000.
Proof.
  intros Hm Hp Hi.
  destruct (intercept_preserves _ _ _ _ Hi) as [Hm' _].
  exists (now rt / 1000). split.
  - rewrite <- (app_nil_r t0).
    apply (fetch_answer rt request modified t0 [] _ (POST_not_OPTIONS _ Hm) Hi).
    unfold dispatch. rewrite Hp, Hm', Hm. reflexivity.
  - pose proof (Z.div_mod (now rt) 1000 ltac:(lia)) as Hdiv.
    pose proof (Z.mod_pos_bound (now rt) 1000 ltac:(lia)) as Hmod.
    lia.
Qed.

(** X7 on a body that is not JSON. *)
Lemma game_icon_witness :
  exists seconds,
    fetch (Sample.runtime None []) (Demo.post "/card/getGameIcon" [] "not json")
    = Run [] (Ok (json_response 200
                    (JObj [ ("code", num 200); ("msg", JStr "");
                            ("time", JStr (Str.of_Z seconds)); ("data", JArr []) ]))) /\
    1000 * seconds <= 1700000000123 < 1000 * seconds + 1000.
Proof.
  apply (game_icon_answer (Sample.runtime None [])
           (Demo.post "/card/getGameIcon" [] "not json")
           (Demo.post "/card/getGameIcon" [] "not json") []);
    reflexivity.
Defined.

(** ** Manifests *)

Lemma manifest_suffix_truthy (key suffix : string) :
  Js.lookup key TYPE_TO_MANIFEST = Some (JStr suffix) ->
  index TYPE_TO_MANIFEST (JStr key) = JStr suffix /\ Js.truthy (JStr suffix) = true.
Proof.
  intros H. unfold index. cbn [Js.ToString]. rewrite H. split; [reflexivity |].
  unfold TYPE_TO_MANIFEST in H. cbn [Js.lookup] in H.
  repeat match type of H with
         | (if ?c then _ else _) = _ => destruct c; [injection H as <-; reflexivity |]
         end.
  discriminate H.
Qed.

Lemma index_by_text (o : list (string * JsVal)) (v : JsVal) :
  index o v = index o (JStr (Js.ToString v)).
Proof. reflexivity. Qed.

(** X8: a POST to [/simulator/v2/getComponentList] whose [type], turned
    into a text, is a key of the table (the number 1 as well as the text
    "1") sends one request, for the manifest of that key under the static
    base; when the repository does not answer with a success, the answer
    is status 500 with the message "Failed to fetch manifest". *)
Theorem manifest_unavailable (rt : Runtime) (request modified : Request.t)
        (t0 : list Event) (body type : JsVal) (suffix : string) (upstream : Response.t) :
  Request.method request = "POST" ->
  pathname (Request.url request) = "/simulator/v2/getComponentList" ->
  intercept rt request = Run t0 (Ok modified) ->
  parse rt (Request.text modified) = Ok body ->
  Js.Get body "type" = Ok type ->
  Js.truthy type = true ->
  Js.lookup (Js.ToString type) TYPE_TO_MANIFEST = Some (JStr suffix) ->
  network rt (Fetch.simple (GITHUB_BASE ++ suffix)) = Ok upstream ->
  Response.ok upstream = false ->
  fetch rt request
  = Run (t0 ++ [Fetched (Fetch.simple (GITHUB_BASE ++ suffix))])
        (Ok (json_response 500
               (JObj [("code", num 500); ("msg", JStr "Failed to fetch manifest")]))).
Proof.
  intros Hm Hp Hi Hparse Htype Htruthy Hkey Hnet Hok.
  destruct (intercept_preserves _ _ _ _ Hi) as [Hm' _].
  destruct (Get_any _ _ "page" _ Htype) as [pg Hpg].
  destruct (Get_any _ _ "page_size" _ Htype) as [ps Hps].
  destruct (manifest_suffix_truthy _ _ Hkey) as [Hidx Hsuffix].
  rewrite <- index_by_text in Hidx.
  apply (fetch_answer rt request modified t0 _ _ (POST_not_OPTIONS _ Hm) Hi).
  unfold dispatch. rewrite Hp, Hm', Hm.
  change (route _ _) with RComponentList. cbv iota.
  unfold getComponentList, json_of_request.
  rewrite (bind_pure _ _ _ Hparse), (bind_pure _ _ _ Htype),
    (bind_pure _ _ _ Hpg), (bind_pure _ _ _ Hps).
  rewrite Htruthy, Hidx, Hsuffix. cbn [negb orb Js.ToString].
  unfold global_fetch. rewrite Hnet. cbn [bind Monad_M trace outcome].
  rewrite Hok. reflexivity.
Qed.

(** X8 on [type: 1], the repository being away. *)
Lemma manifest_unavailable_witness :
  fetch (Sample.runtime None [])
    (Demo.post "/simulator/v2/getComponentList" Demo.json_type (Demo.object [("type", "1")]))
  = Run ([] ++ [Fetched (Fetch.simple (GITHUB_BASE ++ "/components/box64_manifest"))])
        (Ok (json_response 500
               (JObj [("code", num 500); ("msg", JStr "Failed to fetch manifest")]))).
Proof.
  apply (manifest_unavailable (Sample.runtime None [])
           (Demo.post "/simulator/v2/getComponentList" Demo.json_type
              (Demo.object [("type", "1")]))
           (Demo.post "/simulator/v2/getComponentList" Demo.json_type
              (Demo.object [("type", "1")]))
           [] (JObj [("type", num 1)]) (num 1) "/components/box64_manifest"
           {| Response.status := 404; Response.headers := [];
              Response.body := Text "Not Found" |});
    reflexivity.
Defined.

(** X9: a manifest that has no list, neither a truthy [data.components]
    nor a truthy [data.list], is handed on as it came, without [page],
    [pageSize] or [total], whatever [page] and [page_size] are. *)
Theorem manifest_without_list (rt : Runtime) (request modified : Request.t)
        (t0 : list Event) (body type : JsVal) (upstream : Response.t)
        (mprops : list (string * JsVal)) :
  Request.method request = "POST" ->
  pathname (Request.url request) = "/simulator/v2/getComponentList" ->
  intercept rt request = Run t0 (Ok modified) ->
  parse rt (Request.text modified) = Ok body ->
  Js.Get body "type" = Ok type ->
  Js.truthy type = true ->
  Js.truthy (index TYPE_TO_MANIFEST type) = true ->
  network rt (Fetch.simple (GITHUB_BASE ++ Js.ToString (index TYPE_TO_MANIFEST type)))
  = Ok upstream ->
  Response.ok upstream = true ->
  parse rt (Response.text upstream) = Ok (JObj mprops) ->
  match Js.own mprops "data" with
  | JObj dprops =>
      Js.truthy (Js.own dprops "components") = false /\
      Js.truthy (Js.own dprops "list") = false
  | _ => True
  end ->
  outcome (fetch rt request) = Ok (json_response 200 (JObj mprops)).
Proof.
  intros Hm Hp Hi Hparse Htype Ht1 Ht2 Hnet Hok Hman Hnolist.
  destruct (intercept_preserves _ _ _ _ Hi) as [Hm' _].
  destruct (Get_any _ _ "page" _ Htype) as [pg Hpg].
  destruct (Get_any _ _ "page_size" _ Htype) as [ps Hps].
  assert (Hren : rename_components (JObj mprops) = Ok (JObj mprops)).
  { unfold rename_components. cbn [Js.Get bind ret Monad_Outcome].
    destruct (Js.own mprops "data") as [| | b | n | s | items | dprops | src];
      cbn [Js.truthy Js.Get bind ret Monad_Outcome]; try reflexivity.
    - destruct b; reflexivity.
    - destruct (negb (n =? 0)); reflexivity.
    - destruct (negb (s =? "")%string); reflexivity.
    - destruct Hnolist as [-> _]. reflexivity. }
  assert (Hpag : forall page pageSize,
             paginate page pageSize (JObj mprops) = Ok (JObj mprops)).
  { intros page pageSize. unfold paginate. cbn [Js.Get bind ret Monad_Outcome].
    destruct (Js.own mprops "data") as [| | b | n | s | items | dprops | src];
      cbn [Js.truthy Js.Get bind ret Monad_Outcome]; try reflexivity.
    - destruct b; reflexivity.
    - destruct (negb (n =? 0)); reflexivity.
    - destruct (negb (s =? "")%string); reflexivity.
    - destruct Hnolist as [_ ->]. reflexivity. }
  apply (fetch_outcome_dispatch _ _ _ _ _ (POST_not_OPTIONS _ Hm) Hi).
  unfold dispatch. rewrite Hp, Hm', Hm.
  change (route _ _) with RComponentList. cbv iota.
  unfold getComponentList, json_of_request.
  rewrite (bind_pure _ _ _ Hparse), (bind_pure _ _ _ Htype),
    (bind_pure _ _ _ Hpg), (bind_pure _ _ _ Hps).
  rewrite Ht1, Ht2. cbn [negb orb].
  unfold global_fetch. rewrite Hnet. cbn [bind Monad_M trace outcome].
  rewrite Hok. cbn [negb]. unfold json_of_response, pure. rewrite Hman.
  cbn [bind Monad_M trace outcome]. rewrite Hren. cbn [trace outcome].
  rewrite Hpag. reflexivity.
Qed.

(** X9 on a manifest whose [data] is an empty array. *)
Lemma manifest_without_list_witness :
  outcome (fetch (Sample.runtime None
                    [(GITHUB_BASE ++ "/components/box64_manifest",
                      (200, Demo.object [("code", "200"); ("data", "[]")]))])
             (Demo.post "/simulator/v2/getComponentList" Demo.json_type
                (Demo.object [("type", "1")])))
  = Ok (json_response 200 (JObj [("code", num 200); ("data", JArr [])])).
Proof.
  apply (manifest_without_list
           (Sample.runtime None
              [(GITHUB_BASE ++ "/components/box64_manifest",
                (200, Demo.object [("code", "200"); ("data", "[]")]))])
           (Demo.post "/simulator/v2/getComponentList" Demo.json_type
              (Demo.object [("type", "1")]))
           (Demo.post "/simulator/v2/getComponentList" Demo.json_type
              (Demo.object [("type", "1")]))
           [] (JObj [("type", num 1)]) (num 1)
           {| Response.status := 200; Response.headers := [];
              Response.body := Text (Demo.object [("code", "200"); ("data", "[]")]) |});
    reflexivity.
Defined.

(** X10: the renaming of lines 421-424.  When [data.components] is truthy
    it becomes [data.list] (an existing [list] is overwritten) and
    [components] is gone; every other field of [data] and every field
    beside [data] is kept.  When it is not, the manifest is untouched. *)
Theorem components_renamed (mprops dprops : list (string * JsVal)) :
  Js.own mprops "data" = JObj dprops ->
  (Js.truthy (Js.own dprops "components") = true ->
   exists mprops' dprops',
     rename_components (JObj mprops) = Ok (JObj mprops') /\
     Js.own mprops' "data" = JObj dprops' /\
     Js.own dprops' "list" = Js.own dprops "components" /\
     Js.own dprops' "components" = JUndefined /\
     (forall k, k <> "list" -> k <> "components" -> Js.own dprops' k = Js.own dprops k) /\
     (forall k, k <> "data" -> Js.own mprops' k = Js.own mprops k)) /\
  (Js.truthy (Js.own dprops "components") = false ->
   rename_components (JObj mprops) = Ok (JObj mprops)).
Proof.
  intros Hdata. unfold rename_components.
  cbn [Js.Get bind ret Monad_Outcome]. rewrite Hdata. cbn [Js.truthy Js.Get].
  split; intros Hc; rewrite Hc; [| reflexivity].
  cbn [Js.Set_ Js.Delete].
  eexists _, _. split; [reflexivity |].
  split; [rewrite own_assign; reflexivity |].
  split; [rewrite own_remove, own_assign; reflexivity |].
  split; [rewrite own_remove; reflexivity |].
  split.
  - intros k H1 H2. rewrite own_remove, own_assign.
    destruct (String.eqb_spec "components" k); [congruence |].
    destruct (String.eqb_spec "list" k); [congruence | reflexivity].
  - intros k Hk. rewrite own_assign.
    destruct (String.eqb_spec "data" k); [congruence | reflexivity].
Qed.

(** X10 on a manifest with [components] and one more field. *)
Lemma components_renamed_witness :
  exists mprops' dprops',
    rename_components
      (JObj [("code", num 200);
             ("data", JObj [("components", JArr [num 1; num 2; num 3]);
                            ("kind", JStr "box64")])])
    = Ok (JObj mprops') /\
    Js.own mprops' "data" = JObj dprops' /\
    Js.own dprops' "list" = JArr [num 1; num 2; num 3] /\
    Js.own dprops' "components" = JUndefined /\
    (forall k, k <> "list" -> k <> "components" ->
               Js.own dprops' k
               = Js.own [("components", JArr [num 1; num 2; num 3]);
                         ("kind", JStr "box64")] k) /\
    (forall k, k <> "data" ->
               Js.own mprops' k
               = Js.own [("code", num 200);
                         ("data", JObj [("components", JArr [num 1; num 2; num 3]);
                                        ("kind", JStr "box64")])] k).
Proof.
  exact (proj1 (components_renamed
                  [("code", num 200);
                   ("data", JObj [("components", JArr [num 1; num 2; num 3]);
                                  ("kind", JStr "box64")])]
                  [("components", JArr [num 1; num 2; num 3]); ("kind", JStr "box64")]
                  eq_refl) eq_refl).
Defined.

(** ** Pages *)

Lemma firstn_add {A : Type} (n m : nat) (l : list A) :
  firstn (n + m) l = (firstn n l ++ firstn m (skipn n l))%list.
Proof.
  revert l. induction n as [| n IH]; intros l; [reflexivity |].
  destruct l as [| x l]; cbn.
  - destruct m; reflexivity.
  - rewrite IH. reflexivity.
Qed.

(** X11: the pagination of lines 427-441 for any integers [page] and
    [page_size], out of range, zero or negative: it never fails; [data.list]
    becomes a run of consecutive items of the list, at most [page_size] of
    them when [page_size] is not negative; [page] and [pageSize] are
    written as given; [total] is the [total] of the manifest when truthy
    and the length of the whole list otherwise; every other field is
    kept. *)
Theorem paginate_any_page (mprops dprops : list (string * JsVal))
        (items : list JsVal) (p s : Z) :
  Js.own mprops "data" = JObj dprops ->
  Js.own dprops "list" = JArr items ->
  exists mprops' dprops' skipped taken,
    paginate (num p) (num s) (JObj mprops) = Ok (JObj mprops') /\
    Js.own mprops' "data" = JObj dprops' /\
    Js.own dprops' "list" = JArr (firstn taken (skipn skipped items)) /\
    (0 <= s -> Z.of_nat taken <= s) /\
    Js.own dprops' "page" = num p /\
    Js.own dprops' "pageSize" = num s /\
    Js.own dprops' "total"
    = Js.or (Js.own dprops "total") (num (Z.of_nat (List.length items))) /\
    (forall k, ~ In k ["list"; "page"; "pageSize"; "total"] ->
               Js.own dprops' k = Js.own dprops k) /\
    (forall k, k <> "data" -> Js.own mprops' k = Js.own mprops k).
Proof.
  intros Hdata Hlist. unfold paginate.
  cbn [Js.Get bind Monad_Outcome]. rewrite Hdata. cbn [Js.truthy Js.Get].
  rewrite Hlist.
  cbn [Js.truthy Js.number num Js.slice Js.length Js.Set_ bind Monad_Outcome].
  unfold Js.slice_list.
  set (len := Z.of_nat (List.length items)).
  set (a := Str.clamp len ((p - 1) * s)).
  set (b := Str.clamp len ((p - 1) * s + s)).
  eexists _, _, (Z.to_nat a), (Z.to_nat (Z.max (b - a) 0)).
  split; [reflexivity |].
  split; [rewrite own_assign; reflexivity |].
  split; [rewrite !own_assign; reflexivity |].
  split.
  { intros Hs. subst a b len. unfold Str.clamp. set (start := (p - 1) * s).
    destruct (Z.ltb_spec start 0), (Z.ltb_spec (start + s) 0); lia. }
  split; [rewrite !own_assign; reflexivity |].
  split; [rewrite !own_assign; reflexivity |].
  split; [rewrite !own_assign; reflexivity |].
  split.
  - intros k Hk. rewrite !own_assign. cbn in Hk.
    destruct (String.eqb_spec "total" k); [tauto |].
    destruct (String.eqb_spec "pageSize" k); [tauto |].
    destruct (String.eqb_spec "page" k); [tauto |].
    destruct (String.eqb_spec "list" k); [tauto | reflexivity].
  - intros k Hk. rewrite own_assign.
    destruct (String.eqb_spec "data" k); [congruence | reflexivity].
Qed.

(** X11 on page -1 of a list of three, two to a page: the bounds are
    counted from the end of the list. *)
Lemma paginate_any_page_witness :
  exists mprops' dprops' skipped taken,
    paginate (num (-1)) (num 2)
      (JObj [("data", JObj [("list", JArr [num 1; num 2; num 3]); ("kind", JStr "x")])])
    = Ok (JObj mprops') /\
    Js.own mprops' "data" = JObj dprops' /\
    Js.own dprops' "list" = JArr (firstn taken (skipn skipped [num 1; num 2; num 3])) /\
    (0 <= 2 -> Z.of_nat taken <= 2) /\
    Js.own dprops' "page" = num (-1) /\
    Js.own dprops' "pageSize" = num 2 /\
    Js.own dprops' "total" = num 3 /\
    (forall k, ~ In k ["list"; "page"; "pageSize"; "total"] ->
               Js.own dprops' k
               = Js.own [("list", JArr [num 1; num 2; num 3]); ("kind", JStr "x")] k) /\
    (forall k, k <> "data" ->
               Js.own mprops' k
               = Js.own [("data", JObj [("list", JArr [num 1; num 2; num 3]);
                                        ("kind", JStr "x")])] k).
Proof.
  exact (paginate_any_page
           [("data", JObj [("list", JArr [num 1; num 2; num 3]); ("kind", JStr "x")])]
           [("list", JArr [num 1; num 2; num 3]); ("kind", JStr "x")]
           [num 1; num 2; num 3] (-1) 2 eq_refl eq_refl).
Defined.

Lemma pages_concat {A : Type} (l : list A) (s n : nat) :
  concat (map (fun p => firstn s (skipn ((p - 1) * s) l)) (seq 1 n))
  = firstn (n * s) l.
Proof.
  induction n as [| n IH]; [reflexivity |].
  rewrite seq_S, map_app, concat_app, IH. cbn [map concat].
  rewrite app_nil_r.
  replace ((1 + n - 1) * s)%nat with (n * s)%nat by lia.
  replace (S n * s)%nat with (n * s + s)%nat by lia.
  symmetry. apply firstn_add.
Qed.

(** X12: the pages tile the list.  For a page size [s >= 1], the lists of
    the pages 1 to [n], one after the other, are the first [n*s] items of
    the list: no item is skipped and none comes twice. *)
Theorem pages_tile (mprops dprops : list (string * JsVal)) (items : list JsVal)
        (s : Z) (n : nat) :
  Js.own mprops "data" = JObj dprops ->
  Js.own dprops "list" = JArr items ->
  1 <= s ->
  concat (map (fun p => list_of (paginate (num (Z.of_nat p)) (num s) (JObj mprops)))
            (seq 1 n))
  = firstn (n * Z.to_nat s) items.
Proof.
  intros Hdata Hlist Hs.
  rewrite <- (pages_concat items (Z.to_nat s) n). f_equal.
  apply map_ext_in. intros p Hp. apply in_seq in Hp.
  destruct (paginate_page mprops dprops items (Z.of_nat p) s ltac:(lia) Hs Hdata Hlist)
    as (mprops' & dprops' & Hpag & Hdata' & Hlist' & _).
  rewrite Hpag. cbn [list_of]. rewrite Hdata', Hlist'. f_equal. f_equal. nia.
Qed.

(** X12 on a list of three, two to a page. *)
Lemma pages_tile_witness :
  concat (map (fun p => list_of (paginate (num (Z.of_nat p)) (num 2)
                                   (JObj [("data", JObj [("list", JArr [num 1; num 2; num 3])])])))
            (seq 1 2))
  = firstn (2 * Z.to_nat 2) [num 1; num 2; num 3].
Proof.
  apply (pages_tile [("data", JObj [("list", JArr [num 1; num 2; num 3])])]
           [("list", JArr [num 1; num 2; num 3])] [num 1; num 2; num 3] 2 2);
    try reflexivity. lia.
Defined.

(** X13: a negative [page_size] on the first page is no error and no empty
    page: the end of the slice is counted from the end of the list, and the
    answer is the whole list less its last [-page_size] items. *)
Theorem negative_page_size (mprops dprops : list (string * JsVal))
        (items : list JsVal) (s : Z) :
  Js.own mprops "data" = JObj dprops ->
  Js.own dprops "list" = JArr items ->
  s < 0 ->
  list_of (paginate (num 1) (num s) (JObj mprops))
  = firstn (List.length items - Z.to_nat (- s)) items.
Proof.
  intros Hdata Hlist Hs.
  unfold paginate. cbn [Js.Get bind Monad_Outcome]. rewrite Hdata.
  cbn [Js.truthy Js.Get]. rewrite Hlist.
  cbn [Js.truthy Js.number num Js.slice Js.length Js.Set_ bind Monad_Outcome list_of].
  rewrite own_assign. cbn [String.eqb Ascii.eqb Bool.eqb]. rewrite !own_assign.
  cbn [String.eqb Ascii.eqb Bool.eqb].
  unfold Js.slice_list, Str.clamp.
  replace ((1 - 1) * s) with 0 by lia. cbn [Z.ltb Z.compare Z.add].
  destruct (Z.ltb_spec s 0); [| lia].
  rewrite Z.min_l by lia. cbn [Z.to_nat skipn]. f_equal. lia.
Qed.

(** X13 on a list of three and [page_size: -1]. *)
Lemma negative_page_size_witness :
  list_of (paginate (num 1) (num (-1))
             (JObj [("data", JObj [("list", JArr [num 1; num 2; num 3])])]))
  = firstn (List.length [num 1; num 2; num 3] - Z.to_nat (- (-1))) [num 1; num 2; num 3].
Proof.
  apply (negative_page_size [("data", JObj [("list", JArr [num 1; num 2; num 3])])]
           [("list", JArr [num 1; num 2; num 3])] [num 1; num 2; num 3] (-1));
    reflexivity.
Defined.

(** ** Signatures *)

Lemma keys_assign_sign (x : JsVal) (params : list (string * JsVal)) :
  filter (fun k => negb (k =? "sign")%string) (Js.keys (Js.assign "sign" x params))
  = filter (fun k => negb (k =? "sign")%string) (Js.keys params).
Proof.
  unfold Js.keys. induction params as [| [k v] rest IH]; [reflexivity |].
  cbn [Js.assign]. destruct (String.eqb_spec k "sign") as [-> | Hne].
  - reflexivity.
  - cbn [map fst filter]. rewrite IH. reflexivity.
Qed.

Lemma keys_remove_sign (params : list (string * JsVal)) :
  filter (fun k => negb (k =? "sign")%string) (Js.keys (Js.remove "sign" params))
  = filter (fun k => negb (k =? "sign")%string) (Js.keys params).
Proof.
  unfold Js.keys. induction params as [| [k v] rest IH]; [reflexivity |].
  cbn [Js.remove map fst filter]. destruct (String.eqb_spec k "sign") as [-> | Hne].
  - cbn [negb]. exact IH.
  - cbn [map fst filter]. destruct (String.eqb_spec k "sign"); [contradiction |].
    cbn [negb]. rewrite IH. reflexivity.
Qed.

Lemma signature_same_keys (rt : Runtime) (params params' : list (string * JsVal)) :
  filter (fun k => negb (k =? "sign")%string) (Js.keys params')
  = filter (fun k => negb (k =? "sign")%string) (Js.keys params) ->
  (forall k, k <> "sign" -> Js.own params' k = Js.own params k) ->
  generateSignature rt params' = generateSignature rt params.
Proof.
  intros Hkeys Hown. unfold generateSignature. rewrite Hkeys.
  erewrite map_ext_in; [reflexivity |].
  intros k Hk. cbv beta.
  eapply Permutation_in in Hk; [| apply Permutation_sym, StringSort.Permuted_sort].
  apply filter_In in Hk as [_ Hk].
  rewrite Hown; [reflexivity |].
  intros ->. discriminate Hk.
Qed.

Lemma signature_assign_sign (rt : Runtime) (x : JsVal) (params : list (string * JsVal)) :
  generateSignature rt (Js.assign "sign" x params) = generateSignature rt params.
Proof.
  apply signature_same_keys; [apply keys_assign_sign |].
  intros k Hk. rewrite own_assign.
  destruct (String.eqb_spec "sign" k); [congruence | reflexivity].
Qed.

(** X14: the signature ignores the field [sign]: writing any value into it,
    or taking it away, leaves the signature as it was, so a body whose
    [sign] is its own signature stays valid when it is signed again. *)
Theorem signature_ignores_sign (rt : Runtime) (x : JsVal)
        (params : list (string * JsVal)) :
  generateSignature rt (Js.assign "sign" x params) = generateSignature rt params /\
  generateSignature rt (Js.remove "sign" params) = generateSignature rt params /\
  generateSignature rt
    (Js.assign "sign" (JStr (generateSignature rt params)) params)
  = generateSignature rt params.
Proof.
  split; [apply signature_assign_sign |]. split; [| apply signature_assign_sign].
  apply signature_same_keys; [apply keys_remove_sign |].
  intros k Hk. rewrite own_remove.
  destruct (String.eqb_spec "sign" k); [congruence | reflexivity].
Qed.

Lemma append_assoc (s1 s2 s3 : string) : (s1 ++ s2) ++ s3 = s1 ++ (s2 ++ s3).
Proof. induction s1 as [| c s1 IH]; cbn; [reflexivity | rewrite IH; reflexivity]. Qed.

Lemma sort_two (a b : string) :
  String.leb a b = true -> StringSort.sort [a; b] = [a; b].
Proof.
  intros H. apply sorted_unique.
  - apply StringSort.StronglySorted_sort, leb_trans.
  - repeat constructor. exact H.
  - apply Permutation_sym, StringSort.Permuted_sort.
Qed.

(** X15: the signing text does not tell where a value ends.  An object with
    one field whose text goes on with [&b=y] and an object with that field
    cut there and a second field [b] with the text [y] have the same
    signature, when [b] sorts after the first key. *)
Theorem signature_join_ambiguity (rt : Runtime) (a b x y : string) :
  String.leb a b = true ->
  a <> b ->
  a <> "sign" ->
  b <> "sign" ->
  generateSignature rt [(a, JStr (x ++ "&" ++ b ++ "=" ++ y))]
  = generateSignature rt [(a, JStr x); (b, JStr y)].
Proof.
  intros Hle Hab Ha Hb. unfold generateSignature, Js.keys.
  cbn [map fst filter].
  destruct (String.eqb_spec a "sign"); [contradiction |].
  destruct (String.eqb_spec b "sign"); [contradiction |].
  cbn [negb]. rewrite (sort_two a b Hle).
  assert (Hone : StringSort.sort [a] = [a]) by reflexivity.
  rewrite Hone. unfold Js.own. cbn [map Js.lookup].
  rewrite !String.eqb_refl.
  destruct (String.eqb_spec a b); [contradiction |].
  cbn [Js.ToString Str.join String.concat].
  do 2 f_equal.
  rewrite !append_assoc. reflexivity.
Qed.

(** X15 on the fields [a] and [b]. *)
Lemma signature_join_ambiguity_witness :
  generateSignature Demo.rt [("a", JStr ("1" ++ "&" ++ "b" ++ "=" ++ "2"))]
  = generateSignature Demo.rt [("a", JStr "1"); ("b", JStr "2")].
Proof.
  apply (signature_join_ambiguity Demo.rt "a" "b" "1" "2");
    [reflexivity | discriminate | discriminate | discriminate].
Defined.

(** ** The credential *)

Lemma rebuild_trace (rt : Runtime) (r : Request.t) (tok : JsVal) :
  trace (rebuild rt r tok) = [].
Proof.
  unfold rebuild, pure.
  destruct (negb (read_bodyText r =? "")%string && Str.includes (read_bodyText r) fake_token).
  - cbn. destruct (parse rt (read_bodyText r)) as [v | |]; cbn; try reflexivity.
    destruct v; reflexivity.
  - destruct (negb (read_bodyText r =? "")%string); reflexivity.
Qed.


(** Interception, once a truthy token is there, is the rebuilding. *)
Lemma intercept_with_token (rt : Runtime) (request : Request.t)
      (t : list Event) (tok : JsVal) :
  shouldReplaceToken request = true ->
  obtain_token rt = Run t (Ok tok) ->
  Js.truthy tok = true ->
  intercept rt request = Run t (outcome (rebuild rt request tok)).
Proof.
  intros Hs Ht Htruthy. unfold intercept. rewrite Hs, (bind_Ok _ _ _ _ Ht), Htruthy.
  rewrite rebuild_trace, app_nil_r. reflexivity.
Qed.

(** X16: with a credential in the cache, interception asks the cache and
    nobody else: no request goes to the refresher and nothing is written
    to the cache. *)
Theorem cached_token_no_refresh (rt : Runtime) (request : Request.t)
        (cachedResponse : Response.t) :
  shouldReplaceToken request = true ->
  cache rt (TOKEN_REFRESHER_URL rt ++ "/token-cached") = Some cachedResponse ->
  trace (intercept rt request) = [CacheMatch (TOKEN_REFRESHER_URL rt ++ "/token-cached")] /\
  (forall cachedData realToken,
      parse rt (Response.text cachedResponse) = Ok cachedData ->
      Js.Get cachedData "token" = Ok realToken ->
      obtain_token rt
      = Run [CacheMatch (TOKEN_REFRESHER_URL rt ++ "/token-cached")] (Ok realToken)).
Proof.
  intros Hs Hc.
  assert (Hob : obtain_token rt
                = Run [CacheMatch (TOKEN_REFRESHER_URL rt ++ "/token-cached")]
                      (bind (parse rt (Response.text cachedResponse))
                         (fun cachedData => Js.Get cachedData "token"))).
  { unfold obtain_token, emit, token_cache_key. rewrite Hc.
    unfold json_of_response, pure. cbn [bind Monad_M trace outcome].
    destruct (parse rt (Response.text cachedResponse)); reflexivity. }
  split.
  - unfold intercept. rewrite Hs, Hob. cbn [bind Monad_M trace outcome].
    destruct (bind (parse rt (Response.text cachedResponse)) _) as [tok | |];
      try reflexivity.
    destruct (Js.truthy tok); cbn [trace]; [rewrite rebuild_trace |]; reflexivity.
  - intros cachedData realToken Hp Hg. rewrite Hob. cbn [bind Monad_Outcome].
    rewrite Hp. cbn. rewrite Hg. reflexivity.
Qed.

(** X16 on a request with the placeholder in its [token] header. *)
Lemma cached_token_witness :
  trace (intercept (Sample.runtime (Some (Demo.object [("token", Str.q "real-token")])) [])
           (Demo.bare "GET" "/any" [("token", "fake-token")]))
  = [CacheMatch (Sample.refresher ++ "/token-cached")].
Proof.
  exact (proj1 (cached_token_no_refresh
                  (Sample.runtime (Some (Demo.object [("token", Str.q "real-token")])) [])
                  (Demo.bare "GET" "/any" [("token", "fake-token")])
                  {| Response.status := 200; Response.headers := [];
                     Response.body := Text (Demo.object [("token", Str.q "real-token")]) |}
                  eq_refl eq_refl)).
Defined.

(** X17: with nothing in the cache, a refresher that answers with a
    success and a JSON value other than [null] has its answer scheduled for
    the cache, once, under the same key, with [Cache-Control: public,
    max-age=14400], whatever its [token] is, an empty or a missing one
    included. *)
Theorem fresh_token_cached (rt : Runtime) (tokenResponse : Response.t)
        (tokenData realToken : JsVal) :
  cache rt (TOKEN_REFRESHER_URL rt ++ "/token-cached") = None ->
  network rt (token_request rt) = Ok tokenResponse ->
  Response.ok tokenResponse = true ->
  parse rt (Response.text tokenResponse) = Ok tokenData ->
  Js.Get tokenData "token" = Ok realToken ->
  obtain_token rt
  = Run [ CacheMatch (TOKEN_REFRESHER_URL rt ++ "/token-cached");
          Fetched (token_request rt);
          CachePut (TOKEN_REFRESHER_URL rt ++ "/token-cached") (cached_answer tokenData) ]
        (Ok realToken).
Proof.
  intros Hc Hnet Hok Hp Hg.
  unfold obtain_token, emit, token_cache_key. rewrite Hc.
  unfold global_fetch. fold (token_request rt).
  change (Headers.of_record [("X-Worker-Auth", "gamehub-internal-token-fetch-2025")])
    with [("X-Worker-Auth", "gamehub-internal-token-fetch-2025")].
  fold (token_request rt). rewrite Hnet.
  cbn [bind Monad_M trace outcome]. rewrite Hok.
  unfold json_of_response, pure. rewrite Hp. cbn [bind Monad_M trace outcome].
  rewrite Hg. reflexivity.
Qed.

(** X17 on a refresher that answers with an empty token. *)
Lemma fresh_token_cached_witness :
  obtain_token (Sample.runtime None
                  [(Sample.refresher ++ "/token", (200, Demo.object [("token", Str.q "")]))])
  = Run [ CacheMatch (Sample.refresher ++ "/token-cached");
          Fetched (token_request
                     (Sample.runtime None
                        [(Sample.refresher ++ "/token",
                          (200, Demo.object [("token", Str.q "")]))]));
          CachePut (Sample.refresher ++ "/token-cached")
            (cached_answer (JObj [("token", JStr "")])) ]
        (Ok (JStr "")).
Proof.
  apply (fresh_token_cached
           (Sample.runtime None
              [(Sample.refresher ++ "/token", (200, Demo.object [("token", Str.q "")]))])
           {| Response.status := 200; Response.headers := [];
              Response.body := Text (Demo.object [("token", Str.q "")]) |}
           (JObj [("token", JStr "")]) (JStr ""));
    reflexivity.
Defined.

(** X18: when no usable credential is obtained, the request goes on as it
    came, placeholder and all.  So it is when the token found is falsy, and
    so it is when the cache is empty and the refresher does not answer with
    a success: then nothing is written to the cache either. *)
Theorem no_token_request_unchanged (rt : Runtime) (request : Request.t) :
  shouldReplaceToken request = true ->
  (forall t realToken,
      obtain_token rt = Run t (Ok realToken) ->
      Js.truthy realToken = false ->
      intercept rt request = Run t (Ok request)) /\
  (forall tokenResponse,
      cache rt (TOKEN_REFRESHER_URL rt ++ "/token-cached") = None ->
      network rt (token_request rt) = Ok tokenResponse ->
      Response.ok tokenResponse = false ->
      intercept rt request
      = Run [ CacheMatch (TOKEN_REFRESHER_URL rt ++ "/token-cached");
              Fetched (token_request rt) ]
            (Ok request)).
Proof.
  intros Hs.
  assert (Hfalsy : forall t realToken,
             obtain_token rt = Run t (Ok realToken) ->
             Js.truthy realToken = false ->
             intercept rt request = Run t (Ok request)).
  { intros t realToken Ht Hf. unfold intercept.
    rewrite Hs, (bind_Ok _ _ _ _ Ht), Hf. cbn [ret Monad_M trace outcome].
    rewrite app_nil_r. reflexivity. }
  split; [exact Hfalsy |].
  intros tokenResponse Hc Hnet Hok.
  apply (Hfalsy _ JUndefined); [| reflexivity].
  unfold obtain_token, emit, token_cache_key. rewrite Hc.
  unfold global_fetch.
  change (Headers.of_record [("X-Worker-Auth", "gamehub-internal-token-fetch-2025")])
    with [("X-Worker-Auth", "gamehub-internal-token-fetch-2025")].
  fold (token_request rt). rewrite Hnet.
  cbn [bind Monad_M trace outcome]. rewrite Hok. reflexivity.
Qed.

(** X18 on a refresher that is away. *)
Lemma no_token_witness :
  intercept (Sample.runtime None []) (Demo.bare "GET" "/any" [("token", "fake-token")])
  = Run [ CacheMatch (Sample.refresher ++ "/token-cached");
          Fetched (token_request (Sample.runtime None [])) ]
        (Ok (Demo.bare "GET" "/any" [("token", "fake-token")])).
Proof.
  apply (proj2 (no_token_request_unchanged (Sample.runtime None [])
                  (Demo.bare "GET" "/any" [("token", "fake-token")]) eq_refl)
           {| Response.status := 404; Response.headers := [];
              Response.body := Text "Not Found" |});
    reflexivity.
Defined.

(** ** The placeholder in the body *)

Lemma includes_nonempty (s pat : string) :
  pat <> ""%string -> Str.includes s pat = true -> s <> ""%string.
Proof.
  intros Hpat H ->. destruct pat; [congruence | discriminate H].
Qed.

Lemma read_placeholder (request : Request.t) :
  is_json_post request = true ->
  Str.includes (Request.text request) fake_token = true ->
  read_bodyText request = Request.text request /\
  shouldReplaceToken request = true /\
  negb (read_bodyText request =? "")%string
  && Str.includes (read_bodyText request) fake_token = true.
Proof.
  intros Hj Hi.
  assert (Hr : read_bodyText request = Request.text request)
    by (unfold read_bodyText; rewrite Hj; reflexivity).
  repeat split; [exact Hr | |].
  - unfold shouldReplaceToken. rewrite Hj, Hr, Hi. apply orb_true_r.
  - rewrite Hr, Hi, andb_true_r. apply negb_true_iff, String.eqb_neq.
    apply (includes_nonempty _ fake_token); [discriminate | exact Hi].
Qed.



(** X20: a JSON POST whose body holds the placeholder but is no JSON
    object (it does not parse, or it is [null], a truth value, a number or
    a text) is answered with status 500 as soon as a credential is there;
    nothing is sent upstream for it but the credential look-up. *)
Theorem placeholder_body_not_object (rt : Runtime) (request : Request.t)
        (t : list Event) (realToken : JsVal) :
  is_json_post request = true ->
  Str.includes (Request.text request) fake_token = true ->
  obtain_token rt = Run t (Ok realToken) ->
  Js.truthy realToken = true ->
  not_an_object (parse rt (Request.text request)) ->
  exists message,
    fetch rt request = Run t (Ok (internal_error message)) /\
    Response.status (internal_error message) = 500.
Proof.
  intros Hj Hi Ht Htruthy Hn.
  destruct (read_placeholder request Hj Hi) as (Hr & Hs & Hb).
  assert (Hpost : Request.method request <> "OPTIONS"%string).
  { apply POST_not_OPTIONS. unfold is_json_post in Hj.
    apply andb_true_iff in Hj as [Hm _]. apply String.eqb_eq, Hm. }
  assert (Hthrow : exists message,
             outcome (rebuild rt request realToken) = Throw message).
  { unfold rebuild. rewrite Hb, Hr.
    destruct (parse rt (Request.text request)) as [v | m |]; cbn in Hn.
    - destruct v; try contradiction; eexists; reflexivity.
    - eexists; reflexivity.
    - contradiction. }
  destruct Hthrow as [message Hthrow]. exists message. split; [| reflexivity].
  rewrite (fetch_not_options rt request Hpost). unfold pipeline.
  assert (Hi' : intercept rt request = Run t (Throw message)).
  { rewrite (intercept_with_token rt request t realToken Hs Ht Htruthy), Hthrow.
    reflexivity. }
  rewrite (bind_Throw _ _ _ _ Hi'). reflexivity.
Qed.

(** X20 on a body that is a JSON text. *)
Lemma placeholder_body_not_object_witness :
  exists message,
    fetch (Sample.runtime (Some (Demo.object [("token", Str.q "real-token")])) [])
      (Demo.post "/simulator/executeScript" Demo.json_type (Str.q "fake-token"))
    = Run [CacheMatch (Sample.refresher ++ "/token-cached")]
          (Ok (internal_error message)) /\
    Response.status (internal_error message) = 500.
Proof.
  exact (placeholder_body_not_object
           (Sample.runtime (Some (Demo.object [("token", Str.q "real-token")])) [])
           (Demo.post "/simulator/executeScript" Demo.json_type (Str.q "fake-token"))
           [CacheMatch (Sample.refresher ++ "/token-cached")]
           (JStr "real-token")
           eq_refl eq_refl eq_refl eq_refl I).
Defined.

(** ** The placeholder in the headers *)









Lemma same_name_sym (a b : string) :
  Headers.same_name a b = Headers.same_name b a.
Proof. apply String.eqb_sym. Qed.




(** *** [String.prototype.replace] *)











(** ** What goes upstream, and what every answer carries *)

Section Bounds.

Context {A B : Type} (Q : Fetch.t -> Prop).

Lemma sends_ret (n : nat) (a : A) : sends_at_most n Q (ret a).
Proof. split; [constructor | cbn; lia]. Qed.

Lemma sends_pure (n : nat) (o : Outcome A) : sends_at_most n Q (pure o).
Proof. split; [constructor | cbn; lia]. Qed.

Lemma sends_more (n m : nat) (c : M A) :
  (n <= m)%nat -> sends_at_most n Q c -> sends_at_most m Q c.
Proof. intros Hle [H1 H2]. split; [exact H1 | lia]. Qed.

Lemma sends_bind (n m : nat) (c : M A) (k : A -> M B) :
  sends_at_most n Q c ->
  (forall a, sends_at_most m Q (k a)) ->
  sends_at_most (n + m) Q (bind c k).
Proof.
  intros [Hc Hn] Hk. unfold sends_at_most. cbn [bind Monad_M].
  destruct (outcome c) as [a | msg |]; cbn [trace].
  - destruct (Hk a) as [Hk1 Hk2]. rewrite fetches_app, length_app. split.
    + apply Forall_app. split; assumption.
    + lia.
  - split; [exact Hc | lia].
  - split; [exact Hc | lia].
Qed.

Lemma sends_bind_pure (n : nat) (o : Outcome A) (k : A -> M B) :
  (forall a, sends_at_most n Q (k a)) ->
  sends_at_most n Q (bind (pure o) k).
Proof. intros Hk. apply (sends_bind 0 n); [apply sends_pure | exact Hk]. Qed.

Lemma answers_ret (P : A -> Prop) (a : A) : P a -> answers_with P (ret a).
Proof. intros H r E. injection E as <-. exact H. Qed.

Lemma answers_bind (P : B -> Prop) (c : M A) (k : A -> M B) :
  (forall a, answers_with P (k a)) -> answers_with P (bind c k).
Proof.
  intros Hk r. cbn [bind Monad_M].
  destruct (outcome c) as [a | msg |]; cbn [outcome]; [apply Hk | discriminate | discriminate].
Qed.

End Bounds.

Lemma sends_fetch {B : Type} (rt : Runtime) (Q : Fetch.t -> Prop) (n : nat)
      (rq : Fetch.t) (k : Response.t -> M B) :
  Q rq ->
  (forall a, sends_at_most n Q (k a)) ->
  sends_at_most (S n) Q (bind (global_fetch rt rq) k).
Proof.
  intros Hq Hk. apply (sends_bind Q 1 n); [| exact Hk].
  split; [repeat constructor; exact Hq | cbn; lia].
Qed.

Lemma sends_emit {B : Type} (Q : Fetch.t -> Prop) (n : nat) (e : Event) (k : unit -> M B) :
  fetches [e] = [] ->
  (forall a, sends_at_most n Q (k a)) ->
  sends_at_most n Q (bind (emit e) k).
Proof.
  intros He Hk. apply (sends_bind Q 0 n); [| exact Hk].
  unfold sends_at_most, emit. cbn [trace]. rewrite He. split; [constructor | cbn; lia].
Qed.

Ltac sends_step :=
  first
    [ apply sends_ret
    | apply sends_pure
    | apply sends_bind_pure; intros ?
    | apply sends_fetch; [| intros ?]
    | apply sends_emit; [reflexivity | intros ?]
    | match goal with
      | |- sends_at_most ?n ?Q (bind _ _) => apply (sends_bind Q 0 n); [| intros ?]
      end
    | match goal with
      | |- sends_at_most _ _ (if ?b then _ else _) => destruct b
      end ].

Lemma static_json_sends (rt : Runtime) (path msg : string) :
  sends_at_most 1 (Upstream rt) (static_json rt path msg).
Proof.
  unfold static_json, json_of_response. repeat sends_step. apply UStatic.
Qed.

Lemma dispatch_sends (rt : Runtime) (url : URL) (request : Request.t) :
  sends_at_most 1 (Upstream rt) (dispatch rt url request).
Proof.
  unfold dispatch.
  destruct (route (pathname url) (Request.method request)).
  - unfold getGameDetail, json_of_response. repeat sends_step. apply UGameDetail.
  - unfold getNewsList, json_of_request, json_of_response, news_list_url.
    repeat sends_step. apply UNews.
  - unfold getNewsGuideDetail, json_of_request, json_of_response.
    repeat sends_step. apply UNews.
  - unfold executeScript, json_of_request, json_of_response.
    repeat sends_step. apply UExecuteScript.
  - apply static_json_sends.
  - apply static_json_sends.
  - apply static_json_sends.
  - unfold getSteamHost. repeat sends_step. apply UStatic.
  - unfold getGameIcon. apply sends_ret.
  - unfold getComponentList, json_of_request, json_of_response.
    repeat sends_step. apply UStatic.
  - unfold fallback. repeat sends_step. apply UFallback.
Qed.

Lemma obtain_token_sends (rt : Runtime) :
  sends_at_most 1 (Upstream rt) (obtain_token rt).
Proof.
  unfold obtain_token, json_of_response.
  apply sends_emit; [reflexivity | intros _].
  destruct (cache rt (token_cache_key rt)).
  - repeat sends_step.
  - apply sends_fetch; [apply UToken |]. intros tokenResponse.
    destruct (Response.ok tokenResponse); repeat sends_step.
Qed.

Lemma rebuild_sends (rt : Runtime) (r : Request.t) (tok : JsVal) :
  sends_at_most 0 (Upstream rt) (rebuild rt r tok).
Proof.
  unfold sends_at_most. rewrite rebuild_trace. split; [constructor | cbn; lia].
Qed.

Lemma intercept_sends (rt : Runtime) (request : Request.t) :
  sends_at_most (if shouldReplaceToken request then 1 else 0) (Upstream rt)
    (intercept rt request).
Proof.
  unfold intercept. destruct (shouldReplaceToken request); [| apply sends_ret].
  apply (sends_bind (Upstream rt) 1 0); [apply obtain_token_sends |].
  intros tok. destruct (Js.truthy tok); [apply rebuild_sends | apply sends_ret].
Qed.

(** X23: whatever the request, the worker sends upstream only requests of
    six shapes: the credential look-up, the game detail with the caller's
    headers and body, the sanitized script request, a plain GET to the news
    aggregator, a plain GET to the static repository, or the proxied GET
    to the static repository.  It sends two of them at most, and one at
    most when the request holds no placeholder. *)
Theorem upstream_requests_known (rt : Runtime) (request : Request.t) :
  sends_at_most (if shouldReplaceToken request then 2 else 1) (Upstream rt)
    (fetch rt request).
Proof.
  assert (Hp : sends_at_most (if shouldReplaceToken request then 2 else 1) (Upstream rt)
                 (pipeline rt request)).
  { unfold pipeline.
    replace (if shouldReplaceToken request then 2 else 1)%nat
      with ((if shouldReplaceToken request then 1 else 0) + 1)%nat
      by (destruct (shouldReplaceToken request); reflexivity).
    apply sends_bind; [apply intercept_sends | intros m; apply dispatch_sends]. }
  unfold fetch. destruct (Request.method request =? "OPTIONS")%string.
  - apply sends_ret.
  - cbv zeta. destruct (outcome (pipeline rt request)); exact Hp.
Qed.

(** *** CORS *)

Lemma cors_respond (s : Z) (type : string) (b : Body) : cors (respond s type b).
Proof.
  intros name value Hin. cbn in Hin.
  destruct Hin as [E | [E | [E | []]]]; injection E as <- <-; vm_compute; auto.
Qed.

Lemma cors_fallback (upstream : Headers) (b : Body) (s : Z) (response : Response.t) :
  Response.make b s (Headers.of_record (fallback_headers upstream)) = Ok response ->
  cors response.
Proof.
  unfold Response.make. intros H.
  destruct (negb ((200 <=? s) && (s <=? 599))); [discriminate H |].
  destruct (Response.null_body_status s && negb (Body.is_null b)); [discriminate H |].
  injection H as <-. intros name value Hin. cbn [Response.headers]. cbn in Hin.
  destruct Hin as [E | [E | [E | []]]]; injection E as <- <-;
    (rewrite values_fallback by (vm_compute; discriminate));
    apply in_or_app; right; vm_compute; auto.
Qed.

Ltac answers_step :=
  first
    [ apply answers_ret; apply cors_respond
    | apply answers_bind; intros ?
    | match goal with
      | |- answers_with _ (if ?b then _ else _) => destruct b
      end ].

Lemma dispatch_cors (rt : Runtime) (url : URL) (request : Request.t) :
  answers_with cors (dispatch rt url request).
Proof.
  unfold dispatch.
  destruct (route (pathname url) (Request.method request));
    try (unfold getGameDetail, getNewsList, getNewsGuideDetail, executeScript,
           getBaseInfo, check_user_timer, getDnsIpPool, static_json, getSteamHost,
           getGameIcon, getComponentList, json_response;
         repeat answers_step; fail).
  unfold fallback. apply answers_bind. intros githubResponse r H.
  cbn [pure outcome] in H. apply (cors_fallback _ _ _ _ H).
Qed.

(** X24: every answer of the worker carries the three CORS headers: the
    preflight, the answers of the handlers, errors included, the proxied
    answers and the 500 of a failure.  (Under a name the proxied upstream
    answer has too, the CORS value is one of the values.) *)
Theorem every_answer_has_cors (rt : Runtime) (request : Request.t)
        (response : Response.t) :
  outcome (fetch rt request) = Ok response -> cors response.
Proof.
  unfold fetch. destruct (Request.method request =? "OPTIONS")%string.
  - intros H. injection H as <-. intros name value Hin. cbn in Hin.
    destruct Hin as [E | [E | [E | []]]]; injection E as <- <-; vm_compute; auto.
  - cbv zeta. destruct (outcome (pipeline rt request)) as [r | msg |] eqn:E.
    + rewrite E. intros H. injection H as <-.
      revert E. unfold pipeline. apply answers_bind. intros m. apply dispatch_cors.
    + cbn [outcome]. intros H. injection H as <-. apply cors_respond.
    + rewrite E. discriminate.
Qed.

(** X24 on a proxied answer whose upstream sets the allowed origin
    itself. *)
Lemma every_answer_has_cors_witness :
  cors {| Response.status := 200;
          Response.headers :=
            [ ("access-control-allow-origin", "https://static.example");
              ("Access-Control-Allow-Origin", "*");
              ("Access-Control-Allow-Methods", "GET, POST, OPTIONS");
              ("Access-Control-Allow-Headers", "Content-Type");
              ("Cache-Control", "public, max-age=300") ];
          Response.body := Text "hello" |}.
Proof.
  apply (every_answer_has_cors
           {| TOKEN_REFRESHER_URL := Sample.refresher;
              parse := Sample.parse_text;
              md5 := fun s => s;
              network := fun _ =>
                Ok {| Response.status := 200;
                      Response.headers :=
                        [("Access-Control-Allow-Origin", "https://static.example")];
                      Response.body := Text "hello" |};
              cache := fun _ => None;
              now := 0 |}
           (Demo.bare "GET" "/file" [])).
  reflexivity.
Defined.

(** ** The table of routes *)

Lemma route_sound (path method p m : string) :
  route_entry (route path method) = Some (p, m) -> p = path /\ m = method.
Proof.
  unfold route.
  repeat match goal with
         | |- context [((path =? ?c)%string && (method =? ?d)%string)%bool] =>
             destruct (String.eqb_spec path c) as [-> | ?];
             [destruct (String.eqb_spec method d) as [-> | ?] |];
             cbn [andb]
         end;
    cbn; intros H; try discriminate H; injection H as <- <-; split; reflexivity.
Qed.

Lemma route_other_method (r : Route) (path method m : string) :
  route_entry r = Some (path, m) -> method <> m -> route path method = RFallback.
Proof.
  intros Hr Hne.
  destruct (route path method) eqn:E; try reflexivity;
    (assert (Hs := route_sound path method); rewrite E in Hs;
     specialize (Hs _ _ eq_refl); destruct Hs as [Hp Hm];
     destruct r; cbn in Hr; try discriminate Hr;
     injection Hr as Hr1 Hr2; congruence).
Qed.

Lemma fallback_trace (rt : Runtime) (path : string) :
  trace (fallback rt path) = [Fetched (fallback_request path)].
Proof.
  unfold fallback, global_fetch, pure. cbn [bind Monad_M trace outcome].
  destruct (network rt (fallback_request path)); reflexivity.
Qed.

(** X25: the handlers answer only to their own method.  A request for a
    path of the table with another method (other than OPTIONS) is proxied:
    one GET for the static base joined with that path goes upstream, after
    the credential look-up if there is one, and nothing else. *)
Theorem other_method_is_proxied (rt : Runtime) (request modified : Request.t)
        (t0 : list Event) (r : Route) (m : string) :
  route_entry r = Some (pathname (Request.url request), m) ->
  Request.method request <> m ->
  Request.method request <> "OPTIONS"%string ->
  intercept rt request = Run t0 (Ok modified) ->
  trace (fetch rt request)
  = (t0 ++ [Fetched (fallback_request (pathname (Request.url request)))])%list /\
  Fetch.url (fallback_request (pathname (Request.url request)))
  = GITHUB_BASE ++ pathname (Request.url request) /\
  Fetch.method (fallback_request (pathname (Request.url request))) = "GET"%string.
Proof.
  intros Hr Hne Hopt Hi.
  destruct (intercept_preserves _ _ _ _ Hi) as [Hm' _].
  split; [| split; reflexivity].
  rewrite (fetch_trace_dispatch _ _ _ _ Hopt Hi). f_equal.
  unfold dispatch. rewrite Hm', (route_other_method r _ _ m Hr Hne).
  apply fallback_trace.
Qed.

(** X25 on a GET for the path of the icons. *)
Lemma other_method_is_proxied_witness :
  trace (fetch (Sample.runtime None []) (Demo.bare "GET" "/card/getGameIcon" []))
  = ([] ++ [Fetched (fallback_request "/card/getGameIcon")])%list /\
  Fetch.url (fallback_request "/card/getGameIcon") = GITHUB_BASE ++ "/card/getGameIcon" /\
  Fetch.method (fallback_request "/card/getGameIcon") = "GET"%string.
Proof.
  apply (other_method_is_proxied (Sample.runtime None [])
           (Demo.bare "GET" "/card/getGameIcon" [])
           (Demo.bare "GET" "/card/getGameIcon" []) [] RGameIcon "POST");
    [reflexivity | discriminate | discriminate | reflexivity].
Defined.

(** ** Bodies that cannot be read *)

Lemma reads_json_POST (path method : string) :
  reads_json (route path method) = true -> method = "POST"%string.
Proof.
  intros H.
  destruct (route path method) eqn:E; try discriminate H;
    (assert (Hs := route_sound path method); rewrite E in Hs;
     destruct (Hs _ _ eq_refl) as [_ Hm]; symmetry; exact Hm).
Qed.

(** X26: on the four routes that read the body as JSON (news list, news
    detail, script, component list), a body that does not parse, or that is
    [null], is answered with status 500, and nothing is sent upstream for
    it beyond what interception sent. *)
Theorem unreadable_body_is_500 (rt : Runtime) (request modified : Request.t)
        (t0 : list Event) :
  reads_json (route (pathname (Request.url request)) (Request.method request)) = true ->
  intercept rt request = Run t0 (Ok modified) ->
  unreadable (parse rt (Request.text modified)) ->
  exists message,
    fetch rt request = Run t0 (Ok (internal_error message)) /\
    Response.status (internal_error message) = 500.
Proof.
  intros Hr Hi Hu.
  assert (Hpost := reads_json_POST _ _ Hr).
  destruct (intercept_preserves _ _ _ _ Hi) as [Hm' _].
  assert (Hd : exists message,
             dispatch rt (Request.url request) modified = Run [] (Throw message)).
  { unfold dispatch. rewrite Hm'.
    destruct (route (pathname (Request.url request)) (Request.method request));
      try discriminate Hr;
      unfold getNewsList, getNewsGuideDetail, executeScript, getComponentList,
        json_of_request, pure;
      cbn [bind Monad_M trace outcome];
      (destruct (parse rt (Request.text modified)) as [v | msg |]; cbn in Hu;
       [destruct v; try contradiction | | contradiction]);
      eexists; reflexivity. }
  destruct Hd as [message Hd]. exists message. split; [| reflexivity].
  rewrite (fetch_not_options _ _ (POST_not_OPTIONS _ Hpost)).
  rewrite (pipeline_dispatch _ _ _ _ Hi), Hd. cbn [outcome trace].
  rewrite app_nil_r. reflexivity.
Qed.

(** X26 on a component listing whose body is not JSON. *)
Lemma unreadable_body_witness :
  exists message,
    fetch (Sample.runtime None [])
      (Demo.post "/simulator/v2/getComponentList" Demo.json_type "type=1")
    = Run [] (Ok (internal_error message)) /\
    Response.status (internal_error message) = 500.
Proof.
  exact (unreadable_body_is_500 (Sample.runtime None [])
           (Demo.post "/simulator/v2/getComponentList" Demo.json_type "type=1")
           (Demo.post "/simulator/v2/getComponentList" Demo.json_type "type=1")
           [] eq_refl eq_refl I).
Defined.

(** ** The answer of the script route *)


